(** * Canvas MCP: the Canvas API client, the tool dispatcher and the
    security middleware, embedded in Rocq.

    The development follows the TypeScript sources:
    - the Canvas client: [CanvasClient] with [fetchWithTimeout],
      [parseLinkHeader], [getWithPagination], [listCourses],
      [listAssignments], [getSubmissionStatus], [getCourseGrades] and
      [listUpcoming];
    - the tool definitions: [handleToolCall];
    - the HTTP server: [validateOrigin], [validateHost],
      [securityMiddleware] and [mcpAuthMiddleware].

    Part I holds the model, Part II the theorems, Part III the theorems
    at concrete inputs. *)

From Stdlib Require Import ZArith List String Ascii Bool Lia.
From Stdlib Require Import QArith.QArith_base QArith.Qround.
From stdpp Require Import gmap strings pretty.
Import ListNotations.

Open Scope string_scope.
Open Scope list_scope.
Open Scope Z_scope.

(* ================================================================== *)
(** * Part I. The model                                                *)
(* ================================================================== *)

(** ** ECMAScript values and primitives used by the sources

    Strings are sequences of code units below 256 (what an HTTP header
    or an ASCII JSON payload carries). The numbers of the payloads (ids,
    scores, day counts, status codes) are whole numbers whose decimal
    form has fewer than 22 digits, an integer [Z]; the one number of
    which the sources take the integer part, the configured timeout, is
    a rational. A [Date] is its time value in milliseconds, [None]
    standing for an Invalid Date, and a number that may be [NaN] is an
    [option Z] in the same way. *)

Module Js.

(** A property that is absent ([undefined]), [null], or carries a value:
    the TypeScript [x?: T | null]. *)
Inductive nullable (A : Type) : Type :=
| Undefined
| Null
| Value (a : A).
Arguments Undefined {A}.
Arguments Null {A}.
Arguments Value {A} a.

(** [x !== null]: only [null] itself is excluded, [undefined] is not. *)
Definition strict_ne_null {A} (x : nullable A) : bool :=
  match x with Null => false | _ => true end.

(** [x !== null && x !== undefined]. *)
Definition is_present {A} (x : nullable A) : bool :=
  match x with Value _ => true | _ => false end.

(** [x ?? y]. *)
Definition nullish_or {A} (x y : nullable A) : nullable A :=
  match x with Value _ => x | _ => y end.

(** [x ?? null], read as an optional value ([None] is [null]). *)
Definition or_null {A} (x : nullable A) : option A :=
  match x with Value a => Some a | _ => None end.

(** Truthiness of a string: every string but the empty one. *)
Definition truthy_string (s : string) : bool := negb (s =? "")%string.

Definition truthy_nstring (x : nullable string) : bool :=
  match x with Value s => truthy_string s | _ => false end.

(** [s || null] on an optional string. *)
Definition string_or_null (x : nullable string) : option string :=
  match x with
  | Value s => if truthy_string s then Some s else None
  | _ => None
  end.

(** [n || null] on an optional number: [0] is falsy. *)
Definition number_or_null (x : nullable Z) : option Z :=
  match x with
  | Value n => if n =? 0 then None else Some n
  | _ => None
  end.

(** [b || false] and [b === true] on an optional boolean. *)
Definition bool_or_false (x : option bool) : bool := default false x.
Definition is_true_strict (x : option bool) : bool :=
  match x with Some true => true | _ => false end.

(** *** Untyped values: what [Record<string, unknown>] can hold. *)
#[warnings="-register-all"]
Inductive JsVal : Type :=
| JUndefined
| JNull
| JBool (b : bool)
| JNum (n : Z)
| JStr (s : string)
| JArr (elems : list JsVal)
| JObj (props : list (string * JsVal)).

(** ToBoolean. *)
Definition truthy (v : JsVal) : bool :=
  match v with
  | JUndefined | JNull => false
  | JBool b => b
  | JNum n => negb (n =? 0)
  | JStr s => truthy_string s
  | JArr _ | JObj _ => true
  end.

Fixpoint join (sep : string) (l : list string) : string :=
  match l with
  | [] => ""
  | [s] => s
  | s :: rest => s +:+ sep +:+ join sep rest
  end.

(** Whether a value has a primitive value. The values are those of a
    parsed JSON text: an object has the properties of the text and
    inherits [toString] and [valueOf] from [Object.prototype]. A
    property [toString] of its own is no function and hides the
    inherited one, and the inherited [valueOf] returns the object, so
    the conversion to a primitive (to a string or to a number alike)
    throws exactly for an object with such a property; the conversion of
    an array joins the conversions of its elements, [null] and
    [undefined] apart. *)
Fixpoint convertible (v : JsVal) : bool :=
  match v with
  | JArr elems =>
      forallb (fun e => match e with
                        | JUndefined | JNull => true
                        | _ => convertible e
                        end) elems
  | JObj props =>
      negb (existsb (fun kv => (fst kv =? "toString")%string) props)
  | _ => true
  end.

(** ToString, as a template literal or [String(v)] applies it, for a
    value that is [convertible] (for another one it throws: [to_string]
    below). An array prints its elements joined by commas, [null] and
    [undefined] elements as the empty string. *)
Fixpoint ToString (v : JsVal) : string :=
  match v with
  | JUndefined => "undefined"
  | JNull => "null"
  | JBool true => "true"
  | JBool false => "false"
  | JNum n => pretty n
  | JStr s => s
  | JArr elems =>
      join ","
        (List.map (fun e => match e with
                            | JUndefined | JNull => ""
                            | _ => ToString e
                            end) elems)
  | JObj _ => "[object Object]"
  end.

(** [v === s] for a string literal [s]. *)
Definition strict_eq_string (v : JsVal) (s : string) : bool :=
  match v with JStr s' => (s' =? s)%string | _ => false end.

(** [v !== undefined]. *)
Definition is_defined (v : JsVal) : bool :=
  match v with JUndefined => false | _ => true end.

(** *** Characters and strings *)

Definition code (c : ascii) : Z := Z.of_N (N_of_ascii c).

Definition dquote : ascii := ascii_of_nat 34.

(** [\s], and what [trim] strips: WhiteSpace and LineTerminator code
    units below 256. *)
Definition is_space (c : ascii) : bool :=
  let n := code c in
  ((9 <=? n) && (n <=? 13)) || (n =? 32) || (n =? 160).

(** What [.] does not match. *)
Definition is_line_terminator (c : ascii) : bool :=
  let n := code c in (n =? 10) || (n =? 13).

(** [\d]. *)
Definition is_digit (c : ascii) : bool :=
  let n := code c in (48 <=? n) && (n <=? 57).

Fixpoint take_while (p : ascii -> bool) (s : string) : string :=
  match s with
  | String c s' => if p c then String c (take_while p s') else ""
  | EmptyString => ""
  end.

Fixpoint drop_while (p : ascii -> bool) (s : string) : string :=
  match s with
  | String c s' => if p c then drop_while p s' else s
  | EmptyString => ""
  end.

Fixpoint drop (n : nat) (s : string) : string :=
  match n, s with
  | O, _ => s
  | S n', String _ s' => drop n' s'
  | S _, EmptyString => ""
  end.

Fixpoint rev_string (s : string) : string :=
  match s with
  | EmptyString => ""
  | String c s' => rev_string s' +:+ String c ""
  end.

Fixpoint forallb_string (p : ascii -> bool) (s : string) : bool :=
  match s with
  | EmptyString => true
  | String c s' => p c && forallb_string p s'
  end.

(** [s.startsWith(p)]. *)
Fixpoint startsWith (s p : string) : bool :=
  match p, s with
  | EmptyString, _ => true
  | String a p', String b s' => Ascii.eqb a b && startsWith s' p'
  | String _ _, EmptyString => false
  end.

(** [s.endsWith(p)]. *)
Definition endsWith (s p : string) : bool :=
  startsWith (rev_string s) (rev_string p).

(** [s.includes(p)]. *)
Fixpoint includes (s p : string) : bool :=
  startsWith s p ||
  match s with
  | EmptyString => false
  | String _ s' => includes s' p
  end.

(** [s.split(c)] for a one-character separator. *)
Fixpoint split (c : ascii) (s : string) : list string :=
  match s with
  | EmptyString => [""]
  | String a s' =>
      if Ascii.eqb a c then "" :: split c s'
      else match split c s' with
           | [] => [String a ""]
           | x :: rest => String a x :: rest
           end
  end.

(** [s.trim()]. *)
Definition trim (s : string) : string :=
  rev_string (drop_while is_space (rev_string (drop_while is_space s))).

(** [s.replace(c, '')] for a one-character pattern: the first occurrence
    only. *)
Fixpoint remove_first (c : ascii) (s : string) : string :=
  match s with
  | EmptyString => ""
  | String a s' => if Ascii.eqb a c then s' else String a (remove_first c s')
  end.

(** ASCII lower-casing, for a case-insensitive match of ASCII letters. *)
Definition lower (c : ascii) : ascii :=
  let n := code c in
  if (65 <=? n) && (n <=? 90) then ascii_of_N (Z.to_N (n + 32)) else c.

Fixpoint lower_string (s : string) : string :=
  match s with
  | EmptyString => ""
  | String c s' => String (lower c) (lower_string s')
  end.

(** The value of a decimal numeral: one or more digits. *)
Fixpoint decimal_acc (s : string) (acc : Z) : option Z :=
  match s with
  | EmptyString => Some acc
  | String c s' =>
      if is_digit c then decimal_acc s' (10 * acc + (code c - 48)) else None
  end.

Definition decimal (s : string) : option Z :=
  match s with
  | EmptyString => None
  | _ => decimal_acc s 0
  end.

(** *** Dates *)

(** TimeClip: a time value farther than 8.64e15 ms from the epoch makes
    an Invalid Date. *)
Definition max_time : Z := 8640000000000000.

Definition TimeClip (t : option Z) : option Z :=
  match t with
  | Some t => if Z.abs t <=? max_time then Some t else None
  | None => None
  end.

(** Relational comparison of two Dates (through their time values): a
    comparison with [NaN] is false. *)
Definition date_lt (a b : option Z) : bool :=
  match a, b with Some x, Some y => x <? y | _, _ => false end.
Definition date_le (a b : option Z) : bool :=
  match a, b with Some x, Some y => x <=? y | _, _ => false end.
Definition date_ge (a b : option Z) : bool := date_le b a.

(** Subtraction and multiplication of numbers that may be [NaN]. *)
Definition num_sub (a b : option Z) : option Z :=
  match a, b with Some x, Some y => Some (x - y) | _, _ => None end.
Definition num_add (a b : option Z) : option Z :=
  match a, b with Some x, Some y => Some (x + y) | _, _ => None end.
Definition num_mul (a b : option Z) : option Z :=
  match a, b with Some x, Some y => Some (x * y) | _, _ => None end.

(** *** Array.prototype.sort

    The sort is stable, and a comparator result of [NaN] counts as [0].
    The model is the stable insertion sort: every conforming sort gives
    the same array when the comparator is consistent (when it is not,
    the elements of the result are determined, their order is not). *)
Section Sort.
Context {A : Type} (cmp : A -> A -> option Z).

Definition after (x y : A) : bool :=
  match cmp x y with Some v => 0 <? v | None => false end.

Fixpoint insert_sorted (x : A) (l : list A) : list A :=
  match l with
  | [] => [x]
  | y :: l' => if after x y then y :: insert_sorted x l' else x :: l
  end.

Fixpoint sort (l : list A) : list A :=
  match l with
  | [] => []
  | x :: l' => insert_sorted x (sort l')
  end.

End Sort.

(** *** Errors and results *)

(** A thrown value: an [Error] with its [name], its [code] property when
    that is a string, and its [message]. *)
Record JsError : Type := mkError {
  err_name : string;
  err_code : option string;
  err_message : string }.

(** [new Error(message)] with [code] set afterwards. *)
Definition coded_error (c message : string) : JsError :=
  mkError "Error" (Some c) message.


(** The places where the engine or the platform raises the error, not
    the program: the message, and the code if there is one, are the
    platform's. *)
Inductive Fault : Type :=
| InvalidURL                     (** [new URL(s)] for an [s] that is no URL *)
| InvalidJSON                    (** [response.json()] on a body that is no JSON *)
| NotSpreadable                  (** [push(...data)] for a [data] that cannot
                                     be iterated *)
| NoPrimitive                    (** the conversion of an object that has no
                                     primitive value *)
| NotCallable (callee : string)  (** the call of a value that is no function *)
| NoProperties (base : string)   (** a property read on [null] or on
                                     [undefined] *).

(** The outcome of an asynchronous call. [Stuck] is not a behaviour of
    the program: it marks a run that asks the scripted upstream for more
    responses than the script holds. *)
Inductive Result (A : Type) : Type :=
| Ret (a : A)
| Throw (e : JsError)
| Stuck.
Arguments Ret {A} a.
Arguments Throw {A} e.
Arguments Stuck {A}.

(** Computations that may throw and that log the URL of every request
    they send. *)
Definition M (A : Type) : Type := (Result A * list string)%type.

Definition ret {A} (a : A) : M A := (Ret a, []).
Definition throw {A} (e : JsError) : M A := (Throw e, []).
Definition stuck {A} : M A := (Stuck, []).
Definition request (url : string) : M unit := (Ret tt, [url]).

Definition bind {A B} (m : M A) (k : A -> M B) : M B :=
  match m with
  | (Ret a, l) => let '(r, l') := k a in (r, l ++ l')
  | (Throw e, l) => (Throw e, l)
  | (Stuck, l) => (Stuck, l)
  end.

(** [try { m } catch (error) { handler error }]. *)
Definition try_catch {A} (m : M A) (handler : JsError -> M A) : M A :=
  match m with
  | (Throw e, l) => let '(r, l') := handler e in (r, l ++ l')
  | other => other
  end.

End Js.

Import Js.

Notation "'let*' x ':=' m 'in' k" := (bind m (fun x => k))
  (at level 10, x name, m at level 100, k at level 200).

(** ** The platform

    Library functions whose algorithms are not part of the sources are
    taken as an interface; every theorem of Part II holds for every
    implementation of it. *)
Class Runtime : Type := {
  (** [new Date(s).getTime()]: [None] is [NaN] (an Invalid Date). *)
  Date_parse : string -> option Z;
  (** [Number(s)] for a string [s]: [None] is [NaN]. *)
  StringToNumber : string -> option Z;
  (** [new URL(base)] followed by [searchParams.append] of each pair and
      [toString()]: [None] when [new URL] throws. *)
  URL_serialize : string -> list (string * string) -> option string;
  (** [new URL(origin)]: its [protocol] and [hostname], [None] when it
      throws. *)
  URL_parse : string -> option (string * string);
  (** The error raised at a [Fault]: a [TypeError] or a [SyntaxError],
      never a plain [Error] as the program creates them. *)
  raised : Fault -> JsError;
  raised_name : forall f, err_name (raised f) <> "Error" }.

(** The conversion of a value to a primitive, which a template literal,
    [Number(v)] and an arithmetic operator perform: it throws for a
    value that has none. *)
Definition to_primitive `{Runtime} (v : JsVal) : M unit :=
  if convertible v then ret tt else throw (raised NoPrimitive).

(** [Number(v)], for a value that is [convertible]. *)
Definition Number `{Runtime} (v : JsVal) : option Z :=
  match v with
  | JUndefined => None
  | JNull => Some 0
  | JBool b => Some (if b then 1 else 0)
  | JNum n => Some n
  | JStr s => StringToNumber s
  | JArr _ => StringToNumber (ToString v)
  | JObj _ => None
  end.

(** A template literal with [v], and [Number(v)], as the code evaluates
    them. *)
Definition to_string `{Runtime} (v : JsVal) : M string :=
  let* _ := to_primitive v in ret (ToString v).
Definition to_number `{Runtime} (v : JsVal) : M (option Z) :=
  let* _ := to_primitive v in ret (Number v).

(** ** The Canvas client *)

Module Canvas.

Record CanvasConfig : Type := mkConfig {
  cfg_baseUrl : string;
  cfg_apiToken : string;
  (** [None]: absent, not a number, or not finite. *)
  cfg_timeoutMs : option Q }.

Record CanvasClient : Type := mkClient {
  baseUrl : string;
  apiToken : string;
  timeoutMs : Z }.

(** [s.replace(/\/$/, '')]. *)
Definition strip_trailing_slash (s : string) : string :=
  match rev_string s with
  | String c r => if Ascii.eqb c "/" then rev_string r else s
  | EmptyString => s
  end.

Definition constructor (config : CanvasConfig) : CanvasClient :=
  {| baseUrl := strip_trailing_slash (cfg_baseUrl config);
     apiToken := cfg_apiToken config;
     timeoutMs := match cfg_timeoutMs config with
                  | Some t => if 0 <? Qnum t then Qfloor t else 15000
                  | None => 15000
                  end |}.

(** *** Responses *)

(** What the client reads of a [Response]: status, status text, the
    [Link] header and the result of [json()] ([None] when it rejects). *)
Record Response (P : Type) : Type := mkResponse {
  status : Z;
  statusText : string;
  Link : option string;
  json : option P }.
Arguments mkResponse {P} _ _ _ _.
Arguments status {P} _.
Arguments statusText {P} _.
Arguments Link {P} _.
Arguments json {P} _.

(** [response.ok]. *)
Definition ok {P} (r : Response P) : bool :=
  (200 <=? status r) && (status r <=? 299).

(** What [fetch] settles to: it rejects with an error (among them the
    [AbortError] that the timer's [controller.abort()] causes) or
    resolves with a response. *)
Inductive Fetched (P : Type) : Type :=
| Rejects (err : JsError)
| Resolves (r : Response P).
Arguments Rejects {P} err.
Arguments Resolves {P} r.

Definition AbortError : JsError :=
  mkError "AbortError" None "This operation was aborted".

(** A parsed body that is expected to be an array. The client uses
    such a body in two ways: [getWithPagination] spreads it into its
    results, and [getCourseGrades] calls [filter] on it. [Elements l] is
    a body that can be used in that way and holds the values [l]: an
    array with these elements, and for the spread also a string, whose
    characters are then the values (the record types below describe the
    elements of arrays only). [NotIterable] is every other body, on
    which that use throws: an object, a number, a boolean, [null], and
    for [filter] a string. *)
Inductive Listing (T : Type) : Type :=
| NotIterable
| Elements (l : list T).
Arguments NotIterable {T}.
Arguments Elements {T} l.

Definition fetchWithTimeout {P} (this : CanvasClient) (input : string)
    (upstream : Fetched P) : M (Response P) :=
  let* _ := request input in
  match upstream with
  | Resolves res => ret res
  | Rejects err =>
      if (err_name err =? "AbortError")%string
         || match err_code err with
            | Some c => (c =? "ABORT_ERR")%string
            | None => false
            end
      then throw (coded_error "timeout"
                    ("Canvas request timed out after "
                       +:+ pretty (timeoutMs this) +:+ "ms"))
      else throw err
  end.

(** The error [fetchWithTimeout] throws when [fetch] rejects with
    [err]. *)
Definition rethrown (this : CanvasClient) (err : JsError) : JsError :=
  if (err_name err =? "AbortError")%string
     || match err_code err with
        | Some c => (c =? "ABORT_ERR")%string
        | None => false
        end
  then coded_error "timeout"
         ("Canvas request timed out after "
            +:+ pretty (timeoutMs this) +:+ "ms")
  else err.

(** *** parseLinkHeader *)

(** The regular expression of [part.match], [<([^>]+)>;\s*rel=Q([^Q]+)Q]
    with [Q] the double quote, tried at the start of [s]: every
    quantifier is followed by a character outside its class, so only the
    longest run can match. *)
Definition link_match_here (s : string) : option (string * string) :=
  match s with
  | String "<" s1 =>
      let url := take_while (fun c => negb (Ascii.eqb c ">")) s1 in
      match url, drop_while (fun c => negb (Ascii.eqb c ">")) s1 with
      | String _ _, String ">" (String ";" s2) =>
          let s3 := drop_while is_space s2 in
          if startsWith s3 ("rel=" +:+ String dquote "") then
            let s4 := drop 5 s3 in
            let rel := take_while (fun c => negb (Ascii.eqb c dquote)) s4 in
            match rel, drop_while (fun c => negb (Ascii.eqb c dquote)) s4 with
            | String _ _, String _ _ => Some (url, rel)
            | _, _ => None
            end
          else None
      | _, _ => None
      end
  | _ => None
  end.

(** The leftmost match in [s]. *)
Fixpoint link_match (s : string) : option (string * string) :=
  match link_match_here s with
  | Some m => Some m
  | None =>
      match s with
      | String _ s' => link_match s'
      | EmptyString => None
      end
  end.

(** The [for] loop over the parts: a later [next] overwrites an earlier
    one. *)
Fixpoint parseLinkHeader_parts (parts : list string) (next : option string)
    : option string :=
  match parts with
  | [] => next
  | part :: rest =>
      match link_match part with
      | Some (url, rel) =>
          if (rel =? "next")%string
          then parseLinkHeader_parts rest (Some url)
          else parseLinkHeader_parts rest next
      | None => parseLinkHeader_parts rest next
      end
  end.

(** The result is [links.next]. *)
Definition parseLinkHeader (linkHeader : option string) : option string :=
  match linkHeader with
  | None => None
  | Some h =>
      if truthy_string h then parseLinkHeader_parts (split "," h) None
      else None
  end.

(** *** getWithPagination *)

Definition canvas_api_error {P} (response : Response P) : JsError :=
  coded_error "canvas_api_error"
    ("Canvas API error: " +:+ pretty (status response) +:+ " "
       +:+ statusText response).

Definition invalid_response : JsError :=
  coded_error "invalid_response" "Invalid Canvas API response".

(** The [while (nextUrl)] loop; [upstream] scripts what the successive
    requests settle to. *)
Fixpoint getWithPagination_loop `{Runtime} {T} (this : CanvasClient)
    (upstream : list (Fetched (Listing T))) (nextUrl : option string)
    (results : list T) {struct upstream} : M (list T) :=
  match nextUrl with
  | Some url =>
      if truthy_string url then
        match upstream with
        | [] => stuck
        | page :: upstream' =>
            let* response := fetchWithTimeout this url page in
            if negb (ok response) then throw (canvas_api_error response)
            else
              match json response with
              | None => throw invalid_response
              | Some NotIterable => throw (raised NotSpreadable)
              | Some (Elements data) =>
                  getWithPagination_loop this upstream'
                    (parseLinkHeader (Link response)) (results ++ data)
              end
        end
      else ret results
  | None => ret results
  end.

Definition getWithPagination `{Runtime} {T} (this : CanvasClient)
    (endpoint : string) (params : list (string * string))
    (upstream : list (Fetched (Listing T))) : M (list T) :=
  match URL_serialize (baseUrl this +:+ "/api/v1" +:+ endpoint)
          (params ++ [("per_page", "100")]) with
  | None => throw (raised InvalidURL)
  | Some url => getWithPagination_loop this upstream (Some url) []
  end.

(** *** listCourses *)

Record RawCourse : Type := mkRawCourse {
  crs_id : Z;
  crs_name : string;
  crs_course_code : string;
  crs_enrollment_state : option string }.

Record Course : Type := mkCourse {
  course_id : Z;
  course_name : string;
  course_code : string;
  course_enrollment_state : string }.

Definition normalize_course (course : RawCourse) : Course :=
  {| course_id := crs_id course;
     course_name := crs_name course;
     course_code := crs_course_code course;
     course_enrollment_state :=
       match crs_enrollment_state course with
       | Some s => if truthy_string s then s else "active"
       | None => "active"
       end |}.

Definition listCourses `{Runtime} (this : CanvasClient)
    (upstream : list (Fetched (Listing RawCourse))) : M (list Course) :=
  let* courses :=
    getWithPagination this "/courses"
      [("enrollment_state", "active"); ("include[]", "enrollment_state")]
      upstream in
  ret (List.map normalize_course courses).

(** *** listAssignments *)

Record RawSubmission : Type := mkRawSubmission {
  sub_workflow_state : string;
  sub_submitted_at : nullable string;
  sub_missing : option bool;
  sub_late : option bool }.

Record RawAssignment : Type := mkRawAssignment {
  asg_id : Z;
  asg_name : string;
  asg_due_at : nullable string;
  asg_unlock_at : nullable string;
  asg_lock_at : nullable string;
  asg_points_possible : option Z;
  asg_submission_types : option (list string);
  asg_submission : option RawSubmission }.

Record SubmissionStatus : Type := mkSubmissionStatus {
  st_workflow_state : string;
  st_submitted_at : nullable string;
  st_missing : bool;
  st_late : bool }.

Record Assignment : Type := mkAssignment {
  assignment_id : Z;
  assignment_name : string;
  due_at : nullable string;
  unlock_at : nullable string;
  lock_at : nullable string;
  points_possible : Z;
  submission_types : list string;
  submission_status : option SubmissionStatus }.

(** The callback of the [includeFuture] filter. *)
Definition unlocked `{Runtime} (now : Z) (a : RawAssignment) : bool :=
  if negb (truthy_nstring (asg_unlock_at a)) then true
  else match asg_unlock_at a with
       | Value s => date_le (Date_parse s) (Some now)
       | _ => true
       end.

(** [submission?.submitted_at !== null && submission?.submitted_at !==
    undefined]. *)
Definition hasSubmittedAt (submission : option RawSubmission) : bool :=
  match submission with
  | Some s => is_present (sub_submitted_at s)
  | None => false
  end.

(** [a.due_at ? new Date(a.due_at) < now : false]. *)
Definition isDueDatePassed `{Runtime} (now : Z) (a : RawAssignment) : bool :=
  match asg_due_at a with
  | Value s =>
      if truthy_string s then date_lt (Date_parse s) (Some now) else false
  | _ => false
  end.

(** The callback of the status filter: the [switch (statusFilter)]. *)
Definition status_keep `{Runtime} (statusFilter : JsVal) (now : Z)
    (a : RawAssignment) : bool :=
  let submission := asg_submission a in
  if strict_eq_string statusFilter "missing" then
    if is_true_strict (match submission with
                       | Some s => sub_missing s
                       | None => None
                       end) then true
    else isDueDatePassed now a && negb (hasSubmittedAt submission)
  else if strict_eq_string statusFilter "unsubmitted" then
    match submission with Some _ => false | None => true end
    || negb (hasSubmittedAt submission)
  else if strict_eq_string statusFilter "submitted" then
    if hasSubmittedAt submission then true
    else
      match submission with
      | Some s =>
          if (sub_workflow_state s =? "submitted")%string
             || (sub_workflow_state s =? "graded")%string
          then true else false
      | None => false
      end
  else true.

Definition normalize_assignment (assignment : RawAssignment) : Assignment :=
  {| assignment_id := asg_id assignment;
     assignment_name := asg_name assignment;
     due_at := asg_due_at assignment;
     unlock_at := asg_unlock_at assignment;
     lock_at := asg_lock_at assignment;
     points_possible := default 0 (asg_points_possible assignment);
     submission_types := default [] (asg_submission_types assignment);
     submission_status :=
       match asg_submission assignment with
       | Some s =>
           Some {| st_workflow_state := sub_workflow_state s;
                   st_submitted_at := sub_submitted_at s;
                   st_missing := bool_or_false (sub_missing s);
                   st_late := bool_or_false (sub_late s) |}
       | None => None
       end |}.

(** A default parameter value: it applies when [undefined] is passed. *)
Definition default_param (v d : JsVal) : JsVal :=
  match v with JUndefined => d | _ => v end.

(** The two filters and the normalisation, on the fetched array.
    [now_future] and [now_status] are what [new Date()] gives in the
    first and in the second filter. *)
Definition filter_assignments `{Runtime} (includeFuture statusFilter : JsVal)
    (now_future now_status : Z) (assignments : list RawAssignment)
    : list Assignment :=
  let includeFuture := default_param includeFuture (JBool true) in
  let statusFilter := default_param statusFilter (JStr "all") in
  let filtered := assignments in
  let filtered :=
    if negb (truthy includeFuture)
    then List.filter (unlocked now_future) filtered
    else filtered in
  let filtered :=
    if negb (strict_eq_string statusFilter "all")
    then List.filter (status_keep statusFilter now_status) filtered
    else filtered in
  List.map normalize_assignment filtered.

Definition listAssignments `{Runtime} (this : CanvasClient)
    (courseId includeFuture statusFilter : JsVal) (now_future now_status : Z)
    (upstream : list (Fetched (Listing RawAssignment)))
    : M (list Assignment) :=
  let* assignments :=
    (let* _ := to_primitive courseId in
     getWithPagination this
       ("/courses/" +:+ ToString courseId +:+ "/assignments")
       [("include[]", "submission")] upstream) in
  ret (filter_assignments includeFuture statusFilter now_future now_status
         assignments).

(** *** getSubmissionStatus *)

Record RawAssignmentRef : Type := mkRawAssignmentRef {
  ref_id : Z;
  ref_name : string }.

Record RawSubmissionDetail : Type := mkRawSubmissionDetail {
  det_assignment_id : Z;
  det_workflow_state : string;
  det_submitted_at : nullable string;
  det_graded_at : nullable string;
  det_score : nullable Z;
  det_late : option bool;
  det_missing : option bool;
  det_excused : option bool;
  det_assignment : option RawAssignmentRef }.

Record SubmissionDetail : Type := mkSubmissionDetail {
  sd_assignment_id : Z;
  sd_name : option string;
  sd_workflow_state : string;
  sd_submitted_at : option string;
  sd_graded_at : option string;
  sd_score : option Z;
  sd_late : bool;
  sd_missing : bool;
  sd_excused : bool }.

Definition normalize_submission (submission : RawSubmissionDetail)
    : SubmissionDetail :=
  {| sd_assignment_id := det_assignment_id submission;
     sd_name := match det_assignment submission with
                | Some a => if truthy_string (ref_name a)
                            then Some (ref_name a) else None
                | None => None
                end;
     sd_workflow_state := det_workflow_state submission;
     sd_submitted_at := string_or_null (det_submitted_at submission);
     sd_graded_at := string_or_null (det_graded_at submission);
     sd_score := if is_present (det_score submission)
                 then or_null (det_score submission) else None;
     sd_late := bool_or_false (det_late submission);
     sd_missing := bool_or_false (det_missing submission);
     sd_excused := bool_or_false (det_excused submission) |}.

(** The body of the response is the JSON value [null] ([None]) or an
    object with the fields of [RawSubmission]; the template literal of
    the URL converts the two ids. *)
Definition getSubmissionStatus `{Runtime} (this : CanvasClient)
    (courseId assignmentId : JsVal)
    (upstream : Fetched (option RawSubmissionDetail))
    : M SubmissionDetail :=
  let* _ := to_primitive courseId in
  let* _ := to_primitive assignmentId in
  let url := baseUrl this +:+ "/api/v1/courses/" +:+ ToString courseId
               +:+ "/assignments/" +:+ ToString assignmentId
               +:+ "/submissions/self" in
  let* response :=
    fetchWithTimeout this (url +:+ "?" +:+ "include%5B%5D=assignment")
      upstream in
  if negb (ok response) then throw (canvas_api_error response)
  else
    match json response with
    | None => throw invalid_response
    | Some None => throw (raised (NoProperties "null"))
    | Some (Some submission) => ret (normalize_submission submission)
    end.

(** *** getCourseGrades *)

Record RawGrades : Type := mkRawGrades {
  current_score : nullable Z;
  current_grade : nullable string;
  final_score : nullable Z;
  final_grade : nullable string }.

Record RawCourseDates : Type := mkRawCourseDates {
  start_at : nullable string;
  end_at : nullable string }.

Record RawEnrollment : Type := mkRawEnrollment {
  enr_id : Z;
  enr_course_id : Z;
  enrollment_state : string;
  grades : option RawGrades;
  computed_current_score : nullable Z;
  computed_current_grade : nullable string;
  computed_final_score : nullable Z;
  computed_final_grade : nullable string;
  enrollment_term_id : nullable Z;
  course : option RawCourseDates }.

Inductive Reason : Type := no_grades_yet | hidden_or_unavailable.

(** The enrollment metadata of a grade summary. *)
Record Metadata : Type := mkMetadata {
  md_enrollment_state : string;
  md_term_id : option Z;
  md_course_start_at : option string;
  md_course_end_at : option string }.

(** The returned object: [available: false] with a [reason] and, for
    [no_grades_yet], the metadata; or [available: true] with the four
    grade fields, the metadata and [last_updated: null]. [gs_course_id]
    is [Number(courseId)], [None] for [NaN]. *)
Inductive GradeSummary : Type :=
| Unavailable (gs_course_id : option Z) (reason : Reason)
    (metadata : option Metadata)
| Available (gs_course_id : option Z)
    (gs_current_score : option Z) (gs_current_grade : option string)
    (gs_final_score : option Z) (gs_final_grade : option string)
    (metadata : Metadata).

(** [e.course?.end_at] and [e.course?.start_at]. *)
Definition course_end_at (e : RawEnrollment) : nullable string :=
  match course e with Some c => end_at c | None => Undefined end.
Definition course_start_at (e : RawEnrollment) : nullable string :=
  match course e with Some c => start_at c | None => Undefined end.

(** [new Date(s).getTime()] for a truthy [s]. *)
Definition getTime `{Runtime} (s : nullable string) : option Z :=
  match s with Value s => Date_parse s | _ => None end.

(** The comparator given to [candidateEnrollments.sort]. *)
Definition compare_enrollments `{Runtime} (a b : RawEnrollment) : option Z :=
  let aEndAt := course_end_at a in
  let bEndAt := course_end_at b in
  if truthy_nstring aEndAt && truthy_nstring bEndAt then
    num_sub (getTime bEndAt) (getTime aEndAt)
  else if truthy_nstring aEndAt && negb (truthy_nstring bEndAt) then Some 1
  else if negb (truthy_nstring aEndAt) && truthy_nstring bEndAt then Some (-1)
  else Some (enr_id b - enr_id a).

(** [candidateEnrollments[0]] after the sort. *)
Definition select_enrollment `{Runtime} (courseEnrollments : list RawEnrollment)
    : option RawEnrollment :=
  let activeEnrollments :=
    List.filter (fun e => (enrollment_state e =? "active")%string)
      courseEnrollments in
  let candidateEnrollments :=
    if (0 <? length activeEnrollments)%nat
    then activeEnrollments else courseEnrollments in
  sort compare_enrollments candidateEnrollments !! 0%nat.

Definition hasGradeData (enrollment : RawEnrollment) : bool :=
  match grades enrollment with
  | Some grades =>
      strict_ne_null (current_score grades)
      || strict_ne_null (current_grade grades)
      || strict_ne_null (final_score grades)
      || strict_ne_null (final_grade grades)
  | None => false
  end
  || strict_ne_null (computed_current_score enrollment)
  || strict_ne_null (computed_current_grade enrollment).

Definition metadata_of (enrollment : RawEnrollment) : Metadata :=
  {| md_enrollment_state := enrollment_state enrollment;
     md_term_id := number_or_null (enrollment_term_id enrollment);
     md_course_start_at := string_or_null (course_start_at enrollment);
     md_course_end_at := string_or_null (course_end_at enrollment) |}.

(** [grades?.f ?? fallback ?? null]. *)
Definition grade_field {A} (enrollment : RawEnrollment)
    (f : RawGrades -> nullable A) (fallback : nullable A) : option A :=
  or_null (nullish_or
             (match grades enrollment with
              | Some g => f g
              | None => Undefined
              end) fallback).

(** The summary built from the selected enrollment. *)
Definition summarize (courseId_number : option Z) (enrollment : RawEnrollment)
    : GradeSummary :=
  if negb (hasGradeData enrollment) then
    Unavailable courseId_number no_grades_yet (Some (metadata_of enrollment))
  else
    Available courseId_number
      (grade_field enrollment current_score
         (computed_current_score enrollment))
      (grade_field enrollment current_grade
         (computed_current_grade enrollment))
      (grade_field enrollment final_score (computed_final_score enrollment))
      (grade_field enrollment final_grade (computed_final_grade enrollment))
      (metadata_of enrollment).

Definition hidden (courseId_number : option Z) : GradeSummary :=
  Unavailable courseId_number hidden_or_unavailable None.

(** The URL of the enrollments request: [params.toString()] writes the
    brackets of [type[]] percent-encoded. *)
Definition enrollments_url (this : CanvasClient) (courseId : JsVal)
    : string :=
  let url := baseUrl this +:+ "/api/v1/courses/" +:+ ToString courseId
               +:+ "/enrollments" in
  url +:+ "?" +:+ "user_id=self&type%5B%5D=StudentEnrollment".

(** The body of the [try] block. The template literal of the URL
    converts [courseId] first; once that has succeeded, [Number(courseId)]
    does not throw. *)
Definition getCourseGrades_try `{Runtime} (this : CanvasClient)
    (courseId : JsVal) (upstream : Fetched (Listing RawEnrollment))
    : M GradeSummary :=
  let* _ := to_primitive courseId in
  let* response :=
    fetchWithTimeout this (enrollments_url this courseId) upstream in
  if negb (ok response) then ret (hidden (Number courseId))
  else
    match json response with
    | None => throw (raised InvalidJSON)
    | Some NotIterable => throw (raised (NotCallable "enrollments.filter"))
    | Some (Elements enrollments) =>
        let courseEnrollments :=
          List.filter
            (fun e => match Number courseId with
                      | Some n => enr_course_id e =? n
                      | None => false
                      end) enrollments in
        if (length courseEnrollments =? 0)%nat
        then ret (hidden (Number courseId))
        else
          match select_enrollment courseEnrollments with
          | None => throw (raised (NoProperties "undefined"))
          | Some enrollment => ret (summarize (Number courseId) enrollment)
          end
    end.

Definition getCourseGrades `{Runtime} (this : CanvasClient)
    (courseId : JsVal) (upstream : Fetched (Listing RawEnrollment))
    : M GradeSummary :=
  try_catch (getCourseGrades_try this courseId upstream)
    (fun error =>
       if match err_code error with
          | Some c => (c =? "timeout")%string
          | None => false
          end
       then let* n := to_number courseId in ret (hidden n)
       else let* n := to_number courseId in ret (hidden n)).

(** *** The upstream API, as the client sees it

    What the requests of one operation settle to: the pages of
    [/courses], the pages of a course's assignments, the self submission
    of an assignment and the enrollments of a course, the last three
    keyed by the ids as they are written into the URL. *)
Record Upstream : Type := mkUpstream {
  up_courses : list (Fetched (Listing RawCourse));
  up_assignments : string -> list (Fetched (Listing RawAssignment));
  up_submission : string -> string -> Fetched (option RawSubmissionDetail);
  up_enrollments : string -> Fetched (Listing RawEnrollment) }.

(** *** listUpcoming *)

Inductive Status : Type := submitted | unsubmitted | missing.

Record UpcomingItem : Type := mkUpcomingItem {
  item_course_id : Z;
  item_course_name : string;
  item_assignment_id : Z;
  item_name : string;
  item_due_at : string;
  item_status : Status;
  item_points_possible : Z }.

(** SameValueZero, as [Array.prototype.includes] compares a number or a
    string with an element. *)
Definition same_value_zero (x y : JsVal) : bool :=
  match x, y with
  | JNum a, JNum b => a =? b
  | JStr a, JStr b => (a =? b)%string
  | _, _ => false
  end.

(** [courseIds ? courses.filter(c => courseIds.includes(c.id) ||
    courseIds.includes(String(c.id))) : courses]. A truthy [courseIds]
    that is neither an array nor a string has no [includes]: the first
    call of the callback throws. *)
Definition targetCourses `{Runtime} (courseIds : JsVal)
    (courses : list Course) : M (list Course) :=
  if negb (truthy courseIds) then ret courses
  else
    match courseIds with
    | JArr ids =>
        ret (List.filter
               (fun c => existsb (same_value_zero (JNum (course_id c))) ids
                         || existsb (same_value_zero
                                       (JStr (pretty (course_id c)))) ids)
               courses)
    | JStr s =>
        ret (List.filter
               (fun c => includes s (pretty (course_id c))
                         || includes s (pretty (course_id c)))
               courses)
    | _ =>
        match courses with
        | [] => ret []
        | _ :: _ => throw (raised (NotCallable "courseIds.includes"))
        end
    end.

(** [new Date(now.getTime() + days * 24 * 60 * 60 * 1000)], for a
    [days] that is [convertible]. *)
Definition futureLimit `{Runtime} (now : Z) (days : JsVal) : option Z :=
  TimeClip
    (num_add (Some now)
       (num_mul (num_mul (num_mul (num_mul (Number days) (Some 24))
                            (Some 60)) (Some 60)) (Some 1000))).

Definition isOverdue (dueDate : option Z) (now : Z) : bool :=
  date_lt dueDate (Some now).

Definition isUpcoming (dueDate : option Z) (now : Z) (limit : option Z)
    : bool :=
  date_ge dueDate (Some now) && date_le dueDate limit.

(** The status derived from [submission_status]. *)
Definition upcoming_status (assignment : Assignment) : Status :=
  match submission_status assignment with
  | Some st =>
      if st_missing st then missing
      else if truthy_nstring (st_submitted_at st) then submitted
      else unsubmitted
  | None => unsubmitted
  end.

Definition upcoming_item (course : Course) (assignment : Assignment)
    (due : string) : UpcomingItem :=
  {| item_course_id := course_id course;
     item_course_name := course_name course;
     item_assignment_id := assignment_id assignment;
     item_name := assignment_name assignment;
     item_due_at := due;
     item_status := upcoming_status assignment;
     item_points_possible := points_possible assignment |}.

(** The inner [for] loop: the assignments of one course, pushed onto
    [allAssignments]. *)
Fixpoint collect_upcoming `{Runtime} (now : Z) (limit : option Z)
    (includeOverdue : JsVal) (course : Course)
    (assignments : list Assignment) (allAssignments : list UpcomingItem)
    : list UpcomingItem :=
  match assignments with
  | [] => allAssignments
  | assignment :: rest =>
      match due_at assignment with
      | Value due =>
          if negb (truthy_string due)
          then collect_upcoming now limit includeOverdue course rest
                 allAssignments
          else
            let dueDate := Date_parse due in
            if (truthy includeOverdue && isOverdue dueDate now)
               || isUpcoming dueDate now limit
            then collect_upcoming now limit includeOverdue course rest
                   (allAssignments ++ [upcoming_item course assignment due])
            else collect_upcoming now limit includeOverdue course rest
                   allAssignments
      | _ => collect_upcoming now limit includeOverdue course rest
               allAssignments
      end
  end.

(** The outer [for] loop: a course whose assignments cannot be fetched
    is skipped. *)
Fixpoint listUpcoming_loop `{Runtime} (this : CanvasClient) (up : Upstream)
    (now : Z) (limit : option Z) (includeOverdue : JsVal)
    (courses : list Course) (allAssignments : list UpcomingItem)
    : M (list UpcomingItem) :=
  match courses with
  | [] => ret allAssignments
  | course :: rest =>
      let* allAssignments' :=
        try_catch
          (let* assignments :=
             listAssignments this (JNum (course_id course)) (JBool true)
               (JStr "all") now now
               (up_assignments up (pretty (course_id course))) in
           ret (collect_upcoming now limit includeOverdue course assignments
                  allAssignments))
          (fun _ => ret allAssignments) in
      listUpcoming_loop this up now limit includeOverdue rest allAssignments'
  end.

(** The comparator of the final sort. *)
Definition compare_due `{Runtime} (a b : UpcomingItem) : option Z :=
  num_sub (Date_parse (item_due_at a)) (Date_parse (item_due_at b)).

Definition listUpcoming `{Runtime} (this : CanvasClient) (up : Upstream)
    (days includeOverdue courseIds : JsVal) (now : Z)
    : M (list UpcomingItem) :=
  let days := default_param days (JNum 14) in
  let includeOverdue := default_param includeOverdue (JBool true) in
  let* courses := listCourses this (up_courses up) in
  let* targets := targetCourses courseIds courses in
  (* [days * 24] converts [days] to a number *)
  let* _ := to_primitive days in
  let* allAssignments :=
    listUpcoming_loop this up now (futureLimit now days) includeOverdue
      targets [] in
  ret (sort compare_due allAssignments).

End Canvas.

(** ** The tool dispatcher *)

Module Tools.
Import Canvas.

Definition makeError (c message : string) : JsError := coded_error c message.

(** [args.k]: [undefined] when the property is absent. *)
Definition prop (args : gmap string JsVal) (k : string) : JsVal :=
  default JUndefined (args !! k).

(** The value whose [JSON.stringify] is the text of the returned
    content. *)
Inductive ToolResult : Type :=
| CoursesResult (courses : list Course)
| AssignmentsResult (assignments : list Assignment)
| SubmissionResult (submission : SubmissionDetail)
| GradesResult (grades : GradeSummary)
| UpcomingResult (upcoming : list UpcomingItem).

(** The values of [new Date()] that a call may read: in the two filters
    of [listAssignments] and at the start of [listUpcoming]. *)
Record Clock : Type := mkClock {
  clock_future_filter : Z;
  clock_status_filter : Z;
  clock_upcoming : Z }.

Definition handleToolCall `{Runtime} (toolName : string)
    (args : gmap string JsVal) (canvasClient : CanvasClient)
    (up : Upstream) (clock : Clock) : M ToolResult :=
  if (toolName =? "list_courses")%string then
    let* courses := listCourses canvasClient (up_courses up) in
    ret (CoursesResult courses)
  else if (toolName =? "list_assignments")%string then
    let courseId := prop args "course_id" in
    let includeFuture :=
      if is_defined (prop args "include_future")
      then prop args "include_future" else JBool true in
    let statusFilter :=
      if truthy (prop args "status_filter")
      then prop args "status_filter" else JStr "all" in
    if negb (truthy courseId)
    then throw (makeError "invalid_arguments" "course_id is required")
    else
      let* assignments :=
        listAssignments canvasClient courseId includeFuture statusFilter
          (clock_future_filter clock) (clock_status_filter clock)
          (up_assignments up (ToString courseId)) in
      ret (AssignmentsResult assignments)
  else if (toolName =? "get_submission_status")%string then
    let courseId := prop args "course_id" in
    let assignmentId := prop args "assignment_id" in
    if negb (truthy courseId)
    then throw (makeError "invalid_arguments" "course_id is required")
    else if negb (truthy assignmentId)
    then throw (makeError "invalid_arguments" "assignment_id is required")
    else
      let* submission :=
        getSubmissionStatus canvasClient courseId assignmentId
          (up_submission up (ToString courseId) (ToString assignmentId)) in
      ret (SubmissionResult submission)
  else if (toolName =? "get_course_grades")%string then
    let courseId := prop args "course_id" in
    if negb (truthy courseId)
    then throw (makeError "invalid_arguments" "course_id is required")
    else
      let* grades :=
        getCourseGrades canvasClient courseId
          (up_enrollments up (ToString courseId)) in
      ret (GradesResult grades)
  else if (toolName =? "list_upcoming")%string then
    let days :=
      if is_defined (prop args "days") then prop args "days" else JNum 14 in
    let includeOverdue :=
      if is_defined (prop args "include_overdue")
      then prop args "include_overdue" else JBool true in
    let courseIds := prop args "course_ids" in
    let* upcoming :=
      listUpcoming canvasClient up days includeOverdue courseIds
        (clock_upcoming clock) in
    ret (UpcomingResult upcoming)
  else throw (makeError "invalid_tool" ("Unknown tool: " +:+ toolName)).

End Tools.

(** ** The HTTP server *)

Module Server.

(** The configuration read from the environment: [PORT] is a number
    that may be [NaN], [MCP_AUTH_TOKEN] is empty when unset. *)
Record Env : Type := mkEnv {
  PORT : option Z;
  ALLOWED_ORIGINS : list string;
  MCP_AUTH_TOKEN : string }.

(** ToString of a number that may be [NaN]. *)
Definition number_to_string (n : option Z) : string :=
  match n with Some n => pretty n | None => "NaN" end.

(** *** validateOrigin *)

(** The [for] loop over [ALLOWED_ORIGINS]. *)
Fixpoint origin_allowed (origin protocol hostname : string)
    (allowed_origins : list string) : bool :=
  match allowed_origins with
  | [] => false
  | allowed :: rest =>
      if includes allowed "*" then
        let allowedHost := hd "" (split ":" allowed) in
        let originHost := protocol +:+ "//" +:+ hostname in
        if (originHost =? remove_first "*" allowedHost)%string then true
        else origin_allowed origin protocol hostname rest
      else if (origin =? allowed)%string then true
      else origin_allowed origin protocol hostname rest
  end.

Definition validateOrigin `{Runtime} (env : Env) (origin : option string)
    : bool :=
  match origin with
  | None => true
  | Some o =>
      if negb (truthy_string o) then true
      else
        match URL_parse o with
        | Some (protocol, hostname) =>
            origin_allowed o protocol hostname (ALLOWED_ORIGINS env)
        | None => false
        end
  end.

(** *** validateHost *)

(** [\d+] followed by a dot, at the start of [s]: the digits and what
    follows the dot. *)
Definition digits_dot (s : string) : option (string * string) :=
  match take_while is_digit s, drop_while is_digit s with
  | String c d, String "." rest => Some (String c d, rest)
  | _, _ => None
  end.

(** [host.match(/^(\d+\.\d+\.\d+\.\d+)/)]: the captured prefix. *)
Definition ipMatch (host : string) : option string :=
  match digits_dot host with
  | Some (d1, r1) =>
      match digits_dot r1 with
      | Some (d2, r2) =>
          match digits_dot r2 with
          | Some (d3, r3) =>
              match take_while is_digit r3 with
              | String c d4 =>
                  Some (d1 +:+ "." +:+ d2 +:+ "." +:+ d3 +:+ "."
                          +:+ String c d4)
              | EmptyString => None
              end
          | None => None
          end
      | None => None
      end
  | None => None
  end.

(** [/^172\.(1[6-9]|2[0-9]|3[0-1])\./.test(ip)]. *)
Definition is_172_private (ip : string) : bool :=
  match ip with
  | String "1" (String "7" (String "2" (String "."
      (String a (String b (String "." _)))))) =>
      (Ascii.eqb a "1" && (54 <=? code b) && (code b <=? 57))
      || (Ascii.eqb a "2" && is_digit b)
      || (Ascii.eqb a "3" && (48 <=? code b) && (code b <=? 49))
  | _ => false
  end.

Definition validateHost (env : Env) (host : option string) : bool :=
  match host with
  | None => false
  | Some host =>
      if negb (truthy_string host) then false
      else if startsWith host "localhost:" || (host =? "localhost")%string
              || startsWith host "127.0.0.1:" || (host =? "127.0.0.1")%string
              || startsWith host "0.0.0.0:" || (host =? "0.0.0.0")%string
      then true
      else if match ipMatch host with
              | Some ip =>
                  startsWith ip "192.168." || startsWith ip "10."
                  || is_172_private ip
              | None => false
              end
      then true
      else if endsWith host ".local"
              || endsWith host (".local:" +:+ number_to_string (PORT env))
      then true
      else false
  end.

(** *** The middlewares *)

(** The headers the middlewares read. *)
Record Request : Type := mkRequest {
  header_origin : option string;
  header_host : option string;
  header_authorization : option string }.

(** A middleware answers the request itself with a status and an error
    text, or calls [next()]. *)
Inductive Outcome : Type :=
| Reply (status : Z) (error : string)
| Next.

Definition securityMiddleware `{Runtime} (env : Env) (req : Request)
    : Outcome :=
  let origin := header_origin req in
  let host := header_host req in
  if negb (validateHost env host)
  then Reply 403 "Forbidden: Invalid Host header"
  else if match origin with
          | Some o => truthy_string o
          | None => false
          end && negb (validateOrigin env origin)
  then Reply 403 "Forbidden: Invalid Origin"
  else Next.

(** [Buffer.from(s, 'utf8')]: the bytes of the UTF-8 encoding. *)
Definition utf8_char (c : ascii) : list Z :=
  let n := code c in
  if n <? 128 then [n]
  else [Z.lor 192 (Z.shiftr n 6); Z.lor 128 (Z.land n 63)].

Fixpoint Buffer_from (s : string) : list Z :=
  match s with
  | EmptyString => []
  | String c s' => utf8_char c ++ Buffer_from s'
  end.

(** The capture of [/^Bearer\s+(.+)$/i.exec(auth)]: after the scheme,
    [\s+] takes [k] white-space characters, at most [n], and the rest up
    to the end must be one or more characters other than line
    terminators; the longest [k] is tried first. *)
Fixpoint bearer_capture (rest : string) (k : nat) : option string :=
  match k with
  | O => None
  | S k' =>
      let token := drop k rest in
      if truthy_string token
         && forallb_string (fun c => negb (is_line_terminator c)) token
      then Some token
      else bearer_capture rest k'
  end.

Definition bearer_exec (auth : string) : option string :=
  if startsWith (lower_string auth) "bearer" then
    let rest := drop 6 auth in
    bearer_capture rest (String.length (take_while is_space rest))
  else None.

(** [crypto.timingSafeEqual(a, b)]: it throws when the byte lengths
    differ, and otherwise folds over every byte pair, whatever their
    contents, and answers whether all are equal. *)
Definition timingSafeEqual (a b : list Z) : JsError + bool :=
  if (length a =? length b)%nat
  then inr (fold_left (fun acc xy => Z.lor acc (Z.lxor (fst xy) (snd xy)))
              (combine a b) 0 =? 0)
  else inl (mkError "RangeError" (Some "ERR_CRYPTO_TIMING_SAFE_EQUAL_LENGTH")
              "Input buffers must have the same byte length").

(** What [mcpAuthMiddleware] does that the claims speak of: the calls
    of [timingSafeEqual], with their arguments. *)
Inductive AuthEvent : Type :=
| Compared (provided expected : list Z).

(** The outcome of the middleware ([inl]) or the error it lets escape
    ([inr]), with the comparisons it made. *)
Definition mcpAuthMiddleware (env : Env) (req : Request)
    : (Outcome + JsError) * list AuthEvent :=
  if negb (truthy_string (MCP_AUTH_TOKEN env)) then (inl Next, [])
  else
    match header_authorization req with
    | None => (inl (Reply 401 "unauthorized"), [])
    | Some raw =>
        if negb (truthy_string raw) then (inl (Reply 401 "unauthorized"), [])
        else
          let auth := trim raw in
          match bearer_exec auth with
          | None => (inl (Reply 401 "unauthorized"), [])
          | Some capture =>
              let providedToken := trim capture in
              let provided := Buffer_from providedToken in
              let expected := Buffer_from (MCP_AUTH_TOKEN env) in
              if negb (length provided =? length expected)%nat
              then (inl (Reply 401 "unauthorized"), [])
              else
                match timingSafeEqual provided expected with
                | inr true => (inl Next, [Compared provided expected])
                | inr false =>
                    (inl (Reply 401 "unauthorized"),
                     [Compared provided expected])
                | inl e => (inr e, [Compared provided expected])
                end
          end
    end.

(** [app.use(BASE_PATH, securityMiddleware, mcpAuthMiddleware)]: the
    route handler, which dispatches the tool call, runs when both call
    [next()]. *)
Inductive Handling : Type :=
| Answered (status : Z) (error : string)
| Failed (e : JsError)
| Dispatched.

Definition handle `{Runtime} (env : Env) (req : Request) : Handling :=
  match securityMiddleware env req with
  | Reply s e => Answered s e
  | Next =>
      match fst (mcpAuthMiddleware env req) with
      | inl (Reply s e) => Answered s e
      | inl Next => Dispatched
      | inr e => Failed e
      end
  end.

End Server.

(** ** The specification's predicates

    Definitions written from the words of the specification, to be
    compared with the ones above. *)

Module Spec.
Import Canvas.

(** *** Status filters *)

(** The submission's [missing] flag is true. *)
Definition missing_flag (a : RawAssignment) : bool :=
  match asg_submission a with
  | Some s => match sub_missing s with Some true => true | _ => false end
  | None => false
  end.

(** A [submitted_at] exists. *)
Definition has_submitted_at (a : RawAssignment) : bool :=
  match asg_submission a with
  | Some s => match sub_submitted_at s with Value _ => true | _ => false end
  | None => false
  end.

(** There is no submission object. *)
Definition no_submission (a : RawAssignment) : bool :=
  match asg_submission a with Some _ => false | None => true end.

(** [due_at] is set and lies strictly before [now]. *)
Definition due_passed `{Runtime} (now : Z) (a : RawAssignment) : bool :=
  match asg_due_at a with
  | Value s =>
      negb (s =? "")%string
      && match Date_parse s with Some t => t <? now | None => false end
  | _ => false
  end.

(** The [workflow_state] is one of [states]. *)
Definition workflow_in (states : list string) (a : RawAssignment) : bool :=
  match asg_submission a with
  | Some s => existsb (String.eqb (sub_workflow_state s)) states
  | None => false
  end.

Definition is_missing `{Runtime} (now : Z) (a : RawAssignment) : bool :=
  missing_flag a || (due_passed now a && negb (has_submitted_at a)).

Definition is_unsubmitted (a : RawAssignment) : bool :=
  no_submission a || negb (has_submitted_at a).

Definition is_submitted (a : RawAssignment) : bool :=
  has_submitted_at a || workflow_in ["submitted"; "graded"] a.

(** The assignments that reach the status filter: all the fetched ones,
    or, when [includeFuture] is false, those that are unlocked. *)
Definition status_pool `{Runtime} (includeFuture : JsVal) (now_future : Z)
    (assignments : list RawAssignment) : list RawAssignment :=
  if negb (truthy (default_param includeFuture (JBool true)))
  then List.filter (unlocked now_future) assignments
  else assignments.

(** *** Grade data *)

(** One of the six fields carries a value that is not [null]. *)
Definition grade_data_present (e : RawEnrollment) : bool :=
  match grades e with
  | Some g =>
      is_present (current_score g) || is_present (current_grade g)
      || is_present (final_score g) || is_present (final_grade g)
  | None => false
  end
  || is_present (computed_current_score e)
  || is_present (computed_current_grade e).

(** *** The order on enrollments *)

(** The course end date of an enrollment, when it has one. *)
Definition end_date `{Runtime} (e : RawEnrollment) : option Z :=
  match course_end_at e with
  | Value s => if truthy_string s then Date_parse s else None
  | _ => None
  end.

(** [a] ranks ahead of [b]: no end date ahead of an end date, a later
    end date ahead of an earlier one, and on a tie the higher id. *)
Definition ranks_ahead `{Runtime} (a b : RawEnrollment) : bool :=
  match end_date a, end_date b with
  | None, Some _ => true
  | Some _, None => false
  | Some ta, Some tb => (tb <? ta) || ((ta =? tb) && (enr_id b <? enr_id a))
  | None, None => enr_id b <? enr_id a
  end.

(** The top of the order among [l]. *)
Fixpoint top `{Runtime} (l : list RawEnrollment) : option RawEnrollment :=
  match l with
  | [] => None
  | e :: rest =>
      match top rest with
      | Some e' => if ranks_ahead e' e then Some e' else Some e
      | None => Some e
      end
  end.

(** Active enrollments if any, else all of them; then the top. *)
Definition best_enrollment `{Runtime} (l : list RawEnrollment)
    : option RawEnrollment :=
  match List.filter (fun e => (enrollment_state e =? "active")%string) l with
  | [] => top l
  | active => top active
  end.

(** *** Link headers *)

(** One link of a header: a URL and a relation name, the white space
    written before the link, and the white space written between [;]
    and [rel]. *)
Record LinkValue : Type := mkLink {
  link_gap : string;
  link_url : string;
  link_space : string;
  link_rel : string }.

(** The link [url], [rel] as it is usually written: after a comma and
    one space, as [<URL>; rel=QRELQ]. *)
Definition link (url rel : string) : LinkValue := mkLink " " url " " rel.

(** One link in a header: [<URL>; rel=QRELQ] with [Q] the double quote,
    after its gap. *)
Definition link_segment (l : LinkValue) : string :=
  link_gap l +:+ "<" +:+ link_url l +:+ ">;" +:+ link_space l +:+ "rel="
    +:+ String dquote (link_rel l) +:+ String dquote "".

(** The header: the links, separated by commas. *)
Definition link_header (segs : list LinkValue) : string :=
  join "," (List.map link_segment segs).

Definition lacks (c : ascii) (s : string) : bool :=
  forallb_string (fun a => negb (Ascii.eqb a c)) s.

(** White space only. *)
Definition blank (s : string) : bool := forallb_string is_space s.

(** A link of the form [<URL>; rel=QRELQ]: URL and relation name not
    empty, the URL without [>] and without the quote, the name without
    the quote, and white space where white space goes. Commas are
    allowed in the URL and in the name. *)
Definition segment_formed (l : LinkValue) : bool :=
  blank (link_gap l) && blank (link_space l)
  && truthy_string (link_url l) && lacks ">" (link_url l)
  && lacks dquote (link_url l)
  && truthy_string (link_rel l) && lacks dquote (link_rel l).

(** The URL of the [next] relation, if the links have one (the last
    one, if several). *)
Fixpoint next_of (segs : list LinkValue) : option string :=
  match segs with
  | [] => None
  | l :: rest =>
      match next_of rest with
      | Some u => Some u
      | None => if (link_rel l =? "next")%string then Some (link_url l)
                else None
      end
  end.

(** The links are well formed, and the URL of the [next] relation, if
    there is one, holds no comma. *)
Definition links_ok (segs : list LinkValue) : bool :=
  forallb segment_formed segs
  && match next_of segs with
     | Some u => lacks "," u
     | None => true
     end.

(** A successful page: a 2xx status, a body that holds the items, and a
    [Link] header made of links, or none. *)
Record Page (T : Type) : Type := mkPage {
  page_status : Z;
  page_statusText : string;
  page_items : list T;
  page_links : option (list LinkValue) }.
Arguments mkPage {T} _ _ _ _.
Arguments page_status {T} _.
Arguments page_statusText {T} _.
Arguments page_items {T} _.
Arguments page_links {T} _.

Definition page_ok {T} (p : Page T) : bool :=
  (200 <=? page_status p) && (page_status p <=? 299)
  && match page_links p with
     | Some segs => links_ok segs
     | None => true
     end.

Definition page_next {T} (p : Page T) : option string :=
  match page_links p with Some segs => next_of segs | None => None end.

(** A page that is followed by another one. *)
Definition has_next {T} (p : Page T) : bool :=
  page_ok p && match page_next p with Some _ => true | None => false end.

(** The URLs that the [next] relations of the pages name, in order. *)
Definition next_urls {T} (pages : list (Page T)) : list string :=
  flat_map (fun p => match page_next p with
                     | Some u => [u]
                     | None => []
                     end) pages.

(** Starting at [url] and following [nexts]: the URL reached, and the
    URLs requested before it. *)
Fixpoint final_url (url : string) (nexts : list string) : string :=
  match nexts with
  | [] => url
  | u :: rest => final_url u rest
  end.

Fixpoint requested (url : string) (nexts : list string) : list string :=
  match nexts with
  | [] => []
  | u :: rest => url :: requested u rest
  end.

Definition respond {T} (p : Page T) : Fetched (Listing T) :=
  Resolves (mkResponse (page_status p) (page_statusText p)
              (option_map link_header (page_links p))
              (Some (Elements (page_items p)))).

(** *** Upcoming assignments *)









(** *** Tool arguments *)

(** An id argument that is absent, the number 0 or the empty string. *)
Definition falsy_id (v : option JsVal) : Prop :=
  v = None \/ v = Some (JNum 0) \/ v = Some (JStr "").

(** *** Hosts *)

(** A decimal octet. *)
Definition octet (s : string) : option Z :=
  match decimal s with
  | Some n => if n <=? 255 then Some n else None
  | None => None
  end.

(** An IPv4 address in 10.0.0.0/8, 172.16.0.0/12 or 192.168.0.0/16. *)
Definition private_ipv4 (name : string) : bool :=
  match List.map octet (split "." name) with
  | [Some a; Some b; Some _; Some _] =>
      (a =? 10) || ((a =? 172) && (16 <=? b) && (b <=? 31))
      || ((a =? 192) && (b =? 168))
  | _ => false
  end.

(** The host name of a [Host] value: what precedes the port. *)
Definition host_name (host : string) : string := hd "" (split ":" host).

(** The hosts the check is meant to let through. *)
Definition host_allowed (host : string) : bool :=
  let name := host_name host in
  (name =? "localhost")%string || (name =? "127.0.0.1")%string
  || (name =? "0.0.0.0")%string
  || private_ipv4 name
  || endsWith name ".local".

End Spec.

(** ** A concrete platform and sample data

    One implementation of [Runtime], on the inputs the examples use:
    timestamps of the form [YYYY-MM-DDTHH:MM:SSZ], decimal numerals, and
    URLs of the form [scheme://host:port]. *)

Module Sample.
Import Canvas.

(** Days from 1970-01-01 to the given civil date. *)
Definition days_from_civil (y m d : Z) : Z :=
  let y' := if m <=? 2 then y - 1 else y in
  let era := y' / 400 in
  let yoe := y' - era * 400 in
  let doy := (153 * (if 2 <? m then m - 3 else m + 9) + 2) / 5 + d - 1 in
  let doe := yoe * 365 + yoe / 4 - yoe / 100 + doy in
  era * 146097 + doe - 719468.

Definition days_in_month (y m : Z) : Z :=
  if m =? 2 then
    if ((y mod 4 =? 0) && negb (y mod 100 =? 0)) || (y mod 400 =? 0)
    then 29 else 28
  else if (m =? 4) || (m =? 6) || (m =? 9) || (m =? 11) then 30
  else 31.

Definition char_at (n : nat) (s : string) : string := substring n 1 s.

Definition iso_parse (s : string) : option Z :=
  if (String.length s =? 20)%nat
     && (char_at 4 s =? "-")%string && (char_at 7 s =? "-")%string
     && (char_at 10 s =? "T")%string && (char_at 13 s =? ":")%string
     && (char_at 16 s =? ":")%string && (char_at 19 s =? "Z")%string
  then
    match decimal (substring 0 4 s), decimal (substring 5 2 s),
          decimal (substring 8 2 s), decimal (substring 11 2 s),
          decimal (substring 14 2 s), decimal (substring 17 2 s) with
    | Some y, Some mo, Some d, Some h, Some mi, Some sec =>
        if (1 <=? mo) && (mo <=? 12) && (1 <=? d)
           && (d <=? days_in_month y mo)
           && (h <=? 23) && (mi <=? 59) && (sec <=? 59)
        then Some ((((days_from_civil y mo d * 24 + h) * 60 + mi) * 60
                      + sec) * 1000)
        else None
    | _, _, _, _, _, _ => None
    end
  else None.

Definition string_to_number (s : string) : option Z :=
  let t := trim s in
  if (t =? "")%string then Some 0 else decimal t.

Fixpoint encode (s : string) : string :=
  match s with
  | EmptyString => ""
  | String c s' =>
      (if Ascii.eqb c "[" then "%5B"
       else if Ascii.eqb c "]" then "%5D"
       else String c "") +:+ encode s'
  end.

Definition url_serialize (base : string) (params : list (string * string))
    : option string :=
  Some (base +:+ "?"
          +:+ join "&" (List.map (fun kv => encode (fst kv) +:+ "="
                                              +:+ encode (snd kv)) params)).

Definition url_parse (origin : string) : option (string * string) :=
  match split ":" origin with
  | scheme :: String "/" (String "/" host) :: _ =>
      Some (scheme +:+ ":", take_while (fun c => negb (Ascii.eqb c "/")) host)
  | _ => None
  end.

(** The errors as Node raises them; a message that depends on the
    value at fault is the one for the values the examples use. *)
Definition node_error (f : Fault) : JsError :=
  match f with
  | InvalidURL => mkError "TypeError" (Some "ERR_INVALID_URL") "Invalid URL"
  | InvalidJSON =>
      mkError "SyntaxError" None "Unexpected end of JSON input"
  | NotSpreadable =>
      mkError "TypeError" None
        "Spread syntax requires ...iterable[Symbol.iterator] to be a function"
  | NoPrimitive =>
      mkError "TypeError" None "Cannot convert object to primitive value"
  | NotCallable callee =>
      mkError "TypeError" None (callee +:+ " is not a function")
  | NoProperties base =>
      mkError "TypeError" None ("Cannot read properties of " +:+ base)
  end.

#[export] Instance runtime : Runtime :=
  {| Date_parse := iso_parse;
     StringToNumber := string_to_number;
     URL_serialize := url_serialize;
     URL_parse := url_parse;
     raised := node_error;
     raised_name := fun f =>
       match f return err_name (node_error f) <> "Error" with
       | InvalidURL | NotSpreadable | NoPrimitive | NotCallable _
       | NoProperties _ =>
           fun e => eq_ind "TypeError"
                      (fun s => if (s =? "TypeError")%string then True
                                else False) I "Error" e
       | InvalidJSON =>
           fun e => eq_ind "SyntaxError"
                      (fun s => if (s =? "SyntaxError")%string then True
                                else False) I "Error" e
       end |}.

Definition client : CanvasClient :=
  constructor (mkConfig "https://canvas.example/" "secret"
                 (Some (inject_Z 15000))).

(** 2024-01-15T12:00:00Z. *)
Definition noon : Z := 1705320000000.

Definition page {T} (items : list T) (link : option string)
    : Fetched (Listing T) :=
  Resolves (mkResponse 200 "OK" link (Some (Elements items))).

Definition raw_assignment (id : Z) (due : nullable string)
    (submission : option RawSubmission) : RawAssignment :=
  mkRawAssignment id "Essay" due Undefined Undefined (Some 10) None
    submission.

Definition enrollment (id : Z) (state : string)
    (dates : option RawCourseDates) : RawEnrollment :=
  mkRawEnrollment id 7 state None Undefined Undefined Undefined Undefined
    Undefined dates.

Definition env : Server.Env :=
  Server.mkEnv (Some 8080) ["http://localhost:*"; "http://127.0.0.1:*"]
    "s3cret".

(** Assignments around [noon], none of them submitted. *)
Definition due_yesterday : RawAssignment :=
  raw_assignment 1 (Value "2024-01-14T12:00:00Z") None.
Definition due_tomorrow : RawAssignment :=
  raw_assignment 2 (Value "2024-01-16T12:00:00Z") None.
Definition due_next_month : RawAssignment :=
  raw_assignment 3 (Value "2024-02-20T12:00:00Z") None.

(** An enrollment in course 7 with a current score and a course end
    date. *)
Definition graded_enrollment (id score : Z) (ends : string) : RawEnrollment :=
  mkRawEnrollment id 7 "active"
    (Some (mkRawGrades (Value score) Null Null Null))
    Null Null Null Null Null
    (Some (mkRawCourseDates Null (Value ends))).

Definition course7 : RawCourse := mkRawCourse 7 "Logic" "LOG-101" None.

(** An upstream with one course and its three assignments. *)
Definition upstream : Upstream :=
  mkUpstream [page [course7] None]
    (fun id => if (id =? "7")%string
               then [page [due_yesterday; due_tomorrow; due_next_month] None]
               else [Rejects AbortError])
    (fun _ _ => Rejects AbortError)
    (fun _ => Rejects AbortError).

(** An upstream on which course 0 has an enrollment with a score. *)
Definition upstream_zero : Upstream :=
  mkUpstream []
    (fun _ => [])
    (fun _ _ => Rejects AbortError)
    (fun id => if (id =? "0")%string
               then page [mkRawEnrollment 1 0 "active" None (Value 88) Null
                            Null Null Null None] None
               else Rejects AbortError).

(** Two pages of courses; the first names the second as [next], among
    other relations. *)
Definition page_url (n : string) : string :=
  "https://canvas.example/api/v1/courses?page=" +:+ n +:+ "&per_page=100".

Definition first_page : Spec.Page RawCourse :=
  Spec.mkPage 200 "OK"
    [course7; mkRawCourse 8 "Algebra" "ALG-101" (Some "active")]
    (Some [Spec.mkLink "" (page_url "1") " " "current";
           Spec.link (page_url "2") "next";
           Spec.link (page_url "1") "first";
           Spec.link (page_url "2,3") "last"]).

Definition last_page : Spec.Page RawCourse :=
  Spec.mkPage 200 "OK" [mkRawCourse 9 "Rhetoric" "RHE-101" None]
    (Some [Spec.mkLink "" (page_url "2") "" "current";
           Spec.mkLink "" (page_url "1") " " "prev";
           Spec.mkLink "" (page_url "1") " " "first";
           Spec.mkLink "" (page_url "2") " " "last"]).

Definition courses_url : string :=
  "https://canvas.example/api/v1/courses?enrollment_state=active"
    +:+ "&include%5B%5D=enrollment_state&per_page=100".

Definition courses_params : list (string * string) :=
  [("enrollment_state", "active"); ("include[]", "enrollment_state")].

Definition server_error : Response (Listing RawCourse) :=
  mkResponse 500 "Internal Server Error" None None.

Definition garbled : Response (Listing RawCourse) :=
  mkResponse 200 "OK" None None.

End Sample.

(** ** The JSON-RPC surface of the HTTP server, and the stdio server *)

Module Protocol.
Import Canvas Tools Server.

(** One entry of [TOOLS]: the tool name, the property names of its
    input schema and the names the schema requires (descriptions and
    JSON types are left out). *)
Record Tool : Type := mkTool {
  tool_name : string;
  tool_properties : list string;
  tool_required : list string }.

Definition TOOLS : list Tool :=
  [mkTool "list_courses" [] [];
   mkTool "list_assignments" ["course_id"; "include_future"; "status_filter"]
     ["course_id"];
   mkTool "get_submission_status" ["course_id"; "assignment_id"]
     ["course_id"; "assignment_id"];
   mkTool "get_course_grades" ["course_id"] ["course_id"];
   mkTool "list_upcoming" ["days"; "include_overdue"; "course_ids"] []].

(** The own properties of a parsed JSON object: a later duplicate key
    overwrites an earlier one. *)
Definition object_map (props : list (string * JsVal)) : gmap string JsVal :=
  list_to_map (rev props).

(** [v.k] and [v?.k] on a parsed JSON value, for the keys the handlers
    read: only objects have them. *)
Definition get (v : JsVal) (k : string) : JsVal :=
  match v with
  | JObj props => default JUndefined (object_map props !! k)
  | _ => JUndefined
  end.

(** The arguments as [handleToolCall] reads them. *)
Definition arguments_of (v : JsVal) : gmap string JsVal :=
  match v with
  | JObj props => object_map props
  | _ => ∅
  end.

(** [handleToolCall(name, args, canvasClient)] for a [name] that may be
    any value: the [switch] compares with [===], so anything but one of
    the five strings falls to [default]. *)
Definition call_tool `{Runtime} (name : JsVal) (args : gmap string JsVal)
    (canvasClient : CanvasClient) (up : Upstream) (clock : Clock)
    : M ToolResult :=
  match name with
  | JStr toolName => handleToolCall toolName args canvasClient up clock
  | _ =>
      let* text := to_string name in
      throw (makeError "invalid_tool" ("Unknown tool: " +:+ text))
  end.

(** [error?.code || (error?.name === 'AbortError' ? 'timeout' :
    'internal_error')], for a thrown [Error] whose [code], if it has one,
    is a string. *)
Definition error_code (error : JsError) : string :=
  let fallback :=
    if (err_name error =? "AbortError")%string
    then "timeout" else "internal_error" in
  match err_code error with
  | Some c => if truthy_string c then c else fallback
  | None => fallback
  end.

(** The text of an error result of the HTTP server, and of the stdio
    server. *)
Definition error_text (error : JsError) : string :=
  "Error [" +:+ error_code error +:+ "]: " +:+ err_message error.

Definition stdio_error_text (error : JsError) : string :=
  "Error: " +:+ err_message error.

(** A line written with [console.log]. *)
Record LogRecord : Type := mkLog {
  log_level : string;
  log_event : string;
  log_tool : JsVal;
  log_requestId : JsVal;
  log_duration_ms : Z;
  log_success : bool;
  log_code : option string }.

(** [id ?? null]. *)
Definition or_JNull (v : JsVal) : JsVal :=
  match v with JUndefined => JNull | _ => v end.

(** What the route answers: status 400 with the error -32600 and
    [id: null]; or, with status 200, a JSON-RPC error, the tool catalog,
    the result of a tool call, or a result with [isError: true] and one
    text; or it opens an event stream for a new session. *)
Inductive Reply : Type :=
| BadRequest (message : string)
| RpcError (id : JsVal) (code : Z) (message : string)
| ToolsList (id : JsVal) (tools : list Tool)
| CallResult (id : JsVal) (result : ToolResult)
| CallError (id : JsVal) (text : string)
| OpenSession.

(** The [tools/call] branch; [started] and [ended] are what [Date.now()]
    gives before the call and after it. What is caught is an [Error], so
    the message is [error.message]. *)
Definition tools_call `{Runtime} (canvasClient : CanvasClient) (up : Upstream)
    (clock : Clock) (id params : JsVal) (started ended : Z)
    : M (Reply * list LogRecord) :=
  try_catch
    (let name := get params "name" in
     let args :=
       if truthy (get params "arguments")
       then arguments_of (get params "arguments") else ∅ in
     let* result := call_tool name args canvasClient up clock in
     let duration := ended - started in
     ret (CallResult id result,
          [mkLog "info" "tool_call" name (or_JNull id) duration true None]))
    (fun error =>
       let duration := ended - started in
       let code := error_code error in
       let msg := err_message error in
       ret (CallError id ("Error [" +:+ code +:+ "]: " +:+ msg),
            [mkLog "error" "tool_call" (get params "name") (or_JNull id)
               duration false (Some code)])).

(** The handler of [app.post(BASE_PATH, ...)]: [sessionId] is the query
    parameter when it is a string, [body] the parsed request body. *)
Definition post `{Runtime} (canvasClient : CanvasClient) (up : Upstream)
    (clock : Clock) (sessionId : option string) (body : JsVal)
    (started ended : Z) : M (Reply * list LogRecord) :=
  if match sessionId with Some s => truthy_string s | None => false end then
    if match body with JObj _ | JArr _ => false | _ => true end
    then ret (BadRequest "Invalid request body", [])
    else
      let jsonrpc := get body "jsonrpc" in
      let method := get body "method" in
      let id := get body "id" in
      let params := get body "params" in
      if negb (strict_eq_string jsonrpc "2.0")
         || match method with JStr _ => false | _ => true end
      then ret (BadRequest "Invalid JSON-RPC 2.0 request", [])
      else if strict_eq_string method "tools/list" then
        ret (ToolsList id TOOLS,
             [mkLog "info" "list_tools" JUndefined (or_JNull id)
                (ended - started) true None])
      else if strict_eq_string method "tools/call" then
        tools_call canvasClient up clock id params started ended
      else ret (RpcError id (-32601) "Method not found", [])
  else ret (OpenSession, []).



(** The [CallToolRequestSchema] handler of the stdio server: [args] is
    [None] when the request has no [arguments]. *)
Definition stdio_call `{Runtime} (canvasClient : CanvasClient) (up : Upstream)
    (clock : Clock) (name : string) (args : option (gmap string JsVal))
    : M (ToolResult + string) :=
  try_catch
    (let* result :=
       handleToolCall name (default ∅ args) canvasClient up clock in
     ret (inl result))
    (fun error => ret (inr ("Error: " +:+ err_message error))).

End Protocol.

(** ** The configuration read at start-up *)

Module Startup.
Import Canvas Server.

(** [parseInt(s, 10)]: leading white space, an optional sign, then the
    longest run of digits; [None] is [NaN]. *)
Definition parseInt10 (s : string) : option Z :=
  let t := drop_while is_space s in
  let '(negative, body) :=
    match t with
    | String "-" r => (true, r)
    | String "+" r => (false, r)
    | _ => (false, t)
    end in
  match decimal (take_while is_digit body) with
  | Some n => Some (if negative then - n else n)
  | None => None
  end.

(** [process.env.X || fallback]. *)
Definition env_or (penv : gmap string string) (var fallback : string)
    : string :=
  match penv !! var with
  | Some s => if truthy_string s then s else fallback
  | None => fallback
  end.

(** What the HTTP server holds once started. *)
Record Settings : Type := mkSettings {
  settings_env : Env;
  BASE_PATH : string;
  CANVAS_TIMEOUT_MS : Z;
  canvasClient : CanvasClient }.

Definition allowed_origins (penv : gmap string string) : list string :=
  match penv !! "ALLOWED_ORIGINS" with
  | Some s =>
      if truthy_string s then List.map trim (split "," s)
      else ["http://localhost:*"; "http://127.0.0.1:*"]
  | None => ["http://localhost:*"; "http://127.0.0.1:*"]
  end.

(** [Number.isFinite(Number(x)) ? Math.max(1, Math.floor(Number(x))) :
    15000], [Number(undefined)] being [NaN]. *)
Definition canvas_timeout `{Runtime} (penv : gmap string string) : Z :=
  match penv !! "CANVAS_TIMEOUT_MS" with
  | Some s =>
      match StringToNumber s with
      | Some n => Z.max 1 n
      | None => 15000
      end
  | None => 15000
  end.

(** The module body of the HTTP server up to the client: [None] when it
    exits for want of the base URL or the API token. *)
Definition http_server `{Runtime} (penv : gmap string string)
    : option Settings :=
  let CANVAS_BASE_URL := env_or penv "CANVAS_BASE_URL" "" in
  let CANVAS_API_TOKEN := env_or penv "CANVAS_API_TOKEN" "" in
  if negb (truthy_string CANVAS_BASE_URL)
     || negb (truthy_string CANVAS_API_TOKEN)
  then None
  else
    Some {| settings_env :=
              {| PORT := parseInt10 (env_or penv "PORT" "8080");
                 ALLOWED_ORIGINS := allowed_origins penv;
                 MCP_AUTH_TOKEN := env_or penv "MCP_AUTH_TOKEN" "" |};
            BASE_PATH := env_or penv "BASE_PATH" "/mcp";
            CANVAS_TIMEOUT_MS := canvas_timeout penv;
            canvasClient :=
              constructor (mkConfig CANVAS_BASE_URL CANVAS_API_TOKEN
                             (Some (inject_Z (canvas_timeout penv)))) |}.

(** The client of the stdio server: no [timeoutMs] is given. *)
Definition stdio_server (penv : gmap string string) : option CanvasClient :=
  let CANVAS_BASE_URL := env_or penv "CANVAS_BASE_URL" "" in
  let CANVAS_API_TOKEN := env_or penv "CANVAS_API_TOKEN" "" in
  if negb (truthy_string CANVAS_BASE_URL)
     || negb (truthy_string CANVAS_API_TOKEN)
  then None
  else Some (constructor (mkConfig CANVAS_BASE_URL CANVAS_API_TOKEN None)).

End Startup.

(** ** The add-on entry point *)

Module Addon.
Import Canvas Protocol.

(** [loadOptions]: the parsed content of the options file, or the empty
    object when reading or parsing throws ([None]). *)
Definition loadOptions (content : option JsVal) : JsVal :=
  match content with
  | Some v => v
  | None => JObj []
  end.

(** One [if] of [setEnvFromOptions]: the variable is set when the option
    is a string that is not empty. *)
Definition set_from_option (opts : JsVal) (key var : string)
    (penv : gmap string string) : gmap string string :=
  match get opts key with
  | JStr s => if truthy_string s then <[var := s]> penv else penv
  | _ => penv
  end.

(** [setEnvFromOptions(opts = {})]: reading a property of [null]
    throws. *)
Definition setEnvFromOptions `{Runtime} (opts : JsVal)
    (penv : gmap string string) : JsError + gmap string string :=
  match default_param opts (JObj []) with
  | JNull => inl (raised (NoProperties "null"))
  | opts =>
      inr (set_from_option opts "mcp_auth_token" "MCP_AUTH_TOKEN"
             (set_from_option opts "canvas_api_token" "CANVAS_API_TOKEN"
                (set_from_option opts "canvas_base_url" "CANVAS_BASE_URL"
                   penv)))
  end.

(** The environment the server is started with. *)
Definition prepare `{Runtime} (content : option JsVal)
    (penv : gmap string string) : JsError + gmap string string :=
  setEnvFromOptions (loadOptions content) penv.

End Addon.

(** ** Auxiliary notions for the statements of Part II *)

Module Aux.
Import Canvas Server.

(** An assignment is released at [now]: it has no [unlock_at], or one
    that parses to a time not after [now]. *)
Definition released `{Runtime} (now : Z) (a : RawAssignment) : bool :=
  match asg_unlock_at a with
  | Value s =>
      (s =? "")%string
      || match Date_parse s with Some t => t <=? now | None => false end
  | _ => true
  end.

(** The workflow state says submitted or graded. *)
Definition workflow_submitted (a : RawAssignment) : bool :=
  match asg_submission a with
  | Some s =>
      (sub_workflow_state s =? "submitted")%string
      || (sub_workflow_state s =? "graded")%string
  | None => false
  end.

(** The URLs requested when the pages [pages] answer in turn, from
    [url] on. *)
Fixpoint chain {T} (url : string) (pages : list (Response (Listing T)))
    : list string :=
  match pages with
  | [] => []
  | r :: rest =>
      url :: match parseLinkHeader (Link r) with
             | Some u => chain u rest
             | None => []
             end
  end.

(** The body of a page that is a success. *)
Definition page_body {T} (r : Response (Listing T)) : option (list T) :=
  if ok r then
    match json r with
    | Some (Elements data) => Some data
    | _ => None
    end
  else None.

(** Each element is due no later than every element after it, all due
    dates being valid. *)
Fixpoint ascending {A} (key : A -> option Z) (l : list A) : Prop :=
  match l with
  | [] => True
  | a :: rest =>
      (exists ta, key a = Some ta
                  /\ Forall (fun b => exists tb, key b = Some tb /\ ta <= tb)
                       rest)
      /\ ascending key rest
  end.

(** The six grade fields [hasGradeData] reads are all [null]. *)
Definition all_null (e : RawEnrollment) : Prop :=
  match grades e with
  | Some g =>
      current_score g = Null /\ current_grade g = Null
      /\ final_score g = Null /\ final_grade g = Null
  | None => True
  end
  /\ computed_current_score e = Null
  /\ computed_current_grade e = Null.

(** The requests [listUpcoming] sends for the assignments of
    [course]. *)
Definition assignment_requests `{Runtime} (this : CanvasClient)
    (up : Upstream) (now : Z) (course : Course) : list string :=
  snd (listAssignments this (JNum (course_id course)) (JBool true)
         (JStr "all") now now
         (up_assignments up (pretty (course_id course)))).


End Aux.

(** ** Further sample data *)

Module Cases.
Import Canvas Tools Server Protocol Startup Sample.

Definition two_pages : list (Fetched (Listing RawCourse)) :=
  [Spec.respond first_page; Spec.respond last_page].

Definition three_raw_courses : list RawCourse :=
  [course7; mkRawCourse 8 "Algebra" "ALG-101" (Some "active");
   mkRawCourse 9 "Rhetoric" "RHE-101" None].


Definition two_requests : list string := [courses_url; page_url "2"].

(** The second page answers 500. *)
Definition second_fails : list (Fetched (Listing RawCourse)) :=
  [Spec.respond first_page; Resolves server_error].

Definition next_header : string :=
  Spec.link_header [Spec.mkLink "" (page_url "1") " " "current";
                    Spec.mkLink "" (page_url "2") " " "next"].

(** An upstream whose course list answers 500. *)
Definition failing : Upstream :=
  mkUpstream [Resolves server_error]
    (fun _ => [])
    (fun _ _ => Rejects AbortError)
    (fun _ => Rejects AbortError).

(** An upstream whose course list does not answer in time. *)
Definition timing_out : Upstream :=
  mkUpstream [Rejects AbortError]
    (fun _ => [])
    (fun _ _ => Rejects AbortError)
    (fun _ => Rejects AbortError).

(** A submission graded with 0 points, and the response that carries
    it. *)
Definition zero_points : RawSubmissionDetail :=
  mkRawSubmissionDetail 3 "graded" (Value "2024-01-10T09:00:00Z") Null
    (Value 0) None None None (Some (mkRawAssignmentRef 3 "Essay")).
Definition submission_response : Response (option RawSubmissionDetail) :=
  mkResponse 200 "OK" None (Some (Some zero_points)).
Definition not_found : Response (option RawSubmissionDetail) :=
  mkResponse 404 "Not Found" None None.

(** Responses whose body is the JSON value [null], and no JSON. *)
Definition null_body : Response (option RawSubmissionDetail) :=
  mkResponse 200 "OK" None (Some None).
Definition no_json : Response (option RawSubmissionDetail) :=
  mkResponse 200 "OK" None None.

(** An upstream with two courses: the assignments of course 8 cannot be
    fetched. *)
Definition two_courses : Upstream :=
  mkUpstream
    [page [course7; mkRawCourse 8 "Algebra" "ALG-101" (Some "active")] None]
    (fun id => if (id =? "7")%string
               then [page [due_next_month; due_tomorrow; due_yesterday] None]
               else [Rejects AbortError])
    (fun _ _ => Rejects AbortError)
    (fun _ => Rejects AbortError).

(** Assignments with an [unlock_at]: in the future, not a date, and
    none. *)
Definition unlocking (id : Z) (unlock : nullable string) : RawAssignment :=
  mkRawAssignment id "Quiz" (Value "2024-01-20T12:00:00Z") unlock Undefined
    (Some 5) None None.
Definition locked_until_march : RawAssignment :=
  unlocking 4 (Value "2024-03-01T00:00:00Z").
Definition unlock_unparseable : RawAssignment := unlocking 5 (Value "soon").
Definition never_locked : RawAssignment := unlocking 6 Null.

(** Graded without a [submitted_at], as an assignment handed in on
    paper is. *)
Definition graded_on_paper : RawAssignment :=
  raw_assignment 7 Null (Some (mkRawSubmission "graded" Null None None)).

(** Enrollments in course 7: a concluded one with the later end date,
    and one whose grade fields are all [null]. *)
Definition concluded_enrollment : RawEnrollment :=
  mkRawEnrollment 12 7 "completed"
    (Some (mkRawGrades (Value 70) Null Null Null))
    Null Null Null Null Null
    (Some (mkRawCourseDates Null (Value "2025-01-01T00:00:00Z"))).
Definition ungraded_enrollment : RawEnrollment :=
  mkRawEnrollment 14 7 "active" (Some (mkRawGrades Null Null Null Null))
    Null Null Null Null Null None.

Definition paper_pool : list RawAssignment :=
  [due_yesterday; graded_on_paper].

Definition unlock_pool : list RawAssignment :=
  [locked_until_march; unlock_unparseable; never_locked].

Definition active_enrollment : RawEnrollment :=
  graded_enrollment 11 90 "2024-06-01T00:00:00Z".

Definition enrollments_page : Fetched (Listing RawEnrollment) :=
  page [concluded_enrollment; active_enrollment] None.

(** The items of course 7, by due date. *)
Definition upcoming_sorted : list UpcomingItem :=
  [mkUpcomingItem 7 "Logic" 1 "Essay" "2024-01-14T12:00:00Z" unsubmitted 10;
   mkUpcomingItem 7 "Logic" 2 "Essay" "2024-01-16T12:00:00Z" unsubmitted 10;
   mkUpcomingItem 7 "Logic" 3 "Essay" "2024-02-20T12:00:00Z" unsubmitted 10].

Definition clock : Clock := mkClock noon noon noon.

(** JSON-RPC bodies. *)
Definition call_body (name : JsVal) : JsVal :=
  JObj [("jsonrpc", JStr "2.0"); ("method", JStr "tools/call");
        ("id", JNum 1); ("params", JObj [("name", name)])].
Definition list_body : JsVal :=
  JObj [("jsonrpc", JStr "2.0"); ("method", JStr "tools/list");
        ("id", JNum 2)].
Definition ping_body : JsVal :=
  JObj [("jsonrpc", JStr "2.0"); ("method", JStr "ping"); ("id", JNum 3)].

(** What the route answers to [call_body (JStr "list_courses")] on
    [upstream], and the record it logs from 5 to 9. *)
Definition courses_reply : Reply :=
  CallResult (JNum 1) (CoursesResult [mkCourse 7 "Logic" "LOG-101" "active"]).
Definition courses_record : LogRecord :=
  mkLog "info" "tool_call" (JStr "list_courses") (JNum 1) 4 true None.


(** An environment of the process, and the options of the add-on. *)
Definition process_env : gmap string string :=
  list_to_map [("CANVAS_BASE_URL", "https://canvas.example/");
               ("CANVAS_API_TOKEN", "secret");
               ("CANVAS_TIMEOUT_MS", "0");
               ("ALLOWED_ORIGINS", "http://localhost:3000 , http://ha.local")].
Definition bare_env : gmap string string :=
  list_to_map [("MCP_AUTH_TOKEN", "s3cret"); ("HOME", "/root")].
Definition prepared_env : gmap string string :=
  <["CANVAS_API_TOKEN" := "t0ken"]>
    (<["CANVAS_BASE_URL" := "https://school.example/"]> bare_env).
Definition started : Settings :=
  mkSettings
    (mkEnv (Some 8080) ["http://localhost:3000"; "http://ha.local"] "")
    "/mcp" 1 (mkClient "https://canvas.example" "secret" 1).
Definition options : JsVal :=
  JObj [("canvas_base_url", JStr "https://school.example/");
        ("canvas_api_token", JStr "t0ken");
        ("mcp_auth_token", JStr "")].

(** Server configurations: one exact allowed origin beside a wild one,
    and a token that starts with a space. *)
Definition exact_env : Env :=
  mkEnv (Some 8080) ["http://localhost:3000"; "http://*.example"] "".

(** Course ids as a call of [list_upcoming] may give them, and the
    requests of that call on [two_courses]. *)
Definition selected_ids : JsVal := JArr [JStr "8"; JNum 7; JNum 5].
Definition selected_requests : list string :=
  [courses_url;
   "https://canvas.example/api/v1/courses/7/assignments"
     +:+ "?include%5B%5D=submission&per_page=100";
   "https://canvas.example/api/v1/courses/8/assignments"
     +:+ "?include%5B%5D=submission&per_page=100"].

(** A configured timeout of half a millisecond. *)
Definition half_ms : Q := Qmake 1 2.

(** An object with a property [toString] of its own, as the JSON text
    [{"toString": 1}] gives it. *)
Definition object_id : JsVal := JObj [("toString", JNum 1)].

(** Arguments of a tool call: options that are present but falsy, and a
    call without the assignment id. *)
Definition falsy_args : gmap string JsVal :=
  list_to_map [("course_id", JNum 7); ("include_future", JNull);
               ("status_filter", JStr "")].
Definition course_only : gmap string JsVal :=
  list_to_map [("course_id", JNum 7)].

End Cases.

(** A character other than the expected one ends the match. *)
Ltac other_char g Hg :=
  let Hm := fresh "Hm" in
  intros Hm; exfalso; revert Hm Hg;
  destruct g as [[] [] [] [] [] [] [] []]; try discriminate;
  intros _ Hg; apply Hg; reflexivity.

(* ================================================================== *)
(** * Part II. Theorems                                                *)
(* ================================================================== *)

Import Canvas.

(** ** The monad *)

Lemma bind_ext {A B} (m : M A) (k k' : A -> M B) :
  (forall a, k a = k' a) -> bind m k = bind m k'.
Proof.
  intros E. destruct m as [[a| |] l]; simpl; [rewrite E|..]; reflexivity.
Qed.

Lemma fst_bind {A B} (m : M A) (k : A -> M B) :
  fst (bind m k)
  = match fst m with
    | Ret a => fst (k a)
    | Throw e => Throw e
    | Stuck => Stuck
    end.
Proof.
  destruct m as [[a|e|] l]; simpl; try reflexivity.
  destruct (k a); reflexivity.
Qed.

Lemma fst_try_catch {A} (m : M A) (handler : JsError -> M A) :
  fst (try_catch m handler)
  = match fst m with
    | Throw e => fst (handler e)
    | other => other
    end.
Proof.
  destruct m as [[a|e|] l]; simpl; try reflexivity.
  destruct (handler e); reflexivity.
Qed.

Lemma bind_ret_l {A B} (a : A) (k : A -> M B) : bind (ret a) k = k a.
Proof. unfold bind, ret. destruct (k a). reflexivity. Qed.

Lemma bind_throw_l {A B} (e : JsError) (k : A -> M B) :
  bind (throw e) k = throw e.
Proof. reflexivity. Qed.

(** ** Conversions to a primitive value *)

Section Conversions.
Context `{Runtime}.

Lemma to_primitive_ok v : convertible v = true -> to_primitive v = ret tt.
Proof. unfold to_primitive. intros ->. reflexivity. Qed.

Lemma to_primitive_fails v :
  convertible v = false -> to_primitive v = throw (raised NoPrimitive).
Proof. unfold to_primitive. intros ->. reflexivity. Qed.

Lemma to_number_ok v : convertible v = true -> to_number v = ret (Number v).
Proof.
  intros Hc. unfold to_number. rewrite (to_primitive_ok v Hc), bind_ret_l.
  reflexivity.
Qed.

Lemma to_string_ok v : convertible v = true -> to_string v = ret (ToString v).
Proof.
  intros Hc. unfold to_string. rewrite (to_primitive_ok v Hc), bind_ret_l.
  reflexivity.
Qed.

Lemma to_number_fails v :
  convertible v = false -> to_number v = throw (raised NoPrimitive).
Proof.
  intros Hc. unfold to_number. rewrite (to_primitive_fails v Hc).
  reflexivity.
Qed.

Lemma to_string_fails v :
  convertible v = false -> to_string v = throw (raised NoPrimitive).
Proof.
  intros Hc. unfold to_string. rewrite (to_primitive_fails v Hc).
  reflexivity.
Qed.

End Conversions.

(** ** listAssignments: the status filters *)

Section StatusFilters.
Context `{Runtime}.

Lemma status_keep_missing now a :
  status_keep (JStr "missing") now a = Spec.is_missing now a.
Proof.
  unfold status_keep, Spec.is_missing, Spec.missing_flag, Spec.due_passed,
    Spec.has_submitted_at, isDueDatePassed, hasSubmittedAt, is_true_strict,
    truthy_string, date_lt, is_present.
  cbn [strict_eq_string String.eqb Ascii.eqb Bool.eqb].
  destruct (asg_submission a) as [s|];
    [destruct (sub_missing s) as [[|]|], (sub_submitted_at s)|];
    destruct (asg_due_at a) as [| |d]; try reflexivity;
    destruct (d =? "")%string; try reflexivity;
    destruct (Date_parse d); simpl; rewrite ?andb_true_r, ?andb_false_r;
    reflexivity.
Qed.

Lemma status_keep_unsubmitted now a :
  status_keep (JStr "unsubmitted") now a = Spec.is_unsubmitted a.
Proof.
  unfold status_keep, Spec.is_unsubmitted, Spec.no_submission,
    Spec.has_submitted_at, hasSubmittedAt, is_present.
  simpl. destruct (asg_submission a) as [s|]; reflexivity.
Qed.

Lemma status_keep_submitted now a :
  status_keep (JStr "submitted") now a = Spec.is_submitted a.
Proof.
  unfold status_keep, Spec.is_submitted, Spec.workflow_in,
    Spec.has_submitted_at, hasSubmittedAt, is_present.
  simpl. destruct (asg_submission a) as [s|]; simpl; [|reflexivity].
  destruct (sub_submitted_at s); simpl; try reflexivity;
    rewrite orb_false_r;
    destruct (sub_workflow_state s =? "submitted")%string; simpl;
    try reflexivity;
    destruct (sub_workflow_state s =? "graded")%string; reflexivity.
Qed.

Lemma filter_ext_eq {A} (f g : A -> bool) (l : list A) :
  (forall a, f a = g a) -> List.filter f l = List.filter g l.
Proof.
  intros E. induction l as [|x l IH]; simpl; [reflexivity|].
  rewrite E, IH. reflexivity.
Qed.

Lemma filter_true {A} (l : list A) : List.filter (fun _ => true) l = l.
Proof. induction l as [|x l IH]; simpl; congruence. Qed.

Lemma filter_assignments_status (includeFuture : JsVal) (f : string)
    (now_future now : Z) (p : RawAssignment -> bool)
    (assignments : list RawAssignment) :
  (f =? "all")%string = false ->
  (forall a, status_keep (JStr f) now a = p a) ->
  filter_assignments includeFuture (JStr f) now_future now assignments
  = List.map normalize_assignment
      (List.filter p (Spec.status_pool includeFuture now_future assignments)).
Proof.
  intros Hf Hp. unfold filter_assignments, Spec.status_pool.
  cbn [default_param strict_eq_string]. rewrite Hf. cbn [negb].
  rewrite (filter_ext_eq _ _ _ Hp). reflexivity.
Qed.

(** C1. Whatever the fetch gives and whatever the evaluation time,
    [listAssignments] with the status filter [missing] keeps exactly the
    assignments whose submission has the [missing] flag set or whose
    [due_at] is strictly in the past without a [submitted_at];
    [unsubmitted] keeps exactly those without a submission object or
    without a [submitted_at]; [submitted] keeps exactly those with a
    [submitted_at] or a workflow state [submitted] or [graded]; [all]
    keeps every assignment. In particular an assignment with a past
    [due_at] and no submission object is kept under [missing] and
    [unsubmitted] and dropped under [submitted]. *)
Theorem listAssignments_status_filter :
  forall (this : CanvasClient) (courseId includeFuture : JsVal)
         (now_future now : Z)
         (upstream : list (Fetched (Listing RawAssignment))),
    let fetch :=
      let* _ := to_primitive courseId in
      getWithPagination this
        ("/courses/" +:+ ToString courseId +:+ "/assignments")
        [("include[]", "submission")] upstream in
    let keeping (p : RawAssignment -> bool) : M (list Assignment) :=
      let* assignments := fetch in
      ret (List.map normalize_assignment
             (List.filter p
                (Spec.status_pool includeFuture now_future assignments))) in
    let run (statusFilter : string) :=
      listAssignments this courseId includeFuture (JStr statusFilter)
        now_future now upstream in
    run "missing" = keeping (Spec.is_missing now)
    /\ run "unsubmitted" = keeping Spec.is_unsubmitted
    /\ run "submitted" = keeping Spec.is_submitted
    /\ run "all" = keeping (fun _ => true)
    /\ (truthy (default_param includeFuture (JBool true)) = true ->
        forall assignments,
          Spec.status_pool includeFuture now_future assignments
          = assignments)
    /\ (forall (a : RawAssignment) (pool : list RawAssignment),
          In a pool ->
          Spec.due_passed now a = true ->
          asg_submission a = None ->
          In a (List.filter (Spec.is_missing now) pool)
          /\ In a (List.filter Spec.is_unsubmitted pool)
          /\ ~ In a (List.filter Spec.is_submitted pool)).
Proof.
  intros this courseId includeFuture now_future now upstream fetch keeping run.
  subst run keeping. unfold listAssignments. fold fetch.
  split; [|split; [|split; [|split; [|split;
    [intros Hf assignments
    |intros a pool Hin Hdue Hsub; split; [|split]]]]]].
  - apply bind_ext. intros assignments. apply f_equal.
    apply filter_assignments_status;
      [reflexivity | apply status_keep_missing].
  - apply bind_ext. intros assignments. apply f_equal.
    apply filter_assignments_status;
      [reflexivity | apply status_keep_unsubmitted].
  - apply bind_ext. intros assignments. apply f_equal.
    apply filter_assignments_status;
      [reflexivity | apply status_keep_submitted].
  - apply bind_ext. intros assignments. apply f_equal.
    unfold filter_assignments, Spec.status_pool.
    cbn [default_param strict_eq_string].
    change (negb ("all" =? "all")%string) with false. cbv iota.
    rewrite filter_true. reflexivity.
  - unfold Spec.status_pool. rewrite Hf. reflexivity.
  - apply filter_In. split; [assumption|].
    unfold Spec.is_missing. rewrite Hdue.
    unfold Spec.has_submitted_at. rewrite Hsub. simpl. apply orb_true_r.
  - apply filter_In. split; [assumption|].
    unfold Spec.is_unsubmitted, Spec.no_submission. rewrite Hsub.
    reflexivity.
  - intros Hin'. apply filter_In in Hin' as [_ Hs].
    unfold Spec.is_submitted, Spec.has_submitted_at, Spec.workflow_in in Hs.
    rewrite Hsub in Hs. discriminate.
Qed.

End StatusFilters.

(** ** fetchWithTimeout *)

Lemma fetchWithTimeout_eq {P} this input (upstream : Fetched P) :
  fetchWithTimeout this input upstream
  = (match upstream with
     | Resolves res => Ret res
     | Rejects err => Throw (rethrown this err)
     end, [input]).
Proof.
  unfold fetchWithTimeout, rethrown, bind, request.
  destruct upstream as [err|res]; simpl; [|reflexivity].
  destruct (_ || _); reflexivity.
Qed.

(** ** getCourseGrades *)

Section Grades.
Context `{Runtime}.

(** The [try] block of a course id that has a primitive value starts
    with the request. *)
Lemma getCourseGrades_try_eq this courseId upstream :
  convertible courseId = true ->
  getCourseGrades_try this courseId upstream
  = (let* response :=
       fetchWithTimeout this (enrollments_url this courseId) upstream in
     if negb (ok response) then ret (hidden (Number courseId))
     else
       match json response with
       | None => throw (raised InvalidJSON)
       | Some NotIterable => throw (raised (NotCallable "enrollments.filter"))
       | Some (Elements enrollments) =>
           let courseEnrollments :=
             List.filter
               (fun e => match Number courseId with
                         | Some n => enr_course_id e =? n
                         | None => false
                         end) enrollments in
           if (length courseEnrollments =? 0)%nat
           then ret (hidden (Number courseId))
           else
             match select_enrollment courseEnrollments with
             | None => throw (raised (NoProperties "undefined"))
             | Some enrollment =>
                 ret (summarize (Number courseId) enrollment)
             end
       end).
Proof.
  intros Hc. unfold getCourseGrades_try.
  rewrite (to_primitive_ok courseId Hc), bind_ret_l. reflexivity.
Qed.

(** What the [try] block does when [fetch] rejects: it throws, a
    [timeout] error for an abort and the error itself otherwise. *)
Lemma getCourseGrades_try_rejects this courseId err :
  convertible courseId = true ->
  fst (getCourseGrades_try this courseId (Rejects err))
  = Throw (rethrown this err).
Proof.
  intros Hc. rewrite (getCourseGrades_try_eq _ _ _ Hc).
  rewrite fst_bind, fetchWithTimeout_eq. reflexivity.
Qed.

Lemma getCourseGrades_try_not_stuck this courseId upstream :
  convertible courseId = true ->
  fst (getCourseGrades_try this courseId upstream) <> Stuck.
Proof.
  intros Hc. rewrite (getCourseGrades_try_eq _ _ _ Hc).
  rewrite fst_bind, fetchWithTimeout_eq.
  cbn [fst]. destruct upstream as [err|r]; [discriminate|].
  destruct (negb (ok r)); [discriminate|].
  destruct (json r) as [[|enrollments]|]; try discriminate.
  destruct (_ =? _)%nat; [discriminate|].
  destruct (select_enrollment _); discriminate.
Qed.

(** The [catch] block returns the same summary on both branches. *)
Lemma getCourseGrades_eq this courseId upstream :
  convertible courseId = true ->
  fst (getCourseGrades this courseId upstream)
  = match fst (getCourseGrades_try this courseId upstream) with
    | Throw _ => Ret (hidden (Number courseId))
    | other => other
    end.
Proof.
  intros Hc. unfold getCourseGrades. rewrite fst_try_catch.
  rewrite (to_number_ok courseId Hc), bind_ret_l.
  destruct (fst (getCourseGrades_try this courseId upstream));
    try reflexivity.
  destruct (match err_code e with Some _ => _ | None => _ end); reflexivity.
Qed.

(** [getCourseGrades] sends one request, whatever it settles to. *)
Lemma getCourseGrades_log this courseId upstream :
  convertible courseId = true ->
  snd (getCourseGrades this courseId upstream)
  = [enrollments_url this courseId].
Proof.
  intros Hc. unfold getCourseGrades.
  rewrite (getCourseGrades_try_eq _ _ _ Hc).
  rewrite (to_number_ok courseId Hc), bind_ret_l.
  rewrite fetchWithTimeout_eq.
  destruct upstream as [err|r]; cbn [bind try_catch].
  - rewrite (surjective_pairing
               (if match err_code (rethrown this err) with
                   | Some c => (c =? "timeout")%string
                   | None => false
                   end
                then ret (hidden (Number courseId))
                else ret (hidden (Number courseId)))).
    destruct (match err_code (rethrown this err) with
              | Some _ => _ | None => _ end); reflexivity.
  - destruct (negb (ok r)); [reflexivity|].
    destruct (json r) as [[|enrollments]|];
      try (cbn; destruct (match err_code _ with Some _ => _ | None => _ end);
           reflexivity).
    destruct (_ =? _)%nat; [reflexivity|].
    destruct (select_enrollment _); [reflexivity|].
    cbn. destruct (match err_code _ with Some _ => _ | None => _ end);
      reflexivity.
Qed.

(** A course id without a primitive value: the template literal of the
    URL throws in the [try] block, before any request, and
    [Number(courseId)] throws again in the [catch] block. *)
Lemma getCourseGrades_no_primitive this courseId upstream :
  convertible courseId = false ->
  getCourseGrades this courseId upstream = (Throw (raised NoPrimitive), []).
Proof.
  intros Hc. unfold getCourseGrades, getCourseGrades_try.
  rewrite (to_number_fails courseId Hc), (to_primitive_fails courseId Hc).
  rewrite bind_throw_l. unfold throw. cbn [try_catch].
  destruct (match err_code _ with Some _ => _ | None => _ end); reflexivity.
Qed.

(** Two active enrollments with the same course end date: the
    comparator does not look at the ids, and the first one is
    selected. *)
Lemma select_enrollment_same_end_date (a b : RawEnrollment) (ends : string) :
  enrollment_state a = "active" ->
  enrollment_state b = "active" ->
  course_end_at a = Value ends ->
  course_end_at b = Value ends ->
  truthy_string ends = true ->
  select_enrollment [a; b] = Some a.
Proof.
  intros Ha Hb Hea Heb Ht. unfold select_enrollment.
  cbn [List.filter]. rewrite Ha, Hb.
  change (("active" =? "active")%string) with true. cbv iota.
  cbn [length Nat.ltb Nat.leb sort insert_sorted].
  unfold after, compare_enrollments. rewrite Hea, Heb.
  cbn [truthy_nstring]. rewrite Ht. cbn [andb getTime].
  destruct (Date_parse ends) as [t|]; cbn [num_sub].
  - rewrite Z.sub_diag. reflexivity.
  - reflexivity.
Qed.

Lemma getCourseGrades_returns this courseId upstream :
  convertible courseId = true ->
  exists summary,
    fst (getCourseGrades this courseId upstream) = Ret summary.
Proof.
  intros Hc. rewrite (getCourseGrades_eq _ _ _ Hc).
  pose proof (getCourseGrades_try_not_stuck this courseId upstream Hc) as Hs.
  destruct (fst (getCourseGrades_try this courseId upstream));
    [eexists; reflexivity | eexists; reflexivity | congruence].
Qed.

(** C3, as amended. For a course id that has a primitive value (a
    string, a number, a boolean, [null], [undefined], and an object or
    array that converts to one) [getCourseGrades] lets no error escape.
    Whatever the request settles to, it returns a summary; when [fetch]
    rejects (the timer's abort, which the [try] block turns into a
    [timeout] error, or any other error), when the status is not 2xx,
    and when the body cannot be parsed or is not an array, the summary
    is [available: false] with the reason [hidden_or_unavailable] and
    the course id. *)
Theorem getCourseGrades_never_throws :
  forall (this : CanvasClient) (courseId : JsVal),
    convertible courseId = true ->
    (forall upstream,
        exists summary,
          fst (getCourseGrades this courseId upstream) = Ret summary)
    /\ (forall err,
           fst (getCourseGrades this courseId (Rejects err))
           = Ret (Unavailable (Number courseId) hidden_or_unavailable None))
    /\ (fst (getCourseGrades_try this courseId (Rejects AbortError))
        = Throw (coded_error "timeout"
                   ("Canvas request timed out after "
                      +:+ pretty (timeoutMs this) +:+ "ms"))
        /\ fst (getCourseGrades this courseId (Rejects AbortError))
           = Ret (Unavailable (Number courseId) hidden_or_unavailable None))
    /\ (forall r : Response (Listing RawEnrollment),
           ok r = false \/ json r = None \/ json r = Some NotIterable ->
           fst (getCourseGrades this courseId (Resolves r))
           = Ret (Unavailable (Number courseId) hidden_or_unavailable None)).
Proof.
  intros this courseId Hc.
  assert (Hrej : forall err,
             fst (getCourseGrades this courseId (Rejects err))
             = Ret (hidden (Number courseId))).
  { intros err.
    rewrite (getCourseGrades_eq _ _ _ Hc),
      (getCourseGrades_try_rejects _ _ _ Hc).
    reflexivity. }
  split; [|split; [|split]].
  - intros upstream. apply getCourseGrades_returns. exact Hc.
  - exact Hrej.
  - split; [apply getCourseGrades_try_rejects; exact Hc | apply Hrej].
  - intros r Hr. rewrite (getCourseGrades_eq _ _ _ Hc).
    rewrite (getCourseGrades_try_eq _ _ _ Hc).
    rewrite fst_bind, fetchWithTimeout_eq.
    cbn [fst]. destruct Hr as [Hok|[Hj|Hj]].
    + rewrite Hok. reflexivity.
    + rewrite Hj. destruct (negb (ok r)); reflexivity.
    + rewrite Hj. destruct (negb (ok r)); reflexivity.
Qed.

End Grades.

(** ** handleToolCall: the required ids *)

Section ToolCalls.
Context `{Runtime}.
Import Tools.

Lemma prop_falsy (args : gmap string JsVal) (k : string) :
  Spec.falsy_id (args !! k) -> truthy (prop args k) = false.
Proof.
  unfold Spec.falsy_id, prop. intros [E|[E|E]]; rewrite E; reflexivity.
Qed.

(** C10, as amended. [handleToolCall] tests the required ids for
    truthiness. With a [course_id] that is absent, the number 0 or the
    empty string, each of [list_assignments], [get_submission_status]
    and [get_course_grades] throws [invalid_arguments] with the message
    [course_id is required] and sends no request; with a truthy
    [course_id] and such an [assignment_id], [get_submission_status]
    throws [assignment_id is required] and sends no request. An id
    written as a non-empty string passes the test: [get_course_grades]
    sends the request for it. *)
Theorem handleToolCall_requires_truthy_ids :
  forall (args : gmap string JsVal) (canvasClient : CanvasClient)
         (up : Upstream) (clock : Clock),
    (Spec.falsy_id (args !! "course_id") ->
     forall toolName,
       In toolName
          ["list_assignments"; "get_submission_status"; "get_course_grades"] ->
       handleToolCall toolName args canvasClient up clock
       = (Throw (mkError "Error" (Some "invalid_arguments")
                   "course_id is required"), []))
    /\ (truthy (prop args "course_id") = true ->
        Spec.falsy_id (args !! "assignment_id") ->
        handleToolCall "get_submission_status" args canvasClient up clock
        = (Throw (mkError "Error" (Some "invalid_arguments")
                    "assignment_id is required"), []))
    /\ (forall id : string,
           args !! "course_id" = Some (JStr id) -> id <> "" ->
           exists grades,
             handleToolCall "get_course_grades" args canvasClient up clock
             = (Ret (GradesResult grades),
                [enrollments_url canvasClient (JStr id)])).
Proof.
  intros args canvasClient up clock. split; [|split].
  - intros Hc toolName Hin. apply prop_falsy in Hc.
    simpl in Hin. destruct Hin as [<-|[<-|[<-|[]]]];
      unfold handleToolCall; cbn [String.eqb Ascii.eqb Bool.eqb];
      rewrite Hc; reflexivity.
  - intros Hc Ha. apply prop_falsy in Ha.
    unfold handleToolCall; cbn [String.eqb Ascii.eqb Bool.eqb].
    rewrite Hc, Ha. reflexivity.
  - intros id Hid Hne.
    unfold handleToolCall; cbn [String.eqb Ascii.eqb Bool.eqb].
    assert (Hp : prop args "course_id" = JStr id)
      by (unfold prop; rewrite Hid; reflexivity).
    rewrite Hp. cbn [truthy]. unfold truthy_string.
    apply String.eqb_neq in Hne. rewrite Hne. cbn [negb ToString].
    destruct (getCourseGrades_returns canvasClient (JStr id)
                (up_enrollments up id) eq_refl) as [grades Hg].
    pose proof (getCourseGrades_log canvasClient (JStr id)
                  (up_enrollments up id) eq_refl) as Hlog.
    exists grades.
    destruct (getCourseGrades canvasClient (JStr id) (up_enrollments up id))
      as [res log]. cbn [fst snd] in Hg, Hlog. subst res log. reflexivity.
Qed.

End ToolCalls.

(** ** mcpAuthMiddleware *)

Section Auth.
Import Server.







End Auth.

(** ** Strings *)

Section Strings.

Lemma append_cons (c : ascii) (a b : string) :
  String c a +:+ b = String c (a +:+ b).
Proof. reflexivity. Qed.

Lemma append_nil_r (s : string) : s +:+ "" = s.
Proof.
  induction s as [|c s IH]; [reflexivity|].
  rewrite append_cons, IH. reflexivity.
Qed.

Lemma append_assoc (a b c : string) : (a +:+ b) +:+ c = a +:+ (b +:+ c).
Proof.
  induction a as [|x a IH]; [reflexivity|].
  rewrite !append_cons, IH. reflexivity.
Qed.

Lemma take_while_forallb p s : forallb_string p (take_while p s) = true.
Proof.
  induction s as [|c s IH]; simpl; [reflexivity|].
  destruct (p c) eqn:E; simpl; [rewrite E, IH|]; reflexivity.
Qed.

(** [drop_while] leaves the empty string or a string that starts with a
    character the predicate rejects. *)
Lemma drop_while_head p s :
  drop_while p s = ""
  \/ exists c r, drop_while p s = String c r /\ p c = false.
Proof.
  induction s as [|a s IH]; simpl; [left; reflexivity|].
  destruct (p a) eqn:E; [exact IH|]. right. eauto.
Qed.

Lemma take_while_app p u c rest :
  forallb_string p u = true -> p c = false ->
  take_while p (u +:+ String c rest) = u.
Proof.
  intros Hu Hc. induction u as [|a u IH]; simpl in *.
  - rewrite Hc. reflexivity.
  - apply andb_true_iff in Hu as [Ha Hu]. rewrite Ha. f_equal. auto.
Qed.

Lemma drop_while_app p u c rest :
  forallb_string p u = true -> p c = false ->
  drop_while p (u +:+ String c rest) = String c rest.
Proof.
  intros Hu Hc. induction u as [|a u IH]; simpl in *.
  - rewrite Hc. reflexivity.
  - apply andb_true_iff in Hu as [Ha Hu]. rewrite Ha. auto.
Qed.

Lemma lacks_app c a b :
  Spec.lacks c (a +:+ b) = Spec.lacks c a && Spec.lacks c b.
Proof.
  unfold Spec.lacks. induction a as [|x a IH]; simpl; [reflexivity|].
  rewrite IH, andb_assoc. reflexivity.
Qed.

Lemma split_lacks c s : Spec.lacks c s = true -> split c s = [s].
Proof.
  unfold Spec.lacks. induction s as [|a s IH]; simpl; [reflexivity|].
  intros Hs. apply andb_true_iff in Hs as [Ha Hs].
  apply negb_true_iff in Ha. rewrite Ha, (IH Hs). reflexivity.
Qed.

Lemma split_app c s rest :
  Spec.lacks c s = true ->
  split c (s +:+ String c rest) = s :: split c rest.
Proof.
  unfold Spec.lacks. induction s as [|a s IH]; simpl.
  - intros _. rewrite Ascii.eqb_refl. reflexivity.
  - intros Hs. apply andb_true_iff in Hs as [Ha Hs].
    apply negb_true_iff in Ha. rewrite Ha, (IH Hs). reflexivity.
Qed.

Lemma split_join c (parts : list string) :
  parts <> [] ->
  forallb (Spec.lacks c) parts = true ->
  split c (join (String c "") parts) = parts.
Proof.
  induction parts as [|s parts IH]; [congruence|]. intros _ Hall.
  simpl in Hall. apply andb_true_iff in Hall as [Hs Hall].
  destruct parts as [|s' parts].
  - simpl. apply split_lacks. exact Hs.
  - change (join (String c "") (s :: s' :: parts))
      with (s +:+ String c (join (String c "") (s' :: parts))).
    rewrite split_app by exact Hs. f_equal. apply IH; [discriminate|exact Hall].
Qed.

End Strings.

(** ** parseLinkHeader on headers made of links *)

Section LinkHeaders.

Lemma take_drop_while p s : take_while p s +:+ drop_while p s = s.
Proof.
  induction s as [|c s IH]; [reflexivity|]. simpl.
  destruct (p c); [|reflexivity]. rewrite append_cons, IH. reflexivity.
Qed.

Lemma startsWith_drop s p :
  startsWith s p = true -> s = p +:+ drop (String.length p) s.
Proof.
  revert s. induction p as [|a p IH]; intros s Hs; [reflexivity|].
  destruct s as [|b s]; [discriminate|]. cbn [startsWith] in Hs.
  apply andb_true_iff in Hs as [Hab Hs]. apply Ascii.eqb_eq in Hab.
  subst b. cbn [String.length drop]. rewrite append_cons, <- (IH s Hs).
  reflexivity.
Qed.

(** A string that holds [c] splits at its first [c]. *)
Lemma lacks_false c s :
  Spec.lacks c s = false ->
  exists a b, s = a +:+ String c b /\ Spec.lacks c a = true.
Proof.
  unfold Spec.lacks. induction s as [|x s IH]; [discriminate|].
  cbn [forallb_string]. destruct (Ascii.eqb x c) eqn:E; cbn [negb andb].
  - intros _. apply Ascii.eqb_eq in E. subst x. exists "", s.
    split; reflexivity.
  - intros Hs. destruct (IH Hs) as [a [b [-> Ha]]].
    exists (String x a), b. split; [reflexivity|].
    cbn [forallb_string]. rewrite E, Ha. reflexivity.
Qed.

Lemma split_nonempty c s : split c s <> [].
Proof.
  destruct s as [|a s]; [discriminate|]. cbn [split].
  destruct (Ascii.eqb a c); [discriminate|].
  destruct (split c s); discriminate.
Qed.

(** Splitting at every [c] splits at one [c] first. *)
Lemma split_at c a b :
  split c (a +:+ String c b) = split c a ++ split c b.
Proof.
  induction a as [|x a IH].
  - change ("" +:+ String c b) with (String c b). cbn [split].
    rewrite Ascii.eqb_refl. reflexivity.
  - rewrite append_cons. cbn [split]. rewrite IH.
    destruct (Ascii.eqb x c); [reflexivity|].
    pose proof (split_nonempty c a) as Hne.
    destruct (split c a) as [|y rest]; [congruence|]. reflexivity.
Qed.

Lemma split_head_prefix c s y rest :
  split c s = y :: rest -> exists b, s = y +:+ b.
Proof.
  revert y rest. induction s as [|x s IH]; intros y rest.
  - cbn [split]. intros E. inversion E; subst. exists "". reflexivity.
  - cbn [split]. destruct (Ascii.eqb x c).
    + intros E. inversion E; subst. exists (String x s). reflexivity.
    + destruct (split c s) as [|y' rest'] eqn:Es.
      * intros E. inversion E; subst. destruct (split_nonempty c s Es).
      * intros E. inversion E; subst.
        destruct (IH y' rest eq_refl) as [b ->].
        exists b. reflexivity.
Qed.

(** Every piece of a split is a part of the string. *)
Lemma split_piece c s piece :
  In piece (split c s) -> exists a b, s = a +:+ piece +:+ b.
Proof.
  induction s as [|x s IH].
  - cbn [split]. intros [<-|[]]. exists "", "". reflexivity.
  - cbn [split]. destruct (Ascii.eqb x c).
    + intros [<-|Hin]; [exists "", (String x s); reflexivity|].
      destruct (IH Hin) as [a [b ->]]. exists (String x a), b. reflexivity.
    + destruct (split c s) as [|y rest] eqn:Es.
      * destruct (split_nonempty c s Es).
      * intros [<-|Hin].
        -- destruct (split_head_prefix c s y rest Es) as [b ->].
           exists "", b. reflexivity.
        -- destruct (IH (or_intror Hin)) as [a [b ->]].
           exists (String x a), b. reflexivity.
Qed.

Lemma blank_lacks c s :
  is_space c = false -> Spec.blank s = true -> Spec.lacks c s = true.
Proof.
  unfold Spec.blank, Spec.lacks. intros Hc.
  induction s as [|x s IH]; [reflexivity|]. cbn [forallb_string].
  intros Hs. apply andb_true_iff in Hs as [Hx Hs]. rewrite (IH Hs).
  destruct (Ascii.eqb x c) eqn:E; [|reflexivity].
  apply Ascii.eqb_eq in E. congruence.
Qed.

(** What a match at the start of [s] tells about [s]: the relation name
    stands in it between two quotes. *)
Lemma link_match_here_quoted s url rel :
  link_match_here s = Some (url, rel) ->
  Spec.lacks dquote rel = true
  /\ exists A Z, s = A +:+ String dquote (rel +:+ String dquote Z).
Proof.
  unfold link_match_here. destruct s as [|a s1]; [discriminate|].
  destruct (Ascii.ascii_dec a "<") as [->|Ha]; [|other_char a Ha].
  pose proof (take_drop_while (fun c => negb (Ascii.eqb c ">")) s1) as E1.
  set (u := take_while (fun c => negb (Ascii.eqb c ">")) s1) in *.
  destruct u as [|c0 u0]; [discriminate|].
  destruct (drop_while _ s1) as [|g t]; [discriminate|].
  destruct (Ascii.ascii_dec g ">") as [->|Hg]; [|other_char g Hg].
  destruct t as [|semi s2]; [discriminate|].
  destruct (Ascii.ascii_dec semi ";") as [->|Hsemi]; [|other_char semi Hsemi].
  pose proof (take_drop_while is_space s2) as E2.
  set (s3 := drop_while is_space s2) in *.
  destruct (startsWith s3 ("rel=" +:+ String dquote "")) eqn:Hs; [|discriminate].
  apply startsWith_drop in Hs.
  change (String.length ("rel=" +:+ String dquote "")) with 5%nat in Hs.
  set (s4 := drop 5 s3) in *.
  pose proof (take_drop_while (fun c => negb (Ascii.eqb c dquote)) s4) as E4.
  pose proof (take_while_forallb (fun c => negb (Ascii.eqb c dquote)) s4)
    as Hq.
  destruct (drop_while_head (fun c => negb (Ascii.eqb c dquote)) s4)
    as [Hd|[q [Z [Hd Hqc]]]]; rewrite Hd in *.
  - destruct (take_while _ s4); discriminate.
  - apply negb_false_iff, Ascii.eqb_eq in Hqc. subst q.
    set (r := take_while (fun c => negb (Ascii.eqb c dquote)) s4) in *.
    destruct r as [|c1 r1] eqn:Er; [discriminate|].
    intros Hm. inversion Hm; subst url rel. split; [exact Hq|].
    exists (String "<" (String c0 u0 +:+ String ">" (String ";"
              (take_while is_space s2 +:+ "rel="))))%string, Z.
    rewrite <- E1 at 1. rewrite <- E2 at 1. rewrite Hs. rewrite <- E4.
    rewrite !append_cons. f_equal. f_equal.
    rewrite !append_assoc. f_equal. rewrite !append_cons. f_equal. f_equal.
    rewrite !append_assoc. reflexivity.
Qed.

Lemma link_match_quoted s url rel :
  link_match s = Some (url, rel) ->
  Spec.lacks dquote rel = true
  /\ exists A Z, s = A +:+ String dquote (rel +:+ String dquote Z).
Proof.
  induction s as [|a s IH].
  - cbn. discriminate.
  - cbn [link_match].
    destruct (link_match_here (String a s)) as [[u r]|] eqn:E.
    + intros Hm. inversion Hm; subst.
      exact (link_match_here_quoted _ _ _ E).
    + intros Hm. destruct (IH Hm) as [Hq [A [Z ->]]].
      split; [exact Hq|]. exists (String a A), Z. reflexivity.
Qed.

(** In a string with two quotes, what stands between two quotes is what
    stands between these two. *)
Lemma quoted_unique X rel A r Z :
  Spec.lacks dquote X = true ->
  Spec.lacks dquote rel = true ->
  Spec.lacks dquote r = true ->
  X +:+ String dquote (rel +:+ String dquote "")
  = A +:+ String dquote (r +:+ String dquote Z) ->
  r = rel.
Proof.
  intros HX Hrel Hr E.
  set (nq := fun c => negb (Ascii.eqb c dquote)).
  assert (Hnq : nq dquote = false)
    by (unfold nq; rewrite Ascii.eqb_refl; reflexivity).
  assert (Hl : drop_while nq (X +:+ String dquote (rel +:+ String dquote ""))
               = String dquote (rel +:+ String dquote ""))
    by (apply drop_while_app; assumption).
  destruct (Spec.lacks dquote A) eqn:HA.
  - rewrite E in Hl. rewrite (drop_while_app nq A) in Hl by assumption.
    inversion Hl as [E'].
    apply (f_equal (take_while nq)) in E'.
    rewrite !take_while_app in E' by assumption. exact E'.
  - exfalso. destruct (lacks_false _ _ HA) as [A1 [A2 [-> HA1]]].
    rewrite E, append_assoc, append_cons in Hl.
    rewrite (drop_while_app nq A1) in Hl by assumption.
    inversion Hl as [E'].
    apply (f_equal (drop_while nq)) in E'.
    rewrite (drop_while_app nq rel) in E' by assumption.
    destruct (Spec.lacks dquote A2) eqn:HA2.
    + rewrite (drop_while_app nq A2) in E' by assumption.
      inversion E' as [E'']. destruct r; discriminate.
    + destruct (lacks_false _ _ HA2) as [B1 [B2 [-> HB1]]].
      rewrite append_assoc, append_cons in E'.
      rewrite (drop_while_app nq B1) in E' by assumption.
      inversion E' as [E'']. destruct B2; discriminate.
Qed.

Lemma segment_formed_parts l :
  Spec.segment_formed l = true ->
  Spec.blank (Spec.link_gap l) = true
  /\ Spec.blank (Spec.link_space l) = true
  /\ (exists c u, Spec.link_url l = String c u)
  /\ Spec.lacks ">" (Spec.link_url l) = true
  /\ Spec.lacks dquote (Spec.link_url l) = true
  /\ (exists c r, Spec.link_rel l = String c r)
  /\ Spec.lacks dquote (Spec.link_rel l) = true.
Proof.
  unfold Spec.segment_formed. intros Hok.
  repeat (apply andb_true_iff in Hok as [Hok ?]).
  repeat split; try assumption.
  - destruct (Spec.link_url l); [discriminate|eauto].
  - destruct (Spec.link_rel l); [discriminate|eauto].
Qed.

(** A well-formed link holds two quotes, around its relation name. *)
Lemma link_segment_quoted l :
  Spec.segment_formed l = true ->
  exists X,
    Spec.link_segment l
    = X +:+ String dquote (Spec.link_rel l +:+ String dquote "")
    /\ Spec.lacks dquote X = true.
Proof.
  intros Hok.
  destruct (segment_formed_parts l Hok) as [Hg [Hs [_ [_ [Hu [_ _]]]]]].
  exists (Spec.link_gap l +:+ "<" +:+ Spec.link_url l +:+ ">;"
            +:+ Spec.link_space l +:+ "rel=").
  split.
  - unfold Spec.link_segment. rewrite !append_assoc. reflexivity.
  - rewrite !lacks_app, Hu.
    rewrite (blank_lacks dquote _ eq_refl Hg),
      (blank_lacks dquote _ eq_refl Hs).
    reflexivity.
Qed.

(** Whatever matches in a piece of a well-formed link has the relation
    name of the link. *)
Lemma piece_rel l piece url rel :
  Spec.segment_formed l = true ->
  In piece (split "," (Spec.link_segment l)) ->
  link_match piece = Some (url, rel) ->
  rel = Spec.link_rel l.
Proof.
  intros Hok Hin Hm.
  destruct (segment_formed_parts l Hok) as [_ [_ [_ [_ [_ [_ Hrel]]]]]].
  destruct (link_segment_quoted l Hok) as [X [EX HX]].
  destruct (link_match_quoted _ _ _ Hm) as [Hr [A [Z EA]]].
  destruct (split_piece _ _ _ Hin) as [a [b Eab]].
  rewrite EA in Eab. rewrite EX in Eab.
  apply (quoted_unique X (Spec.link_rel l) (a +:+ A) rel (Z +:+ b) HX Hrel Hr).
  rewrite Eab. rewrite !append_assoc, !append_cons.
  rewrite !append_assoc, !append_cons. reflexivity.
Qed.

Lemma parseLinkHeader_parts_app a b acc :
  parseLinkHeader_parts (a ++ b) acc
  = parseLinkHeader_parts b (parseLinkHeader_parts a acc).
Proof.
  revert acc. induction a as [|part a IH]; intros acc; [reflexivity|].
  cbn [app parseLinkHeader_parts].
  destruct (link_match part) as [[url rel]|]; [|apply IH].
  destruct (rel =? "next")%string; apply IH.
Qed.

Lemma parseLinkHeader_parts_other parts acc :
  (forall part url, In part parts -> link_match part <> Some (url, "next")) ->
  parseLinkHeader_parts parts acc = acc.
Proof.
  induction parts as [|part parts IH]; intros Hall; [reflexivity|].
  cbn [parseLinkHeader_parts].
  assert (IH' : parseLinkHeader_parts parts acc = acc)
    by (apply IH; intros p u Hin; apply Hall; right; exact Hin).
  destruct (link_match part) as [[url rel]|] eqn:E; [|exact IH'].
  destruct (rel =? "next")%string eqn:Er; [|exact IH'].
  apply String.eqb_eq in Er. subst rel.
  destruct (Hall part url (or_introl eq_refl) E).
Qed.

(** A link of another relation leaves [next] as it is, whatever its
    pieces. *)
Lemma parseLinkHeader_parts_segment_other l acc :
  Spec.segment_formed l = true ->
  (Spec.link_rel l =? "next")%string = false ->
  parseLinkHeader_parts (split "," (Spec.link_segment l)) acc = acc.
Proof.
  intros Hok Hrel. apply parseLinkHeader_parts_other.
  intros part url Hin Hm. apply String.eqb_neq in Hrel. apply Hrel.
  symmetry. exact (piece_rel l part url "next" Hok Hin Hm).
Qed.

Lemma link_match_here_segment url space rel :
  (exists c u, url = String c u) ->
  Spec.lacks ">" url = true ->
  Spec.blank space = true ->
  (exists c r, rel = String c r) ->
  Spec.lacks dquote rel = true ->
  link_match_here ("<" +:+ url +:+ ">;" +:+ space +:+ "rel="
                     +:+ String dquote rel +:+ String dquote "")
  = Some (url, rel).
Proof.
  intros [c [u ->]] Hgt Hsp [c' [r ->]] Hq.
  unfold link_match_here.
  change ("<" +:+ String c u +:+ ">;" +:+ space +:+ "rel="
            +:+ String dquote (String c' r) +:+ String dquote "")
    with (String "<" (String c u +:+ String ">"
            (String ";" (space +:+ String "r" ("el="
               +:+ String dquote (String c' r +:+ String dquote "")))))).
  cbv beta iota.
  rewrite take_while_app, drop_while_app; try exact Hgt; try reflexivity.
  cbv beta iota.
  rewrite (drop_while_app is_space space) by (exact Hsp || reflexivity).
  change (startsWith
            (String "r" ("el=" +:+ String dquote
                           (String c' r +:+ String dquote "")))
            ("rel=" +:+ String dquote ""))
    with true.
  cbv beta iota.
  change (drop 5
            (String "r" ("el=" +:+ String dquote
                           (String c' r +:+ String dquote ""))))
    with (String c' r +:+ String dquote "").
  rewrite take_while_app, drop_while_app; try exact Hq; try reflexivity.
Qed.

Lemma link_match_unfold s :
  link_match s
  = match link_match_here s with
    | Some m => Some m
    | None => match s with
              | String _ s' => link_match s'
              | EmptyString => None
              end
    end.
Proof. destruct s; reflexivity. Qed.

(** The white space before a link is passed over. *)
Lemma link_match_gap gap s :
  Spec.blank gap = true -> link_match (gap +:+ s) = link_match s.
Proof.
  unfold Spec.blank. induction gap as [|c gap IH]; [reflexivity|].
  cbn [forallb_string]. intros Hg. apply andb_true_iff in Hg as [Hc Hg].
  rewrite append_cons, link_match_unfold.
  assert (E : link_match_here (String c (gap +:+ s)) = None).
  { destruct (Ascii.ascii_dec c "<") as [->|Hne]; [discriminate Hc|].
    unfold link_match_here.
    destruct c as [[] [] [] [] [] [] [] []]; try reflexivity.
    exfalso. apply Hne. reflexivity. }
  rewrite E. apply IH. exact Hg.
Qed.

Lemma link_match_segment l :
  Spec.segment_formed l = true ->
  link_match (Spec.link_segment l) = Some (Spec.link_url l, Spec.link_rel l).
Proof.
  intros Hok.
  destruct (segment_formed_parts l Hok) as [Hg [Hs [Hu [Hgt [_ [Hr Hq]]]]]].
  unfold Spec.link_segment. rewrite (link_match_gap _ _ Hg).
  rewrite link_match_unfold.
  rewrite (link_match_here_segment _ _ _ Hu Hgt Hs Hr Hq). reflexivity.
Qed.

(** A link whose URL holds no comma and whose relation is [next] is one
    piece, and sets [next]. *)
Lemma parseLinkHeader_parts_segment_next l acc :
  Spec.segment_formed l = true ->
  (Spec.link_rel l =? "next")%string = true ->
  Spec.lacks "," (Spec.link_url l) = true ->
  parseLinkHeader_parts (split "," (Spec.link_segment l)) acc
  = Some (Spec.link_url l).
Proof.
  intros Hok Hrel Hu.
  destruct (segment_formed_parts l Hok) as [Hg [Hs _]].
  assert (Hl : Spec.lacks "," (Spec.link_segment l) = true).
  { unfold Spec.link_segment. apply String.eqb_eq in Hrel. rewrite Hrel.
    rewrite !lacks_app, Hu.
    rewrite (blank_lacks "," _ eq_refl Hg), (blank_lacks "," _ eq_refl Hs).
    reflexivity. }
  rewrite (split_lacks _ _ Hl). cbn [parseLinkHeader_parts].
  rewrite (link_match_segment l Hok), Hrel. reflexivity.
Qed.

(** The pieces of a header are the pieces of its links. *)
Lemma split_link_header segs :
  segs <> [] ->
  split "," (Spec.link_header segs)
  = flat_map (fun l => split "," (Spec.link_segment l)) segs.
Proof.
  unfold Spec.link_header.
  induction segs as [|l segs IH]; [congruence|]. intros _.
  destruct segs as [|l' segs].
  - cbn [List.map join flat_map]. rewrite app_nil_r. reflexivity.
  - change (join "," (List.map Spec.link_segment (l :: l' :: segs)))
      with (Spec.link_segment l
              +:+ String "," (join "," (List.map Spec.link_segment
                                          (l' :: segs)))).
    rewrite split_at, IH by discriminate. reflexivity.
Qed.

Lemma parseLinkHeader_parts_segments segs acc :
  Spec.links_ok segs = true ->
  parseLinkHeader_parts
    (flat_map (fun l => split "," (Spec.link_segment l)) segs) acc
  = match Spec.next_of segs with Some u => Some u | None => acc end.
Proof.
  unfold Spec.links_ok. revert acc.
  induction segs as [|l segs IH]; intros acc Hall; [reflexivity|].
  apply andb_true_iff in Hall as [Hall Hnext].
  cbn [forallb] in Hall. apply andb_true_iff in Hall as [Hok Hall].
  cbn [flat_map]. rewrite parseLinkHeader_parts_app.
  cbn [Spec.next_of] in *.
  destruct (Spec.next_of segs) as [u|] eqn:En.
  - rewrite IH; [reflexivity|]. rewrite Hall, Hnext. reflexivity.
  - rewrite IH by (rewrite Hall; reflexivity).
    destruct (Spec.link_rel l =? "next")%string eqn:Er.
    + apply parseLinkHeader_parts_segment_next; assumption.
    + apply parseLinkHeader_parts_segment_other; assumption.
Qed.

(** [parseLinkHeader] extracts the URL of the [next] link and nothing
    else. *)
Lemma parseLinkHeader_link_header segs :
  Spec.links_ok segs = true ->
  parseLinkHeader (Some (Spec.link_header segs)) = Spec.next_of segs.
Proof.
  intros Hall. unfold parseLinkHeader.
  destruct segs as [|seg segs]; [reflexivity|].
  assert (Ht : truthy_string (Spec.link_header (seg :: segs)) = true).
  { unfold Spec.link_header, Spec.link_segment.
    destruct seg as [gap url space rel]. cbn [List.map Spec.link_gap].
    destruct gap, segs; reflexivity. }
  rewrite Ht, split_link_header by discriminate.
  rewrite (parseLinkHeader_parts_segments _ None Hall).
  destruct (Spec.next_of (seg :: segs)); reflexivity.
Qed.

Lemma next_of_truthy segs u :
  Spec.links_ok segs = true ->
  Spec.next_of segs = Some u -> truthy_string u = true.
Proof.
  unfold Spec.links_ok. intros Hall. apply andb_true_iff in Hall as [Hall _].
  induction segs as [|l segs IH]; [discriminate|].
  cbn [forallb] in Hall. apply andb_true_iff in Hall as [Hok Hall].
  cbn [Spec.next_of]. intros Hn.
  destruct (Spec.next_of segs) as [u'|].
  - inversion Hn; subst. apply IH; [exact Hall|reflexivity].
  - destruct (Spec.link_rel l =? "next")%string; [|discriminate].
    inversion Hn; subst.
    destruct (segment_formed_parts l Hok) as [_ [_ [[c [r ->]] _]]].
    reflexivity.
Qed.

End LinkHeaders.

(** ** getWithPagination *)

Section Pagination.
Context `{Runtime} {T : Type}.

Lemma bind_ret_log {A B} (a : A) (l : list string) (k : A -> M B) :
  bind (Ret a, l) k = (fst (k a), l ++ snd (k a)).
Proof. unfold bind. destruct (k a). reflexivity. Qed.

Lemma loop_done this (upstream : list (Fetched (Listing T))) results :
  getWithPagination_loop this upstream None results = ret results.
Proof. destruct upstream; reflexivity. Qed.

Lemma page_ok_status (p : Spec.Page T) :
  Spec.page_ok p = true ->
  ok (mkResponse (Spec.page_status p) (Spec.page_statusText p)
        (option_map Spec.link_header (Spec.page_links p))
        (Some (Elements (Spec.page_items p)))) = true.
Proof.
  unfold Spec.page_ok, ok. cbn [status]. intros Hok.
  apply andb_true_iff in Hok as [Hok _]. exact Hok.
Qed.

Lemma parseLinkHeader_page (p : Spec.Page T) :
  Spec.page_ok p = true ->
  parseLinkHeader (option_map Spec.link_header (Spec.page_links p))
  = Spec.page_next p.
Proof.
  unfold Spec.page_ok, Spec.page_next. intros Hok.
  apply andb_true_iff in Hok as [_ Hok].
  destruct (Spec.page_links p) as [segs|]; [|reflexivity].
  apply parseLinkHeader_link_header. exact Hok.
Qed.

Lemma page_next_truthy (p : Spec.Page T) u :
  Spec.page_ok p = true -> Spec.page_next p = Some u ->
  truthy_string u = true.
Proof.
  unfold Spec.page_ok, Spec.page_next. intros Hok.
  apply andb_true_iff in Hok as [_ Hok].
  destruct (Spec.page_links p) as [segs|]; [|discriminate].
  apply next_of_truthy. exact Hok.
Qed.

(** One turn of the loop on a successful page. *)
Lemma loop_step this (p : Spec.Page T) upstream url results :
  truthy_string url = true ->
  Spec.page_ok p = true ->
  getWithPagination_loop this (Spec.respond p :: upstream) (Some url) results
  = let rest := getWithPagination_loop this upstream (Spec.page_next p)
                  (results ++ Spec.page_items p) in
    (fst rest, url :: snd rest).
Proof.
  intros Hu Hok. cbn [getWithPagination_loop]. rewrite Hu.
  unfold Spec.respond. rewrite fetchWithTimeout_eq, bind_ret_log.
  rewrite (page_ok_status p Hok). cbn [negb json Link].
  rewrite (parseLinkHeader_page p Hok). reflexivity.
Qed.

(** The loop runs through pages that each name a next one and hands
    the accumulated results to what follows. *)
Lemma requested_final url nexts :
  Spec.requested url nexts ++ [Spec.final_url url nexts] = url :: nexts.
Proof.
  revert url. induction nexts as [|u nexts IH]; intros url; [reflexivity|].
  cbn [Spec.requested Spec.final_url app]. rewrite IH. reflexivity.
Qed.

Lemma loop_through this (init : list (Spec.Page T)) upstream url results :
  truthy_string url = true ->
  forallb Spec.has_next init = true ->
  truthy_string (Spec.final_url url (Spec.next_urls init)) = true
  /\ getWithPagination_loop this (List.map Spec.respond init ++ upstream)
       (Some url) results
     = let rest :=
         getWithPagination_loop this upstream
           (Some (Spec.final_url url (Spec.next_urls init)))
           (results ++ concat (List.map Spec.page_items init)) in
       (fst rest, Spec.requested url (Spec.next_urls init) ++ snd rest).
Proof.
  revert url results.
  induction init as [|p init IH]; intros url results Hu Hall.
  - split; [exact Hu|].
    cbn [List.map concat app Spec.next_urls flat_map Spec.requested
           Spec.final_url].
    rewrite app_nil_r.
    destruct (getWithPagination_loop this upstream (Some url) results).
    reflexivity.
  - cbn [forallb] in Hall. apply andb_true_iff in Hall as [Hp Hall].
    unfold Spec.has_next in Hp. apply andb_true_iff in Hp as [Hok Hn].
    destruct (Spec.page_next p) as [u|] eqn:Hnext; [|discriminate].
    pose proof (page_next_truthy p u Hok Hnext) as Htu.
    destruct (IH u (results ++ Spec.page_items p) Htu Hall) as [Hf Hrun].
    assert (Hnu : Spec.next_urls (p :: init) = u :: Spec.next_urls init).
    { unfold Spec.next_urls. cbn [flat_map]. rewrite Hnext. reflexivity. }
    rewrite Hnu. cbn [Spec.final_url Spec.requested]. split; [exact Hf|].
    cbn [List.map app]. rewrite (loop_step this p _ url results Hu Hok).
    rewrite Hnext, Hrun. cbn [fst snd concat].
    rewrite <- app_assoc. reflexivity.
Qed.

End Pagination.

Section PaginationTheorems.
Context `{Runtime} {T : Type}.

Lemma next_urls_length (init : list (Spec.Page T)) :
  forallb Spec.has_next init = true ->
  length (Spec.next_urls init) = length init.
Proof.
  induction init as [|p init IH]; [reflexivity|].
  cbn [forallb]. intros Hall. apply andb_true_iff in Hall as [Hp Hall].
  unfold Spec.has_next in Hp. apply andb_true_iff in Hp as [_ Hn].
  unfold Spec.next_urls in *. cbn [flat_map].
  destruct (Spec.page_next p); [|discriminate].
  cbn [app length]. rewrite (IH Hall). reflexivity.
Qed.

(** C5, as amended. For pages 1..N of which all but the last carry a
    [Link] header with a [next] link whose URL holds no comma (among
    links of any other relation, with or without white space after the
    separating commas, and with or without commas in their URLs and
    relation names) and the last carries no [Link] header or one
    without a [next] link, the paginated fetch returns the
    concatenation of the N bodies in order and sends exactly N
    requests: the initial URL, then each page's [next] URL and no
    other. It stops at the first page without a [next], whatever the
    upstream could still answer. *)
Theorem getWithPagination_all_pages :
  forall (this : CanvasClient) (endpoint : string)
         (params : list (string * string)) (url0 : string)
         (init : list (Spec.Page T)) (final : Spec.Page T)
         (extra : list (Fetched (Listing T))),
    URL_serialize (baseUrl this +:+ "/api/v1" +:+ endpoint)
      (params ++ [("per_page", "100")]) = Some url0 ->
    truthy_string url0 = true ->
    forallb Spec.has_next init = true ->
    Spec.page_ok final = true ->
    Spec.page_next final = None ->
    getWithPagination this endpoint params
      (List.map Spec.respond init ++ Spec.respond final :: extra)
    = (Ret (concat (List.map Spec.page_items (init ++ [final]))),
       url0 :: Spec.next_urls init)
    /\ length (url0 :: Spec.next_urls init) = length (init ++ [final]).
Proof.
  intros this endpoint params url0 init final extra Hurl Hu Hall Hok Hnone.
  split.
  - unfold getWithPagination. rewrite Hurl.
    destruct (loop_through this init (Spec.respond final :: extra) url0 []
                Hu Hall) as [Hf Hrun].
    rewrite Hrun, (loop_step this final extra _ _ Hf Hok), Hnone, loop_done.
    cbn [fst snd ret app]. rewrite requested_final.
    rewrite map_app, concat_app. cbn [List.map concat].
    rewrite app_nil_r. reflexivity.
  - rewrite length_app. cbn [length]. rewrite (next_urls_length init Hall).
    lia.
Qed.

(** A request that is answered by a page that is not a success, or
    whose body cannot be parsed, is the last one: the loop throws. *)
Lemma loop_aborts this (upstream : list (Fetched (Listing T))) :
  forall (nextUrl : option string) (results : list T) (i : nat)
         (r : Response (Listing T)),
    (i < length (snd (getWithPagination_loop this upstream nextUrl
                        results)))%nat ->
    upstream !! i = Some (Resolves r) ->
    (ok r = false ->
     fst (getWithPagination_loop this upstream nextUrl results)
     = Throw (canvas_api_error r))
    /\ (ok r = true -> json r = None ->
        fst (getWithPagination_loop this upstream nextUrl results)
        = Throw invalid_response).
Proof.
  induction upstream as [|page upstream IH]; intros nextUrl results i r Hi Hr.
  - discriminate.
  - cbn [getWithPagination_loop] in *.
    destruct nextUrl as [url|]; [|cbn in Hi; lia].
    destruct (truthy_string url); [|cbn in Hi; lia].
    rewrite fetchWithTimeout_eq in *.
    destruct page as [err|r0].
    + cbn in Hi. destruct i as [|i]; [discriminate|lia].
    + rewrite bind_ret_log in *. cbn [fst snd] in *.
      destruct (ok r0) eqn:Hok0; cbn [negb] in *.
      * destruct (json r0) as [[|data]|] eqn:Hj0.
        -- cbn in Hi. destruct i as [|i]; [|lia].
           cbn in Hr. inversion Hr; subst r0. split; congruence.
        -- destruct i as [|i].
           ++ cbn in Hr. inversion Hr; subst r0. split; congruence.
           ++ cbn in Hr. cbn [app length] in Hi.
              apply (IH _ _ i r); [lia|exact Hr].
        -- cbn in Hi. destruct i as [|i]; [|lia].
           cbn in Hr. inversion Hr; subst r0. split; [congruence|].
           reflexivity.
      * cbn in Hi. destruct i as [|i]; [|lia].
        cbn in Hr. inversion Hr; subst r0. split; [reflexivity|congruence].
Qed.

(** C6. When a request of the paginated fetch (the [i]-th, one of those
    it logs) is answered with a status outside 2xx, the whole fetch
    throws the [canvas_api_error] whose message carries that status;
    when it is answered with a 2xx status and a body that cannot be
    parsed, it throws [invalid_response]. In both cases the fetch
    returns no results: those of the earlier pages are lost with the
    throw. *)
Theorem getWithPagination_aborts :
  forall (this : CanvasClient) (endpoint : string)
         (params : list (string * string))
         (upstream : list (Fetched (Listing T))) (i : nat)
         (r : Response (Listing T)),
    let run := getWithPagination this endpoint params upstream in
    (i < length (snd run))%nat ->
    upstream !! i = Some (Resolves r) ->
    (ok r = false ->
     fst run
     = Throw (mkError "Error" (Some "canvas_api_error")
                ("Canvas API error: " +:+ pretty (status r) +:+ " "
                   +:+ statusText r)))
    /\ (ok r = true -> json r = None ->
        fst run
        = Throw (mkError "Error" (Some "invalid_response")
                   "Invalid Canvas API response"))
    /\ (ok r = false \/ json r = None ->
        forall results, fst run <> Ret results).
Proof.
  intros this endpoint params upstream i r run Hi Hr.
  subst run. unfold getWithPagination in *.
  destruct (URL_serialize _ _) as [url0|]; [|cbn in Hi; lia].
  destruct (loop_aborts this upstream (Some url0) [] i r Hi Hr)
    as [Hbad Hparse].
  split; [exact Hbad|]. split; [exact Hparse|].
  intros [Hok|Hj] results.
  - rewrite (Hbad Hok). discriminate.
  - destruct (ok r) eqn:Hok.
    + rewrite (Hparse eq_refl Hj). discriminate.
    + rewrite (Hbad eq_refl). discriminate.
Qed.

End PaginationTheorems.

(** ** listUpcoming *)

Section Upcoming.
Context `{Runtime}.

Lemma insert_sorted_In {A} (cmp : A -> A -> option Z) (x y : A) l :
  In y (insert_sorted cmp x l) <-> y = x \/ In y l.
Proof.
  induction l as [|z l IH]; simpl; [intuition|].
  destruct (after cmp x z); simpl; rewrite ?IH; intuition.
Qed.

Lemma sort_In {A} (cmp : A -> A -> option Z) (y : A) l :
  In y (sort cmp l) <-> In y l.
Proof.
  induction l as [|x l IH]; simpl; [reflexivity|].
  rewrite insert_sorted_In, IH. intuition.
Qed.


Lemma collect_upcoming_app now limit includeOverdue course assignments acc :
  collect_upcoming now limit includeOverdue course assignments acc
  = acc ++ collect_upcoming now limit includeOverdue course assignments [].
Proof.
  revert acc. induction assignments as [|a assignments IH]; intros acc.
  - cbn [collect_upcoming]. rewrite app_nil_r. reflexivity.
  - cbn [collect_upcoming].
    destruct (due_at a) as [| |due]; try apply IH.
    destruct (negb (truthy_string due)); [apply IH|].
    destruct (_ || _); [|apply IH].
    rewrite IH, (IH ([] ++ _)). cbn [app]. rewrite <- app_assoc.
    reflexivity.
Qed.

(** What the inner loop pushes for one course. *)
Lemma collect_upcoming_In now limit includeOverdue course assignments item :
  In item (collect_upcoming now limit includeOverdue course assignments [])
  <-> exists assignment due,
        In assignment assignments
        /\ due_at assignment = Value due
        /\ truthy_string due = true
        /\ (truthy includeOverdue && isOverdue (Date_parse due) now)
           || isUpcoming (Date_parse due) now limit = true
        /\ item = upcoming_item course assignment due.
Proof.
  induction assignments as [|a assignments IH].
  - cbn [collect_upcoming In]. split; [tauto|].
    intros [? [? [[] _]]].
  - cbn [collect_upcoming].
    assert (Hskip : (forall due, due_at a = Value due ->
                       truthy_string due = true ->
                       (truthy includeOverdue
                        && isOverdue (Date_parse due) now)
                       || isUpcoming (Date_parse due) now limit = false) ->
                    In item (collect_upcoming now limit includeOverdue course
                               assignments [])
                    <-> exists assignment due,
                          In assignment (a :: assignments)
                          /\ due_at assignment = Value due
                          /\ truthy_string due = true
                          /\ (truthy includeOverdue
                              && isOverdue (Date_parse due) now)
                             || isUpcoming (Date_parse due) now limit = true
                          /\ item = upcoming_item course assignment due).
    { intros Hno. rewrite IH. split.
      - intros [x [due [Hin Hrest]]]. exists x, due.
        split; [right; exact Hin | exact Hrest].
      - intros [x [due [[<-|Hin] [Hd [Ht [Hk Hi]]]]]].
        + rewrite (Hno due Hd Ht) in Hk. discriminate.
        + exists x, due. tauto. }
    destruct (due_at a) as [| |due] eqn:Hdue;
      try (apply Hskip; intros; discriminate).
    destruct (truthy_string due) eqn:Htr; cbn [negb];
      [|apply Hskip; intros due' Hd Ht; congruence].
    destruct ((truthy includeOverdue && isOverdue (Date_parse due) now)
              || isUpcoming (Date_parse due) now limit) eqn:Hkeep;
      [|apply Hskip; intros due' Hd Ht; congruence].
    rewrite collect_upcoming_app. cbn [app In]. rewrite IH. split.
    + intros [<-|[x [due' [Hin Hrest]]]].
      * exists a, due. split; [left; reflexivity|]. tauto.
      * exists x, due'. split; [right; exact Hin | exact Hrest].
    + intros [x [due' [[<-|Hin] [Hd [Ht [Hk Hi]]]]]].
      * left. rewrite Hd in Hdue. inversion Hdue; subst. reflexivity.
      * right. exists x, due'. tauto.
Qed.

(** What the outer loop adds to [acc]: the items of every course whose
    assignments could be fetched. *)
Lemma listUpcoming_loop_In this up now limit includeOverdue courses acc all :
  fst (listUpcoming_loop this up now limit includeOverdue courses acc)
  = Ret all ->
  forall item,
    In item all
    <-> In item acc
        \/ exists course assignments,
             In course courses
             /\ fst (listAssignments this (JNum (course_id course))
                       (JBool true) (JStr "all") now now
                       (up_assignments up (pretty (course_id course))))
                = Ret assignments
             /\ In item (collect_upcoming now limit includeOverdue course
                           assignments []).
Proof.
  revert acc. induction courses as [|c courses IH]; intros acc Hrun item.
  - cbn [listUpcoming_loop ret fst] in Hrun. inversion Hrun; subst.
    split; [tauto|]. intros [Hin|[? [? [[] _]]]]. exact Hin.
  - cbn [listUpcoming_loop] in Hrun.
    rewrite fst_bind, fst_try_catch, fst_bind in Hrun.
    destruct (fst (listAssignments this (JNum (course_id c)) (JBool true)
                     (JStr "all") now now
                     (up_assignments up (pretty (course_id c)))))
      as [assignments|e|] eqn:Hfetch; cbn [fst ret] in Hrun;
      [| |discriminate].
    + rewrite (IH _ Hrun item), collect_upcoming_app, in_app_iff. split.
      * intros [[Hin|Hin]|[c' [asg [Hc [Hf Hi]]]]].
        -- left. exact Hin.
        -- right. exists c, assignments. split; [left; reflexivity|].
           split; assumption.
        -- right. exists c', asg. split; [right; exact Hc|].
           split; assumption.
      * intros [Hin|[c' [asg [[<-|Hc] [Hf Hi]]]]].
        -- left. left. exact Hin.
        -- left. right. rewrite Hfetch in Hf. inversion Hf; subst. exact Hi.
        -- right. exists c', asg. split; [exact Hc|]. split; assumption.
    + rewrite (IH _ Hrun item). split.
      * intros [Hin|[c' [asg [Hc [Hf Hi]]]]]; [left; exact Hin|].
        right. exists c', asg. split; [right; exact Hc|]. split; assumption.
      * intros [Hin|[c' [asg [[<-|Hc] [Hf Hi]]]]]; [left; exact Hin| |].
        -- rewrite Hfetch in Hf. discriminate.
        -- right. exists c', asg. split; [exact Hc|]. split; assumption.
Qed.


End Upcoming.

(** ** Further properties: strings *)

Section MoreStrings.

Lemma rev_string_app (a b : string) :
  rev_string (a +:+ b) = rev_string b +:+ rev_string a.
Proof.
  induction a as [|x a IH].
  - cbn [rev_string]. rewrite append_nil_r. reflexivity.
  - rewrite append_cons. cbn [rev_string].
    rewrite IH, append_assoc. reflexivity.
Qed.

Lemma rev_string_involutive (s : string) : rev_string (rev_string s) = s.
Proof.
  induction s as [|c s IH]; simpl; [reflexivity|].
  rewrite rev_string_app, IH. reflexivity.
Qed.

Lemma lacks_take_while c p s :
  Spec.lacks c s = true -> Spec.lacks c (take_while p s) = true.
Proof.
  unfold Spec.lacks. induction s as [|a s IH]; simpl; [reflexivity|].
  intros Hs. apply andb_true_iff in Hs as [Ha Hs].
  destruct (p a); simpl; [rewrite Ha; auto | reflexivity].
Qed.

Lemma lacks_drop_while c p s :
  Spec.lacks c s = true -> Spec.lacks c (drop_while p s) = true.
Proof.
  unfold Spec.lacks. induction s as [|a s IH]; simpl; [reflexivity|].
  intros Hs. destruct (p a); simpl; [|exact Hs].
  apply andb_true_iff in Hs as [_ Hs]. auto.
Qed.

Lemma lacks_drop c n s :
  Spec.lacks c s = true -> Spec.lacks c (drop n s) = true.
Proof.
  unfold Spec.lacks. revert s.
  induction n as [|n IH]; intros [|a s]; simpl; auto.
  intros Hs. apply andb_true_iff in Hs as [_ Hs]. auto.
Qed.

Lemma split_parts_lack c s : forallb (Spec.lacks c) (split c s) = true.
Proof.
  induction s as [|a s IH]; [reflexivity|].
  cbn [split]. destruct (Ascii.eqb a c) eqn:E.
  - cbn [forallb]. rewrite IH. reflexivity.
  - destruct (split c s) as [|x rest]; cbn [forallb] in *.
    + unfold Spec.lacks. simpl. rewrite E. reflexivity.
    + apply andb_true_iff in IH as [Hx Hrest]. rewrite Hrest.
      unfold Spec.lacks in *. simpl. rewrite E, Hx. reflexivity.
Qed.

Lemma drop_while_fixed p c r : p c = false ->
  drop_while p (String c r) = String c r.
Proof. intros E. simpl. rewrite E. reflexivity. Qed.

Lemma drop_while_last p a c :
  p c = false ->
  exists x, drop_while p (a +:+ String c "") = x +:+ String c "".
Proof.
  intros E. induction a as [|d a IH]; simpl.
  - rewrite E. exists "". reflexivity.
  - destruct (p d); [exact IH|]. exists (String d a). reflexivity.
Qed.

Lemma drop_while_idem p s :
  drop_while p (drop_while p s) = drop_while p s.
Proof.
  destruct (drop_while_head p s) as [E|[c [r [E Hc]]]]; rewrite E.
  - reflexivity.
  - apply drop_while_fixed. exact Hc.
Qed.

(** [trim] is idempotent. *)
Lemma trim_trim (s : string) : trim (trim s) = trim s.
Proof.
  unfold trim. set (A := drop_while is_space s).
  assert (H1 : drop_while is_space
                 (rev_string (drop_while is_space (rev_string A)))
               = rev_string (drop_while is_space (rev_string A))).
  { destruct (drop_while_head is_space s) as [E|[c [r [E Hc]]]];
      fold A in E; rewrite E.
    - reflexivity.
    - cbn [rev_string].
      destruct (drop_while_last is_space (rev_string r) c Hc) as [x Hx].
      rewrite Hx, rev_string_app.
      change (rev_string (String c "")) with (String c "").
      rewrite append_cons.
      apply drop_while_fixed. exact Hc. }
  rewrite H1, rev_string_involutive, drop_while_idem. reflexivity.
Qed.

End MoreStrings.

(** ** Further properties: the constructor *)

Section Constructor.

Lemma strip_trailing_slash_added (url : string) :
  strip_trailing_slash (url +:+ "/") = url.
Proof.
  unfold strip_trailing_slash. rewrite rev_string_app.
  change (rev_string "/" +:+ rev_string url)
    with (String "/" (rev_string url)).
  cbv beta iota. change (Ascii.eqb "/" "/") with true. cbv iota.
  apply rev_string_involutive.
Qed.

Lemma strip_trailing_slash_none (url : string) :
  endsWith url "/" = false -> strip_trailing_slash url = url.
Proof.
  unfold endsWith, strip_trailing_slash.
  change (rev_string "/") with "/".
  destruct (rev_string url) as [|c r]; [reflexivity|].
  intros E. destruct (Ascii.eqb c "/") eqn:Ec; [|reflexivity].
  apply Ascii.eqb_eq in Ec. subst c. destruct r; cbv in E; discriminate E.
Qed.

(** X1. The client built by the constructor holds the base URL without
    one trailing slash (a URL without one is kept as it is), and a
    timeout that is a whole number and not negative: for a configured
    timeout that is a finite number above zero its floor (the timeout
    itself when it is whole, and zero when it is below one), and 15000
    when none is configured or the configured one is zero or less. *)
Theorem constructor_normalises :
  forall (url token : string) (t : option Q),
    baseUrl (constructor (mkConfig (url +:+ "/") token t)) = url
    /\ (endsWith url "/" = false ->
        baseUrl (constructor (mkConfig url token t)) = url)
    /\ 0 <= timeoutMs (constructor (mkConfig url token t))
    /\ (forall q, t = Some q -> (0 < q)%Q ->
        timeoutMs (constructor (mkConfig url token t)) = Qfloor q)
    /\ (forall n : Z, t = Some (inject_Z n) -> 0 < n ->
        timeoutMs (constructor (mkConfig url token t)) = n)
    /\ (forall q, t = Some q -> (0 < q)%Q -> (q < 1)%Q ->
        timeoutMs (constructor (mkConfig url token t)) = 0)
    /\ (t = None \/ (exists q, t = Some q /\ (q <= 0)%Q) ->
        timeoutMs (constructor (mkConfig url token t)) = 15000).
Proof.
  intros url token t. unfold constructor. cbn [baseUrl timeoutMs cfg_baseUrl
    cfg_timeoutMs].
  assert (Hpos : forall q : Q, (0 < q)%Q <-> 0 < Qnum q).
  { intros q. unfold Qlt. cbn [Qnum Qden]. lia. }
  split; [apply strip_trailing_slash_added|].
  split; [apply strip_trailing_slash_none|].
  split; [|split; [|split; [|split]]].
  - destruct t as [q|]; [|lia]. destruct (0 <? Qnum q) eqn:E; [|lia].
    apply Z.ltb_lt in E. unfold Qfloor. destruct q as [n d].
    cbn [Qnum] in E. apply Z.div_pos; lia.
  - intros q -> Hq. apply Hpos, Z.ltb_lt in Hq. rewrite Hq. reflexivity.
  - intros n -> Hn. cbn [inject_Z Qnum]. apply Z.ltb_lt in Hn. rewrite Hn.
    apply Qfloor_Z.
  - intros q -> Hq Hlt. apply Hpos in Hq as Hn. apply Z.ltb_lt in Hn as Hb.
    rewrite Hb. unfold Qfloor. destruct q as [n d]. cbn [Qnum] in Hn.
    unfold Qlt in Hlt. cbn [Qnum Qden] in Hlt. apply Z.div_small. lia.
  - intros [->|[q [-> Hq]]]; [reflexivity|].
    destruct (0 <? Qnum q) eqn:E; [|reflexivity]. apply Z.ltb_lt in E.
    unfold Qle in Hq. cbn [Qnum Qden] in Hq. lia.
Qed.

End Constructor.

(** ** Further properties: parseLinkHeader *)

Section LinkShape.

Lemma link_match_here_shape s url rel :
  link_match_here s = Some (url, rel) ->
  truthy_string url = true
  /\ Spec.lacks ">" url = true
  /\ (forall c, Spec.lacks c s = true -> Spec.lacks c url = true).
Proof.
  unfold link_match_here. destruct s as [|a s1]; [discriminate|].
  destruct (Ascii.ascii_dec a "<") as [->|Ha]; [|other_char a Ha].
  set (u := take_while (fun c => negb (Ascii.eqb c ">")) s1).
  assert (Hu : Spec.lacks ">" u = true) by apply take_while_forallb.
  assert (Hc : forall c, Spec.lacks c (String "<" s1) = true ->
                         Spec.lacks c u = true).
  { intros c Hs. apply lacks_take_while.
    unfold Spec.lacks in *. simpl in Hs.
    apply andb_true_iff in Hs as [_ Hs]. exact Hs. }
  destruct u as [|c0 u0]; [discriminate|].
  destruct (drop_while _ s1) as [|g t]; [discriminate|].
  destruct (Ascii.ascii_dec g ">") as [->|Hg]; [|other_char g Hg].
  destruct t as [|semi s2]; [discriminate|].
  destruct (Ascii.ascii_dec semi ";") as [->|Hsemi]; [|other_char semi Hsemi].
  destruct (startsWith _ _); [|discriminate].
  destruct (take_while _ _) as [|c1 r1]; [discriminate|].
  destruct (drop_while _ _); [discriminate|].
  intros Hm. inversion Hm; subst. auto.
Qed.

Lemma link_match_shape s url rel :
  link_match s = Some (url, rel) ->
  truthy_string url = true
  /\ Spec.lacks ">" url = true
  /\ (forall c, Spec.lacks c s = true -> Spec.lacks c url = true).
Proof.
  induction s as [|a s IH].
  - cbn. discriminate.
  - cbn [link_match].
    destruct (link_match_here (String a s)) as [[u r]|] eqn:E.
    + intros Hm. inversion Hm; subst.
      exact (link_match_here_shape _ _ _ E).
    + intros Hm. destruct (IH Hm) as [H1 [H2 H3]].
      split; [exact H1|]. split; [exact H2|].
      intros c Hs. apply H3. unfold Spec.lacks in *. simpl in Hs.
      apply andb_true_iff in Hs as [_ Hs]. exact Hs.
Qed.

Lemma parseLinkHeader_parts_shape (P : string -> Prop) parts acc u :
  (forall part url rel,
      In part parts -> link_match part = Some (url, rel) -> P url) ->
  (forall v, acc = Some v -> P v) ->
  parseLinkHeader_parts parts acc = Some u -> P u.
Proof.
  revert acc. induction parts as [|part parts IH]; intros acc Hparts Hacc.
  - cbn. intros E. apply Hacc. exact E.
  - cbn [parseLinkHeader_parts].
    assert (Hrest : forall part' url rel,
               In part' parts -> link_match part' = Some (url, rel) -> P url)
      by (intros; eapply Hparts; [right|]; eassumption).
    destruct (link_match part) as [[url rel]|] eqn:E.
    + destruct (rel =? "next")%string.
      * apply IH; [exact Hrest|]. intros v Hv. inversion Hv; subst.
        eapply Hparts; [left; reflexivity | exact E].
      * apply IH; assumption.
    + apply IH; assumption.
Qed.

(** X2. A URL that [parseLinkHeader] extracts is never empty and holds
    neither [>] nor a comma; an absent or empty header gives none. *)
Theorem parseLinkHeader_url_shape :
  forall (linkHeader : option string) (u : string),
    parseLinkHeader linkHeader = Some u ->
    truthy_string u = true
    /\ Spec.lacks ">" u = true
    /\ Spec.lacks "," u = true
    /\ exists h, linkHeader = Some h /\ truthy_string h = true.
Proof.
  intros [h|] u; [|discriminate]. unfold parseLinkHeader.
  destruct (truthy_string h) eqn:Hh; [|discriminate]. intros Hp.
  assert (Hshape : truthy_string u = true /\ Spec.lacks ">" u = true
                   /\ Spec.lacks "," u = true).
  { apply (parseLinkHeader_parts_shape
             (fun u => truthy_string u = true /\ Spec.lacks ">" u = true
                       /\ Spec.lacks "," u = true)
             (split "," h) None u); [| discriminate | exact Hp].
    intros part url rel Hin Hm.
    destruct (link_match_shape _ _ _ Hm) as [H1 [H2 H3]].
    split; [exact H1|]. split; [exact H2|]. apply H3.
    pose proof (split_parts_lack "," h) as Hall.
    rewrite forallb_forall in Hall. apply Hall. exact Hin. }
  destruct Hshape as [H1 [H2 H3]]. repeat (split; [assumption|]).
  exists h. split; [reflexivity | exact Hh].
Qed.

End LinkShape.

(** ** Further properties: what getWithPagination returns and throws *)

Section PaginationOutcome.
Context `{Runtime} {T : Type}.

Lemma loop_cons (this : CanvasClient) (f : Fetched (Listing T)) upstream
    (url : string) (results : list T) :
  truthy_string url = true ->
  getWithPagination_loop this (f :: upstream) (Some url) results
  = match f with
    | Rejects err => (Throw (rethrown this err), [url])
    | Resolves r =>
        if ok r then
          match json r with
          | None => (Throw invalid_response, [url])
          | Some NotIterable =>
              (Throw (raised NotSpreadable), [url])
          | Some (Elements data) =>
              let '(res, log) :=
                getWithPagination_loop this upstream
                  (parseLinkHeader (Link r)) (results ++ data) in
              (res, url :: log)
          end
        else (Throw (canvas_api_error r), [url])
    end.
Proof.
  intros Hurl. cbn [getWithPagination_loop]. rewrite Hurl.
  rewrite fetchWithTimeout_eq. destruct f as [err|r]; [reflexivity|].
  cbn [bind]. destruct (ok r); cbn [negb]; [|reflexivity].
  destruct (json r) as [[|data]|]; reflexivity.
Qed.

Lemma loop_returns (this : CanvasClient) :
  forall (upstream : list (Fetched (Listing T))) (nextUrl : option string)
         (results0 results : list T) (log : list string),
    getWithPagination_loop this upstream nextUrl results0
    = (Ret results, log) ->
    exists pages bodies extra,
      upstream = List.map Resolves pages ++ extra
      /\ List.map Aux.page_body pages = List.map Some bodies
      /\ results = results0 ++ concat bodies
      /\ log = match nextUrl with
               | Some url => Aux.chain url pages
               | None => []
               end
      /\ length log = length pages.
Proof.
  induction upstream as [|f upstream IH];
    intros nextUrl results0 results log Hrun.
  - exists [], [], [].
    destruct nextUrl as [url|]; cbn in Hrun;
      [destruct (truthy_string url); [discriminate|]|];
      inversion Hrun; subst; cbn; rewrite ?app_nil_r; auto.
  - destruct nextUrl as [url|];
      [destruct (truthy_string url) eqn:Hurl|].
    + rewrite (loop_cons _ _ _ _ _ Hurl) in Hrun.
      destruct f as [err|r]; [discriminate|].
      destruct (ok r) eqn:Hok; [|discriminate].
      destruct (json r) as [[|data]|] eqn:Hjson; try discriminate.
      destruct (getWithPagination_loop this upstream
                  (parseLinkHeader (Link r)) (results0 ++ data))
        as [res' log'] eqn:E.
      inversion Hrun; subst res' log.
      destruct (IH _ _ _ _ E) as [pages [bodies [extra [Hup [Hb [Hr [Hl Hn]]]]]]].
      exists (r :: pages), (data :: bodies), extra.
      split; [rewrite Hup; reflexivity|].
      split.
      { cbn [List.map]. rewrite Hb. unfold Aux.page_body.
        rewrite Hok, Hjson. reflexivity. }
      split; [rewrite Hr; cbn [concat]; rewrite app_assoc; reflexivity|].
      split; [|cbn [length]; rewrite Hn; reflexivity].
      cbn [Aux.chain]. apply f_equal.
      destruct (parseLinkHeader (Link r)); [exact Hl|].
      rewrite Hl. reflexivity.
    + exists [], [], (f :: upstream). cbn in Hrun. rewrite Hurl in Hrun.
      inversion Hrun; subst; cbn; rewrite ?app_nil_r; auto.
    + exists [], [], (f :: upstream). cbn in Hrun.
      inversion Hrun; subst; cbn; rewrite ?app_nil_r; auto.
Qed.

(** What a failed request turns into. *)
Lemma loop_throws (this : CanvasClient) :
  forall (upstream : list (Fetched (Listing T))) (nextUrl : option string)
         (results0 : list T) (e : JsError) (log : list string),
    getWithPagination_loop this upstream nextUrl results0
    = (Throw e, log) ->
    exists pages bodies f extra,
      upstream = List.map Resolves pages ++ f :: extra
      /\ List.map Aux.page_body pages = List.map Some bodies
      /\ length log = S (length pages)
      /\ ((exists err, f = Rejects err /\ e = rethrown this err)
          \/ (exists r, f = Resolves r /\ ok r = false
                        /\ e = canvas_api_error r)
          \/ (exists r, f = Resolves r /\ ok r = true /\ json r = None
                        /\ e = invalid_response)
          \/ (exists r, f = Resolves r /\ ok r = true
                        /\ json r = Some NotIterable
                        /\ e = raised NotSpreadable)).
Proof.
  induction upstream as [|f upstream IH];
    intros nextUrl results0 e log Hrun.
  - destruct nextUrl as [url|]; cbn in Hrun;
      [destruct (truthy_string url)|]; discriminate.
  - destruct nextUrl as [url|];
      [destruct (truthy_string url) eqn:Hurl|].
    + rewrite (loop_cons _ _ _ _ _ Hurl) in Hrun.
      destruct f as [err|r].
      { inversion Hrun; subst. exists [], [], (Rejects err), upstream.
        split; [reflexivity|]. split; [reflexivity|].
        split; [reflexivity|]. left. eauto. }
      destruct (ok r) eqn:Hok.
      2:{ inversion Hrun; subst. exists [], [], (Resolves r), upstream.
          split; [reflexivity|]. split; [reflexivity|].
          split; [reflexivity|]. right. left. eauto. }
      destruct (json r) as [[|data]|] eqn:Hjson.
      * inversion Hrun; subst. exists [], [], (Resolves r), upstream.
        split; [reflexivity|]. split; [reflexivity|].
        split; [reflexivity|]. right. right. right. eauto.
      * destruct (getWithPagination_loop this upstream
                    (parseLinkHeader (Link r)) (results0 ++ data))
          as [res' log'] eqn:E.
        inversion Hrun; subst res' log.
        destruct (IH _ _ _ _ E)
          as [pages [bodies [f' [extra [Hup [Hb [Hn Hf]]]]]]].
        exists (r :: pages), (data :: bodies), f', extra.
        split; [rewrite Hup; reflexivity|].
        split.
        { cbn [List.map]. rewrite Hb. unfold Aux.page_body.
          rewrite Hok, Hjson. reflexivity. }
        split; [cbn [length]; rewrite Hn; reflexivity | exact Hf].
      * inversion Hrun; subst. exists [], [], (Resolves r), upstream.
        split; [reflexivity|]. split; [reflexivity|].
        split; [reflexivity|]. right. right. left. eauto.
    + cbn in Hrun. rewrite Hurl in Hrun. discriminate.
    + cbn in Hrun. discriminate.
Qed.

(** X3. Whatever the Link headers hold, a call of [getWithPagination]
    that returns has requested the first URL and then the [next] link of
    each page in turn, every page it read was a 2xx response with a
    body that could be spread (an array, or a string, which is spread
    into its characters), and the result is the values of those bodies
    in order. *)
Theorem getWithPagination_returns_bodies :
  forall (this : CanvasClient) (endpoint : string)
         (params : list (string * string))
         (upstream : list (Fetched (Listing T)))
         (results : list T) (log : list string),
    getWithPagination this endpoint params upstream = (Ret results, log) ->
    exists url pages bodies extra,
      URL_serialize (baseUrl this +:+ "/api/v1" +:+ endpoint)
        (params ++ [("per_page", "100")]) = Some url
      /\ upstream = List.map Resolves pages ++ extra
      /\ List.map Aux.page_body pages = List.map Some bodies
      /\ results = concat bodies
      /\ log = Aux.chain url pages
      /\ length log = length pages.
Proof.
  intros this endpoint params upstream results log. unfold getWithPagination.
  destruct (URL_serialize _ _) as [url|]; [|discriminate].
  intros Hrun.
  destruct (loop_returns _ _ _ _ _ _ Hrun)
    as [pages [bodies [extra [Hup [Hb [Hr [Hl Hn]]]]]]].
  exists url, pages, bodies, extra. auto 10.
Qed.

(** X4. A call of [getWithPagination] that throws either could not
    build the first URL (it throws what [new URL] raises, and nothing
    is requested), or throws what its last request turned into, every
    earlier page having been a 2xx response with a body that could be
    spread: the timeout error or the error of a rejected [fetch], a
    [canvas_api_error] for a status outside 200..299, an
    [invalid_response] for a body that is no JSON, and what the spread
    raises for a JSON body that cannot be spread (an object, a number,
    a boolean, [null]). Nothing of the pages read before is returned. *)
Theorem getWithPagination_throws_last :
  forall (this : CanvasClient) (endpoint : string)
         (params : list (string * string))
         (upstream : list (Fetched (Listing T)))
         (e : JsError) (log : list string),
    getWithPagination this endpoint params upstream = (Throw e, log) ->
    (URL_serialize (baseUrl this +:+ "/api/v1" +:+ endpoint)
       (params ++ [("per_page", "100")]) = None
     /\ e = raised InvalidURL /\ log = [])
    \/ exists pages bodies f extra,
      upstream = List.map Resolves pages ++ f :: extra
      /\ List.map Aux.page_body pages = List.map Some bodies
      /\ length log = S (length pages)
      /\ ((exists err, f = Rejects err /\ e = rethrown this err)
          \/ (exists r, f = Resolves r /\ ok r = false
                        /\ e = canvas_api_error r)
          \/ (exists r, f = Resolves r /\ ok r = true /\ json r = None
                        /\ e = invalid_response)
          \/ (exists r, f = Resolves r /\ ok r = true
                        /\ json r = Some NotIterable
                        /\ e = raised NotSpreadable)).
Proof.
  intros this endpoint params upstream e log. unfold getWithPagination.
  destruct (URL_serialize _ _) as [url|].
  - intros Hrun. right. exact (loop_throws _ _ _ _ _ _ Hrun).
  - intros Hrun. left. inversion Hrun; subst. auto.
Qed.

(** The error [fetchWithTimeout] throws for a rejected [fetch]: an
    abort (name AbortError or code ABORT_ERR) becomes an error with code
    [timeout] whose message names the client's timeout; every other
    error is thrown again unchanged. *)
Lemma rethrown_timeout_or_same :
  forall (this : CanvasClient) (err : JsError),
    (err_name err = "AbortError" \/ err_code err = Some "ABORT_ERR" ->
     err_code (rethrown this err) = Some "timeout"
     /\ err_message (rethrown this err)
        = "Canvas request timed out after "
            +:+ pretty (timeoutMs this) +:+ "ms")
    /\ (err_name err <> "AbortError" ->
        err_code err <> Some "ABORT_ERR" ->
        rethrown this err = err).
Proof.
  intros this err. unfold rethrown. split.
  - intros [Hn|Hc].
    + rewrite Hn. cbn. auto.
    + rewrite Hc. rewrite orb_true_r. auto.
  - intros Hn Hc.
    destruct (String.eqb_spec (err_name err) "AbortError") as [E|_];
      [contradiction|].
    destruct (err_code err) as [c|]; [|reflexivity].
    destruct (String.eqb_spec c "ABORT_ERR") as [E|_]; [|reflexivity].
    subst c. contradiction Hc. reflexivity.
Qed.

End PaginationOutcome.

(** ** Further properties: listCourses and listAssignments *)

Section Listings.
Context `{Runtime}.


Lemma bind_ret_throw {A B} (m : M A) (f : A -> B) (e : JsError)
    (log : list string) :
  bind m (fun a => ret (f a)) = (Throw e, log) <-> m = (Throw e, log).
Proof.
  destruct m as [[a|e'|] l]; cbn; split; intros E; inversion E; subst;
    reflexivity.
Qed.


Lemma status_keep_other (statusFilter : JsVal) now a :
  statusFilter <> JStr "missing" ->
  statusFilter <> JStr "unsubmitted" ->
  statusFilter <> JStr "submitted" ->
  status_keep statusFilter now a = true.
Proof.
  intros H1 H2 H3. unfold status_keep, strict_eq_string.
  destruct statusFilter as [| | | |s| |]; try reflexivity.
  destruct (String.eqb_spec s "missing") as [->|_]; [congruence|].
  destruct (String.eqb_spec s "unsubmitted") as [->|_]; [congruence|].
  destruct (String.eqb_spec s "submitted") as [->|_]; [congruence|].
  reflexivity.
Qed.

(** X6. A status filter that is none of [missing], [unsubmitted] and
    [submitted] (another string, a value that is no string, or no value
    at all) filters nothing: [listAssignments] then behaves as with
    [all]. *)
Theorem listAssignments_other_status_is_all :
  forall (this : CanvasClient) (courseId includeFuture statusFilter : JsVal)
         (now_future now : Z)
         (upstream : list (Fetched (Listing RawAssignment))),
    statusFilter <> JStr "missing" ->
    statusFilter <> JStr "unsubmitted" ->
    statusFilter <> JStr "submitted" ->
    listAssignments this courseId includeFuture statusFilter
      now_future now upstream
    = listAssignments this courseId includeFuture (JStr "all")
        now_future now upstream.
Proof.
  intros this courseId includeFuture statusFilter now_future now upstream
    H1 H2 H3.
  unfold listAssignments. apply bind_ext. intros assignments. apply f_equal.
  unfold filter_assignments.
  change (negb (strict_eq_string (default_param (JStr "all") (JStr "all"))
                  "all")) with false.
  cbv iota.
  destruct (negb (strict_eq_string (default_param statusFilter (JStr "all"))
                    "all")); [|reflexivity].
  apply f_equal.
  rewrite (filter_ext_eq _ (fun _ => true)); [apply filter_true|].
  intros a. apply status_keep_other;
    destruct statusFilter; cbn [default_param]; congruence.
Qed.

Lemma status_keep_cover now a :
  status_keep (JStr "unsubmitted") now a
  || status_keep (JStr "submitted") now a = true.
Proof.
  rewrite status_keep_unsubmitted, status_keep_submitted.
  unfold Spec.is_unsubmitted, Spec.is_submitted, Spec.no_submission,
    Spec.has_submitted_at, Spec.workflow_in.
  destruct (asg_submission a) as [s|]; [|reflexivity].
  destruct (sub_submitted_at s); reflexivity.
Qed.

Lemma status_keep_overlap now a :
  status_keep (JStr "unsubmitted") now a
  && status_keep (JStr "submitted") now a
  = negb (hasSubmittedAt (asg_submission a)) && Aux.workflow_submitted a.
Proof.
  rewrite status_keep_unsubmitted, status_keep_submitted.
  unfold Spec.is_unsubmitted, Spec.is_submitted, Spec.no_submission,
    Spec.has_submitted_at, Spec.workflow_in, hasSubmittedAt,
    Aux.workflow_submitted, is_present.
  destruct (asg_submission a) as [s|]; [|reflexivity].
  cbn [existsb]. rewrite orb_false_r.
  destruct (sub_submitted_at s); reflexivity.
Qed.

(** X7. The status filters [unsubmitted] and [submitted] together lose
    no assignment: whatever [all] returns is returned by one of them.
    They are not disjoint: the callbacks of both keep an assignment
    exactly when it has no [submitted_at] but a workflow state
    [submitted] or [graded]. *)
Theorem listAssignments_filters_cover :
  forall (includeFuture : JsVal) (now_future now : Z)
         (assignments : list RawAssignment) (x : Assignment),
    (In x (filter_assignments includeFuture (JStr "all") now_future now
             assignments) ->
     In x (filter_assignments includeFuture (JStr "unsubmitted") now_future
             now assignments)
     \/ In x (filter_assignments includeFuture (JStr "submitted") now_future
                now assignments))
    /\ (forall a,
           status_keep (JStr "unsubmitted") now a
           && status_keep (JStr "submitted") now a = true
           <-> hasSubmittedAt (asg_submission a) = false
               /\ Aux.workflow_submitted a = true).
Proof.
  intros includeFuture now_future now assignments x. split.
  - rewrite (filter_assignments_status includeFuture "unsubmitted" now_future
               now _ assignments eq_refl (fun a => eq_refl)).
    rewrite (filter_assignments_status includeFuture "submitted" now_future
               now _ assignments eq_refl (fun a => eq_refl)).
    unfold filter_assignments at 1.
    change (negb (strict_eq_string (default_param (JStr "all") (JStr "all"))
                    "all")) with false.
    cbv iota. fold (Spec.status_pool includeFuture now_future assignments).
    intros Hin. apply in_map_iff in Hin as [a [<- Hin]].
    destruct (status_keep (JStr "unsubmitted") now a) eqn:Hu.
    + left. apply in_map. apply filter_In. auto.
    + right. apply in_map. apply filter_In. split; [exact Hin|].
      pose proof (status_keep_cover now a) as Hc. rewrite Hu in Hc.
      exact Hc.
  - intros a. rewrite status_keep_overlap, andb_true_iff, negb_true_iff.
    reflexivity.
Qed.

Lemma unlocked_released now a : unlocked now a = Aux.released now a.
Proof.
  unfold unlocked, Aux.released, truthy_nstring, truthy_string, date_le.
  destruct (asg_unlock_at a) as [| |s]; try reflexivity.
  destruct (s =? "")%string; cbn [negb orb]; [reflexivity|].
  reflexivity.
Qed.

(** X8. With [includeFuture] false (or any falsy value but [undefined])
    and no status filter, [listAssignments] keeps an assignment exactly
    when it has no [unlock_at], an empty one, or one that parses to a
    time not after the evaluation time; one whose [unlock_at] cannot be
    parsed is dropped. With [includeFuture] undefined nothing is
    dropped. *)
Theorem filter_assignments_include_future :
  forall (includeFuture : JsVal) (now_future now : Z)
         (assignments : list RawAssignment),
    (includeFuture <> JUndefined -> truthy includeFuture = false ->
     filter_assignments includeFuture (JStr "all") now_future now assignments
     = List.map normalize_assignment
         (List.filter (Aux.released now_future) assignments))
    /\ (forall a s,
           asg_unlock_at a = Value s -> s <> "" -> Date_parse s = None ->
           Aux.released now_future a = false)
    /\ filter_assignments JUndefined (JStr "all") now_future now assignments
       = List.map normalize_assignment assignments.
Proof.
  intros includeFuture now_future now assignments.
  split; [|split].
  - intros Hdef Hfalsy. unfold filter_assignments.
    change (negb (strict_eq_string (default_param (JStr "all") (JStr "all"))
                    "all")) with false.
    cbv iota.
    replace (default_param includeFuture (JBool true)) with includeFuture
      by (destruct includeFuture; [congruence|reflexivity..]).
    rewrite Hfalsy. cbn [negb]. apply f_equal.
    apply filter_ext_eq. apply unlocked_released.
  - intros a s Hs Hne Hp. unfold Aux.released. rewrite Hs, Hp.
    destruct (String.eqb_spec s ""); [contradiction | reflexivity].
  - reflexivity.
Qed.

End Listings.

(** ** Further properties: getCourseGrades *)

Section GradeSummaries.
Context `{Runtime}.

Lemma lookup_zero_In {A} (l : list A) (x : A) : l !! 0%nat = Some x -> In x l.
Proof. destruct l as [|y l]; cbn; [discriminate|]. intros E. left. congruence. Qed.

(** The enrollment [select_enrollment] picks is one of those given, and
    an active one whenever one of them is active. *)
Lemma select_enrollment_member (l : list RawEnrollment) (e : RawEnrollment) :
  select_enrollment l = Some e ->
  In e l
  /\ (enrollment_state e = "active"
      \/ forall e', In e' l -> enrollment_state e' <> "active").
Proof.
  unfold select_enrollment.
  set (act := List.filter (fun e => (enrollment_state e =? "active")%string) l).
  destruct (0 <? length act)%nat eqn:E; intros Hsel;
    apply lookup_zero_In in Hsel; apply sort_In in Hsel.
  - apply filter_In in Hsel as [Hin Hact]. split; [exact Hin|].
    left. apply String.eqb_eq. exact Hact.
  - split; [exact Hsel|]. right. intros e' Hin' Hact'.
    assert (Hin2 : In e' act).
    { apply filter_In. split; [exact Hin'|]. apply String.eqb_eq.
      exact Hact'. }
    destruct act; [contradiction|]. cbn in E. discriminate.
Qed.

(** X9. The summary [getCourseGrades] returns is the
    [hidden_or_unavailable] one, or it is built from an enrollment of
    the response whose [course_id] is the number the course id converts
    to, an active one whenever the response holds an active enrollment
    of that course. For a course id that has a primitive value but
    converts to no number the summary is always
    [hidden_or_unavailable]. For a course id that has no primitive
    value (an object with a property [toString] of its own) the call
    throws what the conversion raises, and sends no request. *)
Theorem getCourseGrades_summary :
  forall (this : CanvasClient) (courseId : JsVal)
         (upstream : Fetched (Listing RawEnrollment)),
    (forall summary,
        fst (getCourseGrades this courseId upstream) = Ret summary ->
        summary = hidden (Number courseId)
        \/ exists r enrollments n e,
            upstream = Resolves r
            /\ ok r = true
            /\ json r = Some (Elements enrollments)
            /\ Number courseId = Some n
            /\ In e enrollments
            /\ enr_course_id e = n
            /\ (enrollment_state e = "active"
                \/ forall e', In e' enrollments -> enr_course_id e' = n ->
                              enrollment_state e' <> "active")
            /\ summary = summarize (Some n) e)
    /\ (convertible courseId = true -> Number courseId = None ->
        fst (getCourseGrades this courseId upstream) = Ret (hidden None))
    /\ (convertible courseId = false ->
        getCourseGrades this courseId upstream
        = (Throw (raised NoPrimitive), [])).
Proof.
  intros this courseId upstream.
  destruct (convertible courseId) eqn:Hc.
  2:{ rewrite (getCourseGrades_no_primitive _ _ _ Hc).
      split; [intros summary Hs; discriminate|].
      split; [discriminate | reflexivity]. }
  enough (Hboth :
    (forall summary,
        fst (getCourseGrades this courseId upstream) = Ret summary ->
        summary = hidden (Number courseId)
        \/ exists r enrollments n e,
            upstream = Resolves r
            /\ ok r = true
            /\ json r = Some (Elements enrollments)
            /\ Number courseId = Some n
            /\ In e enrollments
            /\ enr_course_id e = n
            /\ (enrollment_state e = "active"
                \/ forall e', In e' enrollments -> enr_course_id e' = n ->
                              enrollment_state e' <> "active")
            /\ summary = summarize (Some n) e)
    /\ (Number courseId = None ->
        fst (getCourseGrades this courseId upstream) = Ret (hidden None))).
  { destruct Hboth as [H1 H2]. split; [exact H1|].
    split; [intros _; exact H2 | discriminate]. }
  rewrite (getCourseGrades_eq _ _ _ Hc), (getCourseGrades_try_eq _ _ _ Hc).
  rewrite fst_bind, fetchWithTimeout_eq. cbn [fst].
  destruct upstream as [err|r].
  { split.
    - intros summary Hs. left. congruence.
    - intros ->. reflexivity. }
  destruct (ok r) eqn:Hok; cbn [negb].
  2:{ split.
      - intros summary Hs. left. cbn in Hs. congruence.
      - intros ->. reflexivity. }
  destruct (json r) as [[|enrollments]|] eqn:Hjson.
  { split.
    - intros summary Hs. left. cbn in Hs. congruence.
    - intros ->. reflexivity. }
  2:{ split.
      - intros summary Hs. left. cbn in Hs. congruence.
      - intros ->. reflexivity. }
  set (mine := List.filter _ enrollments).
  assert (Hmine : forall e, In e mine ->
                   In e enrollments
                   /\ exists n, Number courseId = Some n
                                /\ enr_course_id e = n).
  { intros e Hin. apply filter_In in Hin as [Hin Hn]. split; [exact Hin|].
    destruct (Number courseId) as [n|]; [|discriminate].
    exists n. split; [reflexivity|]. apply Z.eqb_eq. exact Hn. }
  assert (Hall : forall e n, In e enrollments -> Number courseId = Some n ->
                   enr_course_id e = n -> In e mine).
  { intros e n Hin Hn He. apply filter_In. split; [exact Hin|].
    rewrite Hn. apply Z.eqb_eq. exact He. }
  split.
  - intros summary Hs.
    destruct (length mine =? 0)%nat; [left; cbn in Hs; congruence|].
    destruct (select_enrollment mine) as [e|] eqn:Hsel;
      [|cbn in Hs; left; congruence].
    cbn in Hs. inversion Hs; subst summary. right.
    destruct (select_enrollment_member _ _ Hsel) as [Hin Hact].
    destruct (Hmine e Hin) as [Hin' [n [Hn He]]].
    exists r, enrollments, n, e. rewrite Hn.
    split; [reflexivity|]. split; [exact Hok|]. split; [exact Hjson|].
    split; [reflexivity|]. split; [exact Hin'|]. split; [exact He|].
    split; [|reflexivity].
    destruct Hact as [Hact|Hnone]; [left; exact Hact|].
    right. intros e' Hin2 He2. apply Hnone. eapply Hall; eassumption.
  - intros Hn.
    assert (Hempty : mine = []).
    { destruct mine as [|e rest] eqn:Em; [reflexivity|]. exfalso.
      destruct (Hmine e (or_introl eq_refl)) as [_ [n [Hn' _]]].
      congruence. }
    rewrite Hempty, Hn. reflexivity.
Qed.

Lemma strict_ne_null_false {A} (x : nullable A) :
  strict_ne_null x = false <-> x = Null.
Proof. destruct x; cbn; split; congruence. Qed.

Lemma hasGradeData_all_null (e : RawEnrollment) :
  hasGradeData e = false <-> Aux.all_null e.
Proof.
  unfold hasGradeData, Aux.all_null.
  rewrite !orb_false_iff, !strict_ne_null_false.
  destruct (grades e) as [g|].
  - rewrite !orb_false_iff, !strict_ne_null_false. tauto.
  - tauto.
Qed.

(** X10. The summary built from an enrollment has the reason
    [no_grades_yet] exactly when the grades object, if there is one,
    holds [null] in its four fields and the two computed current fields
    are [null]; in every other case, an absent field included, it is an
    available summary. Both carry the metadata of that enrollment. *)
Theorem summarize_no_grades_yet :
  forall (n : option Z) (e : RawEnrollment),
    (Aux.all_null e <->
     summarize n e = Unavailable n no_grades_yet (Some (metadata_of e)))
    /\ (~ Aux.all_null e <->
        exists cs cg fs fg,
          summarize n e = Available n cs cg fs fg (metadata_of e)).
Proof.
  intros n e. unfold summarize.
  destruct (hasGradeData e) eqn:Hd; cbn [negb].
  - assert (Hnot : ~ Aux.all_null e).
    { intros Hall. apply hasGradeData_all_null in Hall. congruence. }
    split; split.
    + intros Hall. contradiction.
    + discriminate.
    + intros _. eauto.
    + intros _. exact Hnot.
  - apply hasGradeData_all_null in Hd. split; split.
    + reflexivity.
    + intros _. exact Hd.
    + intros Hnot. contradiction.
    + intros [cs [cg [fs [fg Habs]]]]. discriminate.
Qed.

End GradeSummaries.

(** ** Further properties: the order of listUpcoming *)

Section SortedOutput.
Context {A : Type} (cmp : A -> A -> option Z) (key : A -> option Z).
Hypothesis cmp_key : forall a b, cmp a b = num_sub (key a) (key b).

Lemma ascending_all_valid (l : list A) :
  Aux.ascending key l -> forall a, In a l -> exists t, key a = Some t.
Proof.
  induction l as [|x l IH]; intros Hasc a Hin; [contradiction|].
  destruct Hasc as [[tx [Hx _]] Hrest].
  destruct Hin as [<-|Hin]; [eauto | exact (IH Hrest a Hin)].
Qed.

Lemma insert_sorted_ascending (x : A) (tx : Z) (l : list A) :
  key x = Some tx -> Aux.ascending key l ->
  Aux.ascending key (insert_sorted cmp x l).
Proof.
  intros Hx. induction l as [|y l IH]; intros Hasc.
  - cbn. split; [|exact I]. exists tx. split; [exact Hx | constructor].
  - destruct Hasc as [[ty [Hy Hall]] Hrest].
    cbn [insert_sorted]. unfold after. rewrite cmp_key, Hx, Hy.
    cbn [num_sub]. destruct (0 <? tx - ty) eqn:E.
    + apply Z.ltb_lt in E. split; [|exact (IH Hrest)].
      exists ty. split; [exact Hy|].
      apply List.Forall_forall. intros b Hb.
      apply insert_sorted_In in Hb as [->|Hb].
      * exists tx. split; [exact Hx | lia].
      * rewrite List.Forall_forall in Hall. exact (Hall b Hb).
    + apply Z.ltb_ge in E. split.
      * exists tx. split; [exact Hx|]. constructor.
        -- exists ty. split; [exact Hy | lia].
        -- eapply List.Forall_impl; [|exact Hall].
           intros b [tb [Hb Hle]]. exists tb. split; [exact Hb | lia].
      * split; [|exact Hrest]. exists ty. auto.
Qed.

Lemma sort_ascending (l : list A) :
  (forall a, In a l -> exists t, key a = Some t) ->
  Aux.ascending key (sort cmp l).
Proof.
  induction l as [|x l IH]; intros Hvalid; [exact I|].
  cbn [sort]. destruct (Hvalid x (or_introl eq_refl)) as [tx Hx].
  apply (insert_sorted_ascending x tx); [exact Hx|].
  apply IH. intros a Ha. apply Hvalid. right. exact Ha.
Qed.

Lemma insert_sorted_Permutation (x : A) (l : list A) :
  Permutation (insert_sorted cmp x l) (x :: l).
Proof.
  induction l as [|y l IH]; cbn [insert_sorted]; [reflexivity|].
  destruct (after cmp x y); [|reflexivity].
  rewrite IH. apply perm_swap.
Qed.

Lemma sort_Permutation (l : list A) : Permutation (sort cmp l) l.
Proof.
  induction l as [|x l IH]; cbn [sort]; [reflexivity|].
  rewrite insert_sorted_Permutation, IH. reflexivity.
Qed.

End SortedOutput.

Section UpcomingOrder.
Context `{Runtime}.

Lemma window_valid (includeOverdue : JsVal) (d : option Z) now limit :
  (truthy includeOverdue && isOverdue d now) || isUpcoming d now limit = true ->
  exists t, d = Some t.
Proof.
  destruct d as [t|]; [eauto|].
  unfold isOverdue, isUpcoming, date_lt, date_ge, date_le.
  rewrite andb_false_r. cbn. discriminate.
Qed.

Lemma listUpcoming_loop_valid this up now limit includeOverdue courses all :
  fst (listUpcoming_loop this up now limit includeOverdue courses []) = Ret all ->
  forall item, In item all -> exists t, Date_parse (item_due_at item) = Some t.
Proof.
  intros Hrun item Hin.
  apply (listUpcoming_loop_In _ _ _ _ _ _ _ _ Hrun) in Hin
    as [[]|[course [assignments [_ [_ Hi]]]]].
  apply collect_upcoming_In in Hi as [assignment [due [_ [_ [_ [Hk ->]]]]]].
  cbn [upcoming_item item_due_at]. exact (window_valid _ _ _ _ Hk).
Qed.

(** X11. The items [listUpcoming] returns are in ascending order of
    their due dates, each of which parses: every item is due no later
    than every item after it. Whatever the parameters, the final sort
    neither drops nor duplicates an item the loops collected. *)
Theorem listUpcoming_ascending :
  forall (this : CanvasClient) (up : Upstream)
         (days includeOverdue courseIds : JsVal) (now : Z)
         (items : list UpcomingItem),
    fst (listUpcoming this up days includeOverdue courseIds now) = Ret items ->
    Aux.ascending (fun item => Date_parse (item_due_at item)) items
    /\ exists courses targets collected,
        fst (listCourses this (up_courses up)) = Ret courses
        /\ fst (targetCourses courseIds courses) = Ret targets
        /\ fst (listUpcoming_loop this up now
                  (futureLimit now (default_param days (JNum 14)))
                  (default_param includeOverdue (JBool true)) targets [])
           = Ret collected
        /\ Permutation items collected.
Proof.
  intros this up days includeOverdue courseIds now items Hrun.
  unfold listUpcoming in Hrun. rewrite fst_bind in Hrun.
  destruct (fst (listCourses this (up_courses up)))
    as [courses| |] eqn:Hcourses; try discriminate.
  rewrite fst_bind in Hrun.
  destruct (fst (targetCourses courseIds courses))
    as [targets| |] eqn:Htargets; try discriminate.
  rewrite fst_bind in Hrun.
  destruct (fst (to_primitive (default_param days (JNum 14))));
    try discriminate.
  rewrite fst_bind in Hrun.
  destruct (fst (listUpcoming_loop this up now _ _ targets []))
    as [all| |] eqn:Hloop; try discriminate.
  cbn [ret fst] in Hrun. inversion Hrun; subst items. clear Hrun.
  split.
  - apply sort_ascending; [reflexivity|].
    exact (listUpcoming_loop_valid _ _ _ _ _ _ _ Hloop).
  - exists courses, targets, all.
    split; [reflexivity|]. split; [exact Htargets|]. split; [exact Hloop|].
    apply sort_Permutation.
Qed.

Lemma listUpcoming_loop_no_throw this up now limit includeOverdue courses acc e :
  fst (listUpcoming_loop this up now limit includeOverdue courses acc)
  <> Throw e.
Proof.
  revert acc. induction courses as [|c courses IH]; intros acc.
  - cbn. discriminate.
  - cbn [listUpcoming_loop]. rewrite fst_bind, fst_try_catch, fst_bind.
    destruct (fst (listAssignments _ _ _ _ _ _ _)); cbn [fst ret];
      [apply IH | apply IH | discriminate].
Qed.

(** [targetCourses] throws only what the call of [includes] raises on
    a truthy [courseIds] that has no such method. *)
Lemma targetCourses_throws (courseIds : JsVal) (courses : list Course)
    (e : JsError) :
  fst (targetCourses courseIds courses) = Throw e ->
  e = raised (NotCallable "courseIds.includes")
  /\ truthy courseIds = true
  /\ (forall ids, courseIds <> JArr ids)
  /\ (forall s, courseIds <> JStr s).
Proof.
  unfold targetCourses.
  destruct (truthy courseIds) eqn:Ht; cbn [negb]; [|discriminate].
  destruct courseIds; try discriminate;
    (destruct courses; cbn; [discriminate|]);
    intros E; inversion E; subst;
    (split; [reflexivity|]); (split; [reflexivity|]);
    split; intros; discriminate.
Qed.

Lemma to_primitive_throws (v : JsVal) (e : JsError) :
  fst (to_primitive v) = Throw e ->
  e = raised NoPrimitive /\ convertible v = false.
Proof.
  unfold to_primitive. destruct (convertible v); [discriminate|].
  cbn. intros E. inversion E. auto.
Qed.

(** An error of [listUpcoming] comes from [listCourses], from the
    selection of the courses, or from the product [days * 24]. *)
Lemma listUpcoming_throw_source this up days includeOverdue courseIds now e :
  fst (listUpcoming this up days includeOverdue courseIds now) = Throw e ->
  fst (listCourses this (up_courses up)) = Throw e
  \/ exists courses,
      fst (listCourses this (up_courses up)) = Ret courses
      /\ (fst (targetCourses courseIds courses) = Throw e
          \/ exists targets,
              fst (targetCourses courseIds courses) = Ret targets
              /\ fst (to_primitive (default_param days (JNum 14)))
                 = Throw e).
Proof.
  intros Hrun. unfold listUpcoming in Hrun. rewrite fst_bind in Hrun.
  destruct (fst (listCourses this (up_courses up)))
    as [courses|e'|] eqn:Hcourses; [|left; congruence|discriminate].
  right. exists courses. split; [reflexivity|].
  rewrite fst_bind in Hrun.
  destruct (fst (targetCourses courseIds courses))
    as [targets|e'|] eqn:Htargets; [|left; congruence|discriminate].
  right. exists targets. split; [reflexivity|].
  rewrite fst_bind in Hrun.
  destruct (fst (to_primitive (default_param days (JNum 14))))
    as [[]|e'|] eqn:Hdays; [|congruence|discriminate].
  exfalso. rewrite fst_bind in Hrun.
  destruct (fst (listUpcoming_loop this up now _ _ targets []))
    as [all|e'|] eqn:Hloop; try discriminate.
  exact (listUpcoming_loop_no_throw _ _ _ _ _ _ _ _ Hloop).
Qed.

(** X12. [listUpcoming] lets no error of a course's assignments
    escape: when it throws, the error is the one [listCourses] has
    thrown, or what the call of [includes] raises on a truthy
    [courseIds] that is neither an array nor a string, or, the courses
    being listed and selected, what the product [days * 24] raises on a
    [days] that has no primitive value. *)
Theorem listUpcoming_throws_only_early :
  forall (this : CanvasClient) (up : Upstream)
         (days includeOverdue courseIds : JsVal) (now : Z) (e : JsError),
    fst (listUpcoming this up days includeOverdue courseIds now) = Throw e ->
    fst (listCourses this (up_courses up)) = Throw e
    \/ (e = raised (NotCallable "courseIds.includes")
        /\ truthy courseIds = true
        /\ (forall ids, courseIds <> JArr ids)
        /\ (forall s, courseIds <> JStr s))
    \/ (e = raised NoPrimitive
        /\ convertible (default_param days (JNum 14)) = false
        /\ exists courses targets,
            fst (listCourses this (up_courses up)) = Ret courses
            /\ fst (targetCourses courseIds courses) = Ret targets).
Proof.
  intros this up days includeOverdue courseIds now e Hrun.
  destruct (listUpcoming_throw_source _ _ _ _ _ _ _ Hrun)
    as [Hcourses|[courses [Hc [Htargets|[targets [Ht Hdays]]]]]].
  - left. exact Hcourses.
  - right. left. exact (targetCourses_throws _ _ _ Htargets).
  - right. right. destruct (to_primitive_throws _ _ Hdays) as [-> Hconv].
    split; [reflexivity|]. split; [exact Hconv|]. eauto.
Qed.

End UpcomingOrder.

(** ** Further properties: the courses listUpcoming looks at *)

Section TargetCourses.
Context `{Runtime}.

Lemma existsb_same_value_zero (x : JsVal) (ids : list JsVal) :
  (exists n, x = JNum n) \/ (exists s, x = JStr s) ->
  existsb (same_value_zero x) ids = true <-> In x ids.
Proof.
  intros Hx. rewrite existsb_exists. split.
  - intros [y [Hin Hy]].
    destruct Hx as [[n ->]|[s ->]]; destruct y; try discriminate Hy;
      cbn in Hy.
    + apply Z.eqb_eq in Hy. subst. exact Hin.
    + apply String.eqb_eq in Hy. subst. exact Hin.
  - intros Hin. exists x. split; [exact Hin|].
    destruct Hx as [[n ->]|[s ->]]; cbn.
    + apply Z.eqb_refl.
    + apply String.eqb_refl.
Qed.

(** The selection of the courses sends no request. *)
Lemma targetCourses_log (courseIds : JsVal) (courses : list Course) :
  snd (targetCourses courseIds courses) = [].
Proof.
  unfold targetCourses. destruct (negb (truthy courseIds)); [reflexivity|].
  destruct courseIds; try reflexivity; destruct courses; reflexivity.
Qed.

(** A run of the outer loop that returns has sent the requests of each
    of its courses, in order. *)
Lemma listUpcoming_loop_log this up now limit includeOverdue courses acc all :
  fst (listUpcoming_loop this up now limit includeOverdue courses acc)
  = Ret all ->
  snd (listUpcoming_loop this up now limit includeOverdue courses acc)
  = flat_map (Aux.assignment_requests this up now) courses.
Proof.
  revert acc. induction courses as [|c courses IH]; intros acc Hrun;
    [reflexivity|].
  cbn [listUpcoming_loop flat_map] in *. unfold Aux.assignment_requests at 1.
  destruct (listAssignments this (JNum (course_id c)) (JBool true)
              (JStr "all") now now (up_assignments up (pretty (course_id c))))
    as [[assignments|e|] l]; cbn [bind ret try_catch fst snd] in *.
  - specialize (IH (collect_upcoming now limit includeOverdue c assignments
                      acc)).
    destruct (listUpcoming_loop this up now limit includeOverdue courses _)
      as [r l']. cbn [fst snd] in *. rewrite (IH Hrun), app_nil_r.
    reflexivity.
  - specialize (IH acc).
    destruct (listUpcoming_loop this up now limit includeOverdue courses _)
      as [r l']. cbn [fst snd] in *. rewrite (IH Hrun), app_nil_r.
    reflexivity.
  - discriminate Hrun.
Qed.

(** X13. A call of [listUpcoming] that returns has listed the courses
    and then sent the requests for the assignments of the courses it
    selected, one course after the other. With a falsy [courseIds]
    (absent, [null], an empty string) these are all the listed courses;
    with an array they are the listed courses whose id is an element of
    the array as a number or as its decimal string, in the listed order
    and as often as they are listed, so an empty array selects no
    course at all. *)
Theorem targetCourses_selection :
  forall (this : CanvasClient) (up : Upstream)
         (days includeOverdue courseIds : JsVal) (now : Z)
         (items : list UpcomingItem) (log : list string),
    listUpcoming this up days includeOverdue courseIds now
    = (Ret items, log) ->
    exists courses log0 targets,
      listCourses this (up_courses up) = (Ret courses, log0)
      /\ targetCourses courseIds courses = ret targets
      /\ log = log0 ++ flat_map (Aux.assignment_requests this up now) targets
      /\ (truthy courseIds = false -> targets = courses)
      /\ (forall ids,
             courseIds = JArr ids ->
             exists keep : Course -> bool,
               (forall c,
                   keep c = true
                   <-> In (JNum (course_id c)) ids
                       \/ In (JStr (pretty (course_id c))) ids)
               /\ targets = List.filter keep courses
               /\ (ids = [] -> targets = [])).
Proof.
  intros this up days includeOverdue courseIds now items log Hrun.
  unfold listUpcoming in Hrun.
  destruct (listCourses this (up_courses up)) as [[courses|e|] log0];
    try discriminate Hrun.
  rewrite bind_ret_log in Hrun.
  pose proof (targetCourses_log courseIds courses) as Hlt.
  destruct (targetCourses courseIds courses) as [[targets|e|] lt] eqn:Ht;
    try discriminate Hrun.
  cbn [snd] in Hlt. subst lt.
  rewrite bind_ret_log in Hrun.
  unfold to_primitive in Hrun.
  destruct (convertible (default_param days (JNum 14)));
    [|discriminate Hrun].
  rewrite bind_ret_l in Hrun.
  destruct (listUpcoming_loop this up now
              (futureLimit now (default_param days (JNum 14)))
              (default_param includeOverdue (JBool true)) targets [])
    as [[all|e|] ll] eqn:Hloop; try discriminate Hrun.
  pose proof (listUpcoming_loop_log this up now
                (futureLimit now (default_param days (JNum 14)))
                (default_param includeOverdue (JBool true)) targets [] all)
    as Hll.
  rewrite Hloop in Hll. cbn [fst snd] in Hll. specialize (Hll eq_refl).
  cbn [bind ret fst snd app] in Hrun. inversion Hrun; subst items log.
  exists courses, log0, targets.
  split; [reflexivity|]. split; [exact Ht|].
  split; [rewrite app_nil_r, Hll; reflexivity|].
  unfold targetCourses in Ht. split.
  - intros Hf. rewrite Hf in Ht. cbn in Ht. inversion Ht. reflexivity.
  - intros ids ->. cbn [truthy negb] in Ht. inversion Ht as [Ht'].
    eexists. split; [|split; [reflexivity|]].
    + intros c. cbv beta. rewrite orb_true_iff.
      rewrite !existsb_same_value_zero by eauto. reflexivity.
    + intros ->. cbn [existsb orb]. clear.
      induction courses as [|c courses IH]; [reflexivity | exact IH].
Qed.

End TargetCourses.

(** ** Further properties: the tool catalog and the dispatcher *)

Section Catalog.
Context `{Runtime}.
Import Tools Protocol.

Lemma bind_nil_log {A B} (m : M A) (k : A -> M B) (r : Result B) :
  bind m k = (r, []) -> snd m = [].
Proof.
  destruct m as [[a|e|] l]; cbn.
  - destruct (k a) as [r' l']. intros E.
    destruct l; [reflexivity | discriminate E].
  - intros E. inversion E. reflexivity.
  - intros E. inversion E. reflexivity.
Qed.

(** What the platform raises is no error of the dispatcher's. *)
Lemma raised_not_coded (f : Fault) (c msg : string) :
  raised f <> makeError c msg.
Proof.
  intros E. apply (raised_name f). rewrite E. reflexivity.
Qed.

Lemma getWithPagination_silent_throw {T} (this : CanvasClient) endpoint params
    (upstream : list (Fetched (Listing T))) (e : JsError) :
  getWithPagination this endpoint params upstream = (Throw e, []) ->
  e = raised InvalidURL.
Proof.
  unfold getWithPagination.
  destruct (URL_serialize _ _) as [url|]; intros Hrun.
  - destruct (loop_throws _ _ _ _ _ _ Hrun)
      as [pages [bodies [f [extra [_ [_ [Hlen _]]]]]]].
    discriminate Hlen.
  - inversion Hrun. reflexivity.
Qed.

(** A call that reaches the client is not refused for its arguments
    without a request. *)
Lemma listCourses_not_refused this upstream c msg :
  listCourses this upstream <> (Throw (makeError c msg), []).
Proof.
  unfold listCourses. intros Hrun. apply bind_ret_throw in Hrun.
  apply getWithPagination_silent_throw in Hrun.
  symmetry in Hrun. exact (raised_not_coded _ _ _ Hrun).
Qed.

Lemma listAssignments_not_refused this courseId i s n1 n2 upstream c msg :
  listAssignments this courseId i s n1 n2 upstream
  <> (Throw (makeError c msg), []).
Proof.
  unfold listAssignments. intros Hrun. apply bind_ret_throw in Hrun.
  unfold to_primitive in Hrun. destruct (convertible courseId).
  - rewrite bind_ret_l in Hrun.
    apply getWithPagination_silent_throw in Hrun.
    symmetry in Hrun. exact (raised_not_coded _ _ _ Hrun).
  - inversion Hrun as [E]. exact (raised_not_coded _ _ _ E).
Qed.

Lemma getSubmissionStatus_not_refused this courseId assignmentId upstream
    c msg :
  getSubmissionStatus this courseId assignmentId upstream
  <> (Throw (makeError c msg), []).
Proof.
  unfold getSubmissionStatus, to_primitive. intros Hrun.
  destruct (convertible courseId);
    [|inversion Hrun as [E]; exact (raised_not_coded _ _ _ E)].
  rewrite bind_ret_l in Hrun.
  destruct (convertible assignmentId);
    [|inversion Hrun as [E]; exact (raised_not_coded _ _ _ E)].
  rewrite bind_ret_l in Hrun. apply bind_nil_log in Hrun.
  rewrite fetchWithTimeout_eq in Hrun. discriminate Hrun.
Qed.

Lemma getCourseGrades_not_refused this courseId upstream c msg :
  getCourseGrades this courseId upstream <> (Throw (makeError c msg), []).
Proof.
  intros Hrun. destruct (convertible courseId) eqn:Hc.
  - pose proof (getCourseGrades_log this courseId upstream Hc) as Hlog.
    rewrite Hrun in Hlog. discriminate Hlog.
  - rewrite (getCourseGrades_no_primitive _ _ _ Hc) in Hrun.
    inversion Hrun as [E]. exact (raised_not_coded _ _ _ E).
Qed.

Lemma listUpcoming_not_refused this up days io ids now c msg :
  listUpcoming this up days io ids now <> (Throw (makeError c msg), []).
Proof.
  intros Hrun.
  assert (Hfst : fst (listUpcoming this up days io ids now)
                 = Throw (makeError c msg)) by (rewrite Hrun; reflexivity).
  apply listUpcoming_throw_source in Hfst
    as [Hc|[courses [_ [Ht|[targets [_ Hd]]]]]].
  - unfold listUpcoming in Hrun. apply bind_nil_log in Hrun.
    apply (listCourses_not_refused this (up_courses up) c msg).
    rewrite (surjective_pairing (listCourses this (up_courses up))).
    rewrite Hc, Hrun. reflexivity.
  - apply targetCourses_throws in Ht as [He _].
    symmetry in He. exact (raised_not_coded _ _ _ He).
  - apply to_primitive_throws in Hd as [He _].
    symmetry in He. exact (raised_not_coded _ _ _ He).
Qed.

Lemma handleToolCall_unknown toolName args canvasClient up clock :
  ~ In toolName (List.map tool_name TOOLS) ->
  handleToolCall toolName args canvasClient up clock
  = (Throw (makeError "invalid_tool" ("Unknown tool: " +:+ toolName)), []).
Proof.
  intros Hnot. unfold handleToolCall.
  repeat match goal with
         | |- context [String.eqb toolName ?s] =>
             destruct (String.eqb_spec toolName s) as [->|_];
             [exfalso; apply Hnot; cbn; tauto|]
         end.
  reflexivity.
Qed.

(** X14. The dispatcher and the catalog agree. A tool name that is not
    in [TOOLS] is refused with [invalid_tool] and no request is sent. A
    call of a tool of [TOOLS] is refused for its arguments, before any
    request, exactly when one of the properties its schema requires is
    absent or falsy. *)
Theorem handleToolCall_catalog :
  forall (args : gmap string JsVal) (canvasClient : CanvasClient)
         (up : Upstream) (clock : Clock),
    (forall toolName,
        ~ In toolName (List.map tool_name TOOLS) ->
        handleToolCall toolName args canvasClient up clock
        = (Throw (makeError "invalid_tool" ("Unknown tool: " +:+ toolName)),
           []))
    /\ (forall tool,
           In tool TOOLS ->
           (exists msg,
               handleToolCall (tool_name tool) args canvasClient up clock
               = (Throw (makeError "invalid_arguments" msg), []))
           <-> exists k, In k (tool_required tool)
                         /\ truthy (prop args k) = false).
Proof.
  intros args canvasClient up clock. split.
  - intros toolName. apply handleToolCall_unknown.
  - intros tool Hin. cbn in Hin.
    destruct Hin as [<-|[<-|[<-|[<-|[<-|[]]]]]];
      unfold handleToolCall;
      cbn [tool_name tool_required String.eqb Ascii.eqb Bool.eqb].
    + split.
      * intros [msg Hrun]. exfalso. apply bind_ret_throw in Hrun.
        exact (listCourses_not_refused _ _ _ _ Hrun).
      * intros [k [[] _]].
    + destruct (truthy (prop args "course_id")) eqn:Hc; cbn [negb]; split.
      * intros [msg Hrun]. exfalso. apply bind_ret_throw in Hrun.
        exact (listAssignments_not_refused _ _ _ _ _ _ _ _ _ Hrun).
      * intros [k [[<-|[]] Hk]]. congruence.
      * intros _. exists "course_id". split; [left; reflexivity | exact Hc].
      * intros _. eexists. reflexivity.
    + destruct (truthy (prop args "course_id")) eqn:Hc;
        [destruct (truthy (prop args "assignment_id")) eqn:Ha|];
        cbn [negb]; split.
      * intros [msg Hrun]. exfalso. apply bind_ret_throw in Hrun.
        exact (getSubmissionStatus_not_refused _ _ _ _ _ _ Hrun).
      * intros [k [[<-|[<-|[]]] Hk]]; congruence.
      * intros _. exists "assignment_id".
        split; [right; left; reflexivity | exact Ha].
      * intros _. eexists. reflexivity.
      * intros _. exists "course_id". split; [left; reflexivity | exact Hc].
      * intros _. eexists. reflexivity.
    + destruct (truthy (prop args "course_id")) eqn:Hc; cbn [negb]; split.
      * intros [msg Hrun]. exfalso. apply bind_ret_throw in Hrun.
        exact (getCourseGrades_not_refused _ _ _ _ _ Hrun).
      * intros [k [[<-|[]] Hk]]. congruence.
      * intros _. exists "course_id". split; [left; reflexivity | exact Hc].
      * intros _. eexists. reflexivity.
    + split.
      * intros [msg Hrun]. exfalso. apply bind_ret_throw in Hrun.
        exact (listUpcoming_not_refused _ _ _ _ _ _ _ _ Hrun).
      * intros [k [[] _]].
Qed.

Lemma filter_assignments_truthy (i i' s : JsVal) n1 n2 l :
  i <> JUndefined -> i' <> JUndefined -> truthy i = truthy i' ->
  filter_assignments i s n1 n2 l = filter_assignments i' s n1 n2 l.
Proof.
  intros Hi Hi' Ht. unfold filter_assignments.
  replace (default_param i (JBool true)) with i
    by (destruct i; [congruence|reflexivity..]).
  replace (default_param i' (JBool true)) with i'
    by (destruct i'; [congruence|reflexivity..]).
  rewrite Ht. reflexivity.
Qed.

Lemma prop_insert_ne (args : gmap string JsVal) (k k' : string) (v : JsVal) :
  k <> k' -> prop (<[k := v]> args) k' = prop args k'.
Proof. intros Hne. unfold prop. rewrite lookup_insert_ne by exact Hne. reflexivity. Qed.

Lemma prop_delete_ne (args : gmap string JsVal) (k k' : string) :
  k <> k' -> prop (delete k args) k' = prop args k'.
Proof. intros Hne. unfold prop. rewrite lookup_delete_ne by exact Hne. reflexivity. Qed.

(** X15. In a [list_assignments] call an [include_future] that is
    present but falsy ([null], 0, an empty string) acts as [false], not
    as the default [true]; a [status_filter] that is falsy acts as if it
    were left out. *)
Theorem handleToolCall_falsy_options :
  forall (args : gmap string JsVal) (canvasClient : CanvasClient)
         (up : Upstream) (clock : Clock) (v : JsVal),
    truthy v = false ->
    (args !! "include_future" = Some v -> v <> JUndefined ->
     handleToolCall "list_assignments" args canvasClient up clock
     = handleToolCall "list_assignments"
         (<["include_future" := JBool false]> args) canvasClient up clock)
    /\ (args !! "status_filter" = Some v ->
        handleToolCall "list_assignments" args canvasClient up clock
        = handleToolCall "list_assignments" (delete "status_filter" args)
            canvasClient up clock).
Proof.
  intros args canvasClient up clock v Hv. split.
  - intros Hi Hdef. unfold handleToolCall.
    cbn [String.eqb Ascii.eqb Bool.eqb].
    rewrite !(prop_insert_ne args "include_future" "course_id"),
      !(prop_insert_ne args "include_future" "status_filter")
      by discriminate.
    assert (Hp : prop args "include_future" = v)
      by (unfold prop; rewrite Hi; reflexivity).
    assert (Hp' : prop (<["include_future" := JBool false]> args)
                    "include_future" = JBool false)
      by (unfold prop; rewrite lookup_insert; reflexivity).
    rewrite Hp, Hp'.
    destruct (negb (truthy (prop args "course_id"))); [reflexivity|].
    unfold listAssignments. apply f_equal2; [|reflexivity].
    apply bind_ext. intros assignments. apply f_equal.
    replace (is_defined v) with true
      by (destruct v; [congruence|reflexivity..]).
    cbn [is_defined]. apply filter_assignments_truthy;
      [exact Hdef | discriminate | exact Hv].
  - intros Hs. unfold handleToolCall.
    cbn [String.eqb Ascii.eqb Bool.eqb].
    rewrite !(prop_delete_ne args "status_filter" "course_id"),
      !(prop_delete_ne args "status_filter" "include_future")
      by discriminate.
    assert (Hp : prop args "status_filter" = v)
      by (unfold prop; rewrite Hs; reflexivity).
    assert (Hp' : prop (delete "status_filter" args) "status_filter"
                  = JUndefined)
      by (unfold prop; rewrite lookup_delete; reflexivity).
    rewrite Hp, Hp', Hv. reflexivity.
Qed.

End Catalog.

(** ** Further properties: validateOrigin *)

Section Origins.
Context `{Runtime}.
Import Server.

Lemma lacks_remove_first c d s :
  Spec.lacks c s = true -> Spec.lacks c (remove_first d s) = true.
Proof.
  unfold Spec.lacks. induction s as [|a s IH]; cbn; [reflexivity|].
  intros Hs. apply andb_true_iff in Hs as [Ha Hs].
  destruct (Ascii.eqb a d); [exact Hs|]. cbn. rewrite Ha. auto.
Qed.

Lemma hd_split_lacks c s : Spec.lacks c (hd "" (split c s)) = true.
Proof.
  pose proof (split_parts_lack c s) as Hall.
  destruct (split c s) as [|x rest]; [reflexivity|].
  cbn in Hall. apply andb_true_iff in Hall as [Hx _]. exact Hx.
Qed.

Lemma endsWith_has (p : string) (c : ascii) :
  endsWith p (String c "") = true -> Spec.lacks c p = false.
Proof.
  unfold endsWith. change (rev_string (String c "")) with (String c "").
  intros He. rewrite <- (rev_string_involutive p).
  destruct (rev_string p) as [|b r]; [discriminate He|].
  cbn [startsWith] in He. apply andb_true_iff in He as [Hb _].
  apply Ascii.eqb_eq in Hb. subst b.
  cbn [rev_string]. rewrite lacks_app.
  replace (Spec.lacks c (String c "")) with false; [apply andb_false_r|].
  unfold Spec.lacks. cbn. rewrite Ascii.eqb_refl. reflexivity.
Qed.

(** An entry with a [*] never matches: what is left of it up to its
    first colon holds no colon, while the origin's protocol does. *)
Lemma wildcard_never_matches (protocol hostname allowed : string) :
  Spec.lacks ":" protocol = false ->
  (protocol +:+ "//" +:+ hostname
   =? remove_first "*" (hd "" (split ":" allowed)))%string = false.
Proof.
  intros Hp. apply String.eqb_neq. intros Heq.
  pose proof (lacks_remove_first ":" "*" _ (hd_split_lacks ":" allowed)) as Hl.
  rewrite <- Heq, lacks_app, Hp in Hl. discriminate Hl.
Qed.

Lemma origin_allowed_exact (o protocol hostname : string) (l : list string) :
  Spec.lacks ":" protocol = false ->
  origin_allowed o protocol hostname l = true
  <-> In o l /\ includes o "*" = false.
Proof.
  intros Hp. induction l as [|a l IH]; cbn [origin_allowed In].
  - split; [discriminate | tauto].
  - destruct (includes a "*") eqn:Ha.
    + rewrite (wildcard_never_matches _ _ _ Hp), IH. split; [tauto|].
      intros [[->|Hin] Ho]; [congruence | tauto].
    + destruct (String.eqb_spec o a) as [->|Hne].
      * split; [auto | reflexivity].
      * rewrite IH. split; [tauto|].
        intros [[->|Hin] Ho]; [contradiction | tauto].
Qed.

(** X16. For an [Origin] header that parses, its protocol ending in a
    colon as the protocol of a URL does, [validateOrigin] accepts it
    exactly when it is equal to an allowed origin that holds no [*]. An
    allowed origin with a [*] accepts nothing: when every allowed origin
    has one, as the two default ones have, every request with an
    [Origin] header is answered 403. *)
Theorem validateOrigin_exact_entries :
  forall (env : Env) (o protocol hostname : string),
    truthy_string o = true ->
    URL_parse o = Some (protocol, hostname) ->
    endsWith protocol ":" = true ->
    (validateOrigin env (Some o) = true
     <-> In o (ALLOWED_ORIGINS env) /\ includes o "*" = false)
    /\ ((forall a, In a (ALLOWED_ORIGINS env) -> includes a "*" = true) ->
        forall host auth,
          exists message,
            handle env (mkRequest (Some o) host auth) = Answered 403 message).
Proof.
  intros env o protocol hostname Ho Hparse Hcolon.
  apply endsWith_has in Hcolon.
  assert (Hiff : validateOrigin env (Some o) = true
                 <-> In o (ALLOWED_ORIGINS env) /\ includes o "*" = false).
  { unfold validateOrigin. rewrite Ho, Hparse. cbn [negb].
    apply origin_allowed_exact. exact Hcolon. }
  split; [exact Hiff|].
  intros Hall host auth. unfold handle, securityMiddleware.
  cbn [header_origin header_host].
  destruct (validateHost env host); cbn [negb]; [|eauto].
  rewrite Ho. cbn [andb].
  destruct (validateOrigin env (Some o)) eqn:Hv; cbn [negb]; [|eauto].
  exfalso. destruct Hiff as [Hto _]. destruct (Hto eq_refl) as [Hin Hstar].
  rewrite (Hall o Hin) in Hstar. discriminate.
Qed.

End Origins.

(** ** Further properties: the bearer token as a string *)

Section Tokens.
Import Server.





End Tokens.

(** ** Further properties: getSubmissionStatus *)

Section Submissions.
Context `{Runtime}.

(** X24. For a course id and an assignment id that have a primitive
    value, [getSubmissionStatus] sends exactly one request, for the self
    submission of the assignment with the assignment included. For a
    2xx response whose body is a JSON object it returns the normalised
    body (the fields are read as they are; a body that is a number, a
    string or a boolean has none of them and no counterpart in
    [RawSubmissionDetail]). Unlike
    [getCourseGrades] it throws for every other outcome: a
    [canvas_api_error] for a status outside 200..299, an
    [invalid_response] for a body that is no JSON, what reading a
    property of [null] raises for the body [null], and what
    [fetchWithTimeout] throws for a rejected [fetch]. For an id without
    a primitive value it throws what the conversion raises, and sends
    no request. *)
Theorem getSubmissionStatus_outcome :
  forall (this : CanvasClient) (courseId assignmentId : JsVal)
         (upstream : Fetched (option RawSubmissionDetail)),
    let run := getSubmissionStatus this courseId assignmentId upstream in
    (convertible courseId = true -> convertible assignmentId = true ->
     snd run
     = [baseUrl this +:+ "/api/v1/courses/" +:+ ToString courseId
          +:+ "/assignments/" +:+ ToString assignmentId
          +:+ "/submissions/self" +:+ "?" +:+ "include%5B%5D=assignment"]
     /\ (forall err, upstream = Rejects err ->
                     fst run = Throw (rethrown this err))
     /\ (forall r, upstream = Resolves r -> ok r = false ->
                   fst run = Throw (canvas_api_error r))
     /\ (forall r, upstream = Resolves r -> ok r = true -> json r = None ->
                   fst run = Throw invalid_response)
     /\ (forall r, upstream = Resolves r -> ok r = true ->
                   json r = Some None ->
                   fst run = Throw (raised (NoProperties "null")))
     /\ (forall r submission,
            upstream = Resolves r -> ok r = true ->
            json r = Some (Some submission) ->
            fst run = Ret (normalize_submission submission)))
    /\ (convertible courseId = false \/ convertible assignmentId = false ->
        run = (Throw (raised NoPrimitive), [])).
Proof.
  intros this courseId assignmentId upstream run. subst run.
  unfold getSubmissionStatus, to_primitive. split.
  - intros -> ->. rewrite !bind_ret_l, fetchWithTimeout_eq.
    destruct upstream as [err|r]; cbn [bind].
    + split; [rewrite !append_assoc; reflexivity|].
      split; [intros err' E; inversion E; subst; reflexivity|].
      repeat split; intros; discriminate.
    + assert (Hlog : forall m : M SubmissionDetail,
                 snd m = [] ->
                 snd (let '(res, l') := m in
                      (res, [(baseUrl this +:+ "/api/v1/courses/"
                                +:+ ToString courseId +:+ "/assignments/"
                                +:+ ToString assignmentId
                                +:+ "/submissions/self")
                               +:+ "?" +:+ "include%5B%5D=assignment"]
                              ++ l'))
                 = [baseUrl this +:+ "/api/v1/courses/" +:+ ToString courseId
                      +:+ "/assignments/" +:+ ToString assignmentId
                      +:+ "/submissions/self" +:+ "?"
                      +:+ "include%5B%5D=assignment"]).
      { intros [res l'] Hl. cbn [snd] in *. subst l'.
        rewrite !append_assoc. reflexivity. }
      split.
      { apply Hlog. destruct (negb (ok r)); [reflexivity|].
        destruct (json r) as [[s|]|]; reflexivity. }
      split; [discriminate|].
      split; [intros r' E Hok; inversion E; subst r'; rewrite Hok;
              reflexivity|].
      split; [intros r' E Hok Hj; inversion E; subst r'; rewrite Hok, Hj;
              reflexivity|].
      split; [intros r' E Hok Hj; inversion E; subst r'; rewrite Hok, Hj;
              reflexivity|].
      intros r' s E Hok Hj; inversion E; subst r'; rewrite Hok, Hj.
      reflexivity.
  - intros [->| ->]; [reflexivity|].
    destruct (convertible courseId); reflexivity.
Qed.

End Submissions.

(** ** Further properties: the JSON-RPC route *)

Section Route.
Context `{Runtime}.
Import Tools Server Protocol.

Lemma tools_call_cases canvasClient up clock id params started ended :
  let name := get params "name" in
  let args :=
    if truthy (get params "arguments")
    then arguments_of (get params "arguments") else ∅ in
  tools_call canvasClient up clock id params started ended
  = match call_tool name args canvasClient up clock with
    | (Ret result, l) =>
        (Ret (CallResult id result,
              [mkLog "info" "tool_call" name (or_JNull id) (ended - started)
                 true None]), l)
    | (Throw error, l) =>
        (Ret (CallError id (error_text error),
              [mkLog "error" "tool_call" name (or_JNull id) (ended - started)
                 false (Some (error_code error))]), l)
    | (Stuck, l) => (Stuck, l)
    end.
Proof.
  intros name args. unfold tools_call. fold name. fold args.
  destruct (call_tool name args canvasClient up clock) as [[r|e|] l];
    cbn [bind try_catch ret]; rewrite ?app_nil_r; reflexivity.
Qed.

(** X18. The JSON-RPC route lets no error escape. It writes exactly one
    log record for an answered [tools/list] or [tools/call], marked as a
    success for a result and as a failure with a code for an error
    result, and none for a refused body or an unknown method. It sends
    a request to Canvas only for a well-formed [tools/call]. *)
Theorem post_replies_and_logs :
  forall (canvasClient : CanvasClient) (up : Upstream) (clock : Clock)
         (sessionId : option string) (body : JsVal) (started ended : Z),
    let run := post canvasClient up clock sessionId body started ended in
    (forall e, fst run <> Throw e)
    /\ (forall reply logs,
           fst run = Ret (reply, logs) ->
           match reply with
           | ToolsList _ _ | CallResult _ _ =>
               exists record,
                 logs = [record]
                 /\ log_success record = true
                 /\ log_level record = "info"
                 /\ log_code record = None
                 /\ log_duration_ms record = ended - started
           | CallError _ _ =>
               exists record code,
                 logs = [record]
                 /\ log_success record = false
                 /\ log_level record = "error"
                 /\ log_code record = Some code
                 /\ log_duration_ms record = ended - started
           | _ => logs = []
           end)
    /\ (snd run <> [] ->
        get body "jsonrpc" = JStr "2.0"
        /\ get body "method" = JStr "tools/call").
Proof.
  intros canvasClient up clock sessionId body started ended run.
  subst run. unfold post.
  destruct (match sessionId with Some s => truthy_string s | None => false end).
  2:{ split; [discriminate|]. split.
      - intros reply logs E. inversion E; subst. reflexivity.
      - intros Hs. contradiction Hs. reflexivity. }
  destruct (match body with JObj _ | JArr _ => false | _ => true end).
  { split; [discriminate|]. split.
    - intros reply logs E. inversion E; subst. reflexivity.
    - intros Hs. contradiction Hs. reflexivity. }
  destruct (strict_eq_string (get body "jsonrpc") "2.0") eqn:Hrpc;
    cbn [negb orb].
  2:{ split; [discriminate|]. split.
      - intros reply logs E. inversion E; subst. reflexivity.
      - intros Hs. contradiction Hs. reflexivity. }
  destruct (get body "method") as [| | | |method| |] eqn:Hmethod;
    try (split; [discriminate|]; split;
         [intros reply logs E; inversion E; subst; reflexivity
         |intros Hs; contradiction Hs; reflexivity]).
  cbn [strict_eq_string].
  destruct (String.eqb_spec method "tools/list") as [->|_].
  { split; [discriminate|]. split.
    - intros reply logs E. inversion E; subst. eexists.
      repeat (split; [reflexivity|]). reflexivity.
    - intros Hs. contradiction Hs. reflexivity. }
  destruct (String.eqb_spec method "tools/call") as [->|_].
  2:{ split; [discriminate|]. split.
      - intros reply logs E. inversion E; subst. reflexivity.
      - intros Hs. contradiction Hs. reflexivity. }
  rewrite tools_call_cases.
  destruct (call_tool _ _ canvasClient up clock) as [[r|e|] l].
  - split; [discriminate|]. split.
    + intros reply logs E. inversion E; subst. eexists.
      repeat (split; [reflexivity|]). reflexivity.
    + intros _. split; [|reflexivity].
      destruct (get body "jsonrpc"); try discriminate Hrpc.
      cbn in Hrpc. apply String.eqb_eq in Hrpc. congruence.
  - split; [discriminate|]. split.
    + intros reply logs E. inversion E; subst. eexists. eexists.
      repeat (split; [reflexivity|]). reflexivity.
    + intros _. split; [|reflexivity].
      destruct (get body "jsonrpc"); try discriminate Hrpc.
      cbn in Hrpc. apply String.eqb_eq in Hrpc. congruence.
  - split; [discriminate|]. split.
    + intros reply logs E. discriminate E.
    + intros _. split; [|reflexivity].
      destruct (get body "jsonrpc"); try discriminate Hrpc.
      cbn in Hrpc. apply String.eqb_eq in Hrpc. congruence.
Qed.

(** X19. A call of a tool that is not in the catalog sends nothing to
    Canvas on either transport. The HTTP route answers it with an error
    result whose text carries the code, [Error [invalid_tool]: Unknown
    tool: ...], and logs one failure with that code; the stdio server
    answers [Error: Unknown tool: ...], without the code. *)
Theorem unknown_tool_on_both_transports :
  forall (canvasClient : CanvasClient) (up : Upstream) (clock : Clock)
         (sessionId : string) (body : JsVal) (toolName : string)
         (started ended : Z),
    ~ In toolName (List.map tool_name TOOLS) ->
    truthy_string sessionId = true ->
    get body "jsonrpc" = JStr "2.0" ->
    get body "method" = JStr "tools/call" ->
    get (get body "params") "name" = JStr toolName ->
    post canvasClient up clock (Some sessionId) body started ended
    = (Ret (CallError (get body "id")
              ("Error [invalid_tool]: Unknown tool: " +:+ toolName),
            [mkLog "error" "tool_call" (JStr toolName)
               (or_JNull (get body "id")) (ended - started) false
               (Some "invalid_tool")]), [])
    /\ forall args,
        stdio_call canvasClient up clock toolName args
        = (Ret (inr ("Error: Unknown tool: " +:+ toolName)), []).
Proof.
  intros canvasClient up clock sessionId body toolName started ended
    Hnot Hsid Hrpc Hmethod Hname.
  split.
  - unfold post. rewrite Hsid, Hrpc, Hmethod.
    destruct body; try discriminate Hrpc.
    cbn [strict_eq_string String.eqb Ascii.eqb Bool.eqb negb orb].
    rewrite tools_call_cases, Hname. unfold call_tool.
    rewrite (handleToolCall_unknown _ _ _ _ _ Hnot). reflexivity.
  - intros args. unfold stdio_call.
    rewrite (handleToolCall_unknown _ _ _ _ _ Hnot). reflexivity.
Qed.

(** X25. A [tools/call] of [list_courses] whose first request is
    aborted by the timer is answered with an error result that names
    the code [timeout] and the client's timeout, and is logged as a
    failure with that code; the one request made is the first page of
    the courses. *)
Theorem post_reports_timeout :
  forall (canvasClient : CanvasClient) (up : Upstream) (clock : Clock)
         (sessionId : string) (body : JsVal) (url : string) (err : JsError)
         (rest : list (Fetched (Listing RawCourse))) (started ended : Z),
    truthy_string sessionId = true ->
    get body "jsonrpc" = JStr "2.0" ->
    get body "method" = JStr "tools/call" ->
    get (get body "params") "name" = JStr "list_courses" ->
    URL_serialize (baseUrl canvasClient +:+ "/api/v1" +:+ "/courses")
      ([("enrollment_state", "active"); ("include[]", "enrollment_state")]
         ++ [("per_page", "100")]) = Some url ->
    truthy_string url = true ->
    up_courses up = Rejects err :: rest ->
    err_name err = "AbortError" \/ err_code err = Some "ABORT_ERR" ->
    post canvasClient up clock (Some sessionId) body started ended
    = (Ret (CallError (get body "id")
              ("Error [timeout]: Canvas request timed out after "
                 +:+ pretty (timeoutMs canvasClient) +:+ "ms"),
            [mkLog "error" "tool_call" (JStr "list_courses")
               (or_JNull (get body "id")) (ended - started) false
               (Some "timeout")]), [url]).
Proof.
  intros canvasClient up clock sessionId body url err rest started ended
    Hsid Hrpc Hmethod Hname Hurl Htruthy Hup Habort.
  unfold post. rewrite Hsid, Hrpc, Hmethod.
  destruct body; try discriminate Hrpc.
  cbn [strict_eq_string String.eqb Ascii.eqb Bool.eqb negb orb].
  rewrite tools_call_cases, Hname. unfold call_tool, handleToolCall.
  cbn [String.eqb Ascii.eqb Bool.eqb].
  unfold listCourses, getWithPagination. rewrite Hurl, Hup.
  rewrite (loop_cons _ _ _ _ _ Htruthy).
  assert (Hre : rethrown canvasClient err
                = coded_error "timeout"
                    ("Canvas request timed out after "
                       +:+ pretty (timeoutMs canvasClient) +:+ "ms")).
  { unfold rethrown. destruct Habort as [Hn|Hc].
    - rewrite Hn. reflexivity.
    - rewrite Hc. rewrite orb_true_r. reflexivity. }
  rewrite Hre. reflexivity.
Qed.


End Route.

(** ** Further properties: the configuration *)

Section Configuration.
Context `{Runtime}.
Import Server Protocol Startup Addon.

Lemma split_not_nil c s : split c s <> [].
Proof.
  destruct s as [|a s]; cbn [split]; [discriminate|].
  destruct (Ascii.eqb a c); [discriminate|].
  destruct (split c s); discriminate.
Qed.

Lemma env_or_truthy penv var fallback :
  truthy_string fallback = true ->
  truthy_string (env_or penv var fallback) = true.
Proof.
  intros Hf. unfold env_or. destruct (penv !! var) as [s|]; [|exact Hf].
  destruct (truthy_string s) eqn:Hs; [exact Hs | exact Hf].
Qed.

Lemma canvas_timeout_positive penv : 1 <= canvas_timeout penv.
Proof.
  unfold canvas_timeout. destruct (penv !! "CANVAS_TIMEOUT_MS") as [s|]; [|lia].
  destruct (StringToNumber s); lia.
Qed.

(** X21. The HTTP server starts exactly when [CANVAS_BASE_URL] and
    [CANVAS_API_TOKEN] are set and not empty, and so does the stdio
    server, with the same base URL and a timeout of 15000 ms. Once
    started, the client's timeout is [CANVAS_TIMEOUT_MS], at least 1;
    the base path is not empty; there is at least one allowed origin and
    each is trimmed; and when [ALLOWED_ORIGINS] is unset or empty every
    allowed origin holds a [*]. *)
Theorem http_server_settings :
  forall (penv : gmap string string),
    (http_server penv = None
     <-> env_or penv "CANVAS_BASE_URL" "" = ""
         \/ env_or penv "CANVAS_API_TOKEN" "" = "")
    /\ (http_server penv = None <-> stdio_server penv = None)
    /\ forall settings,
        http_server penv = Some settings ->
        timeoutMs (canvasClient settings) = CANVAS_TIMEOUT_MS settings
        /\ 1 <= CANVAS_TIMEOUT_MS settings
        /\ truthy_string (BASE_PATH settings) = true
        /\ ALLOWED_ORIGINS (settings_env settings) <> []
        /\ (forall o, In o (ALLOWED_ORIGINS (settings_env settings)) ->
                      trim o = o)
        /\ (env_or penv "ALLOWED_ORIGINS" "" = "" ->
            forall o, In o (ALLOWED_ORIGINS (settings_env settings)) ->
                      includes o "*" = true)
        /\ exists client,
            stdio_server penv = Some client
            /\ baseUrl client = baseUrl (canvasClient settings)
            /\ apiToken client = apiToken (canvasClient settings)
            /\ timeoutMs client = 15000.
Proof.
  intros penv. unfold http_server, stdio_server, truthy_string.
  rewrite !negb_involutive.
  destruct (String.eqb_spec (env_or penv "CANVAS_BASE_URL" "") "")
    as [Hb|Hb]; cbn [orb].
  { split; [split; auto|]. split; [split; auto|]. discriminate. }
  destruct (String.eqb_spec (env_or penv "CANVAS_API_TOKEN" "") "")
    as [Ht|Ht].
  { split; [split; auto|]. split; [split; auto|]. discriminate. }
  split; [split; [discriminate | intros [?|?]; contradiction]|].
  split; [split; discriminate|].
  intros settings E. inversion E; subst settings. clear E.
  cbn [canvasClient CANVAS_TIMEOUT_MS BASE_PATH settings_env ALLOWED_ORIGINS].
  pose proof (canvas_timeout_positive penv) as Hpos.
  split.
  { unfold constructor. cbn [timeoutMs cfg_timeoutMs inject_Z Qnum].
    destruct (0 <? canvas_timeout penv) eqn:E; [apply Qfloor_Z|].
    apply Z.ltb_ge in E. lia. }
  split; [exact Hpos|].
  split; [apply (env_or_truthy penv "BASE_PATH" "/mcp"); reflexivity|].
  split.
  { unfold allowed_origins. destruct (penv !! "ALLOWED_ORIGINS") as [s|];
      [|discriminate].
    destruct (truthy_string s); [|discriminate].
    pose proof (split_not_nil "," s) as Hne.
    destruct (split "," s); [contradiction | discriminate]. }
  split.
  { intros o. unfold allowed_origins.
    destruct (penv !! "ALLOWED_ORIGINS") as [s|].
    - destruct (truthy_string s).
      + intros Hin. apply in_map_iff in Hin as [x [<- _]]. apply trim_trim.
      + intros [<-|[<-|[]]]; reflexivity.
    - intros [<-|[<-|[]]]; reflexivity. }
  split.
  { unfold env_or, allowed_origins.
    destruct (penv !! "ALLOWED_ORIGINS") as [s|].
    - unfold truthy_string.
      destruct (String.eqb_spec s "") as [->|Hs]; cbn [negb].
      + intros _ o [<-|[<-|[]]]; reflexivity.
      + intros Habs. contradiction.
    - intros _ o [<-|[<-|[]]]; reflexivity. }
  eexists. split; [reflexivity|]. split; [reflexivity|].
  split; reflexivity.
Qed.

Lemma set_from_option_lookup opts key var penv var' :
  set_from_option opts key var penv !! var'
  = if String.eqb var' var then
      match get opts key with
      | JStr s => if truthy_string s then Some s else penv !! var'
      | _ => penv !! var'
      end
    else penv !! var'.
Proof.
  unfold set_from_option.
  destruct (String.eqb_spec var' var) as [->|Hne].
  - destruct (get opts key); try reflexivity.
    destruct (truthy_string s); [apply lookup_insert_eq | reflexivity].
  - destruct (get opts key); try reflexivity.
    destruct (truthy_string s); [|reflexivity].
    apply lookup_insert_ne. congruence.
Qed.

(** The two variables the servers require, after [setEnvFromOptions]. *)
Lemma setEnvFromOptions_required_vars opts penv penv' :
  setEnvFromOptions opts penv = inr penv' ->
  penv' !! "CANVAS_BASE_URL"
  = match get opts "canvas_base_url" with
    | JStr s => if truthy_string s then Some s else penv !! "CANVAS_BASE_URL"
    | _ => penv !! "CANVAS_BASE_URL"
    end
  /\ penv' !! "CANVAS_API_TOKEN"
     = match get opts "canvas_api_token" with
       | JStr s =>
           if truthy_string s then Some s else penv !! "CANVAS_API_TOKEN"
       | _ => penv !! "CANVAS_API_TOKEN"
       end.
Proof.
  intros Hset.
  assert (Hget : forall key,
             get (default_param opts (JObj [])) key = get opts key)
    by (intros key; destruct opts; reflexivity).
  unfold setEnvFromOptions in Hset.
  assert (Hp : penv'
               = set_from_option (default_param opts (JObj []))
                   "mcp_auth_token" "MCP_AUTH_TOKEN"
                   (set_from_option (default_param opts (JObj []))
                      "canvas_api_token" "CANVAS_API_TOKEN"
                      (set_from_option (default_param opts (JObj []))
                         "canvas_base_url" "CANVAS_BASE_URL" penv)))
    by (destruct (default_param opts (JObj [])); inversion Hset; reflexivity).
  rewrite Hp, !set_from_option_lookup, !Hget. split; reflexivity.
Qed.

(** X22. [setEnvFromOptions] throws only for the options [null]. In
    every other case it changes nothing but the three variables
    [CANVAS_BASE_URL], [CANVAS_API_TOKEN] and [MCP_AUTH_TOKEN], each of
    which takes the value of its option when that is a string that is
    not empty and keeps its value otherwise; no variable is ever
    removed. With an options file that cannot be read or parsed the
    environment stays as it was. *)
Theorem setEnvFromOptions_effect :
  forall (opts : JsVal) (penv : gmap string string),
    (opts = JNull <-> exists e, setEnvFromOptions opts penv = inl e)
    /\ (forall penv',
           setEnvFromOptions opts penv = inr penv' ->
           (forall key var,
               In (key, var)
                  [("canvas_base_url", "CANVAS_BASE_URL");
                   ("canvas_api_token", "CANVAS_API_TOKEN");
                   ("mcp_auth_token", "MCP_AUTH_TOKEN")] ->
               penv' !! var
               = match get opts key with
                 | JStr s => if truthy_string s then Some s else penv !! var
                 | _ => penv !! var
                 end)
           /\ (forall var,
                  ~ In var ["CANVAS_BASE_URL"; "CANVAS_API_TOKEN";
                            "MCP_AUTH_TOKEN"] ->
                  penv' !! var = penv !! var)
           /\ (forall var, penv !! var <> None -> penv' !! var <> None))
    /\ prepare None penv = inr penv.
Proof.
  intros opts penv.
  assert (Hget : forall key,
             get (default_param opts (JObj [])) key = get opts key)
    by (intros key; destruct opts; reflexivity).
  split; [|split].
  - unfold setEnvFromOptions. split.
    + intros ->. eexists. reflexivity.
    + intros [e He]. destruct opts; try discriminate He. reflexivity.
  - intros penv' Hset.
    assert (Hlookup : forall var',
               penv' !! var'
               = set_from_option (default_param opts (JObj []))
                   "mcp_auth_token" "MCP_AUTH_TOKEN"
                   (set_from_option (default_param opts (JObj []))
                      "canvas_api_token" "CANVAS_API_TOKEN"
                      (set_from_option (default_param opts (JObj []))
                         "canvas_base_url" "CANVAS_BASE_URL" penv)) !! var').
    { intros var'. unfold setEnvFromOptions in Hset.
      destruct (default_param opts (JObj [])); inversion Hset; reflexivity. }
    split; [|split].
    + intros key var Hin. rewrite Hlookup, !set_from_option_lookup, !Hget.
      destruct Hin as [E|[E|[E|[]]]]; inversion E; subst; reflexivity.
    + intros var Hnot. rewrite Hlookup, !set_from_option_lookup.
      destruct (String.eqb_spec var "MCP_AUTH_TOKEN") as [->|_];
        [exfalso; apply Hnot; cbn; tauto|].
      destruct (String.eqb_spec var "CANVAS_API_TOKEN") as [->|_];
        [exfalso; apply Hnot; cbn; tauto|].
      destruct (String.eqb_spec var "CANVAS_BASE_URL") as [->|_];
        [exfalso; apply Hnot; cbn; tauto|].
      reflexivity.
    + intros var Hsome. rewrite Hlookup, !set_from_option_lookup.
      repeat match goal with
             | |- context [String.eqb var ?v] => destruct (String.eqb var v)
             | |- context [get ?o ?k] =>
                 destruct (get o k); try assumption
             | |- context [truthy_string ?s] =>
                 destruct (truthy_string s); try discriminate
             end; assumption.
  - reflexivity.
Qed.

(** X23. When the add-on's options hold a base URL and an API token
    that are strings and not empty, both servers start on the
    environment it prepares, whatever that environment held before, and
    their client uses the two options: the URL without one trailing
    slash, and the token. *)
Theorem addon_options_start_server :
  forall (content : option JsVal) (penv penv' : gmap string string)
         (url token : string),
    prepare content penv = inr penv' ->
    get (loadOptions content) "canvas_base_url" = JStr url ->
    get (loadOptions content) "canvas_api_token" = JStr token ->
    url <> "" -> token <> "" ->
    exists settings client,
      http_server penv' = Some settings
      /\ stdio_server penv' = Some client
      /\ baseUrl (canvasClient settings) = strip_trailing_slash url
      /\ apiToken (canvasClient settings) = token
      /\ baseUrl client = strip_trailing_slash url
      /\ apiToken client = token.
Proof.
  intros content penv penv' url token Hprep Hurl Htoken Hu Ht.
  unfold prepare in Hprep.
  destruct (setEnvFromOptions_required_vars (loadOptions content) penv penv'
              Hprep) as [Hb Ha].
  rewrite Hurl in Hb. rewrite Htoken in Ha.
  unfold truthy_string in Hb, Ha.
  apply String.eqb_neq in Hu as Hu'. apply String.eqb_neq in Ht as Ht'.
  rewrite Hu' in Hb. rewrite Ht' in Ha. cbn [negb] in Hb, Ha.
  unfold http_server, stdio_server, env_or. rewrite Hb, Ha.
  unfold truthy_string. rewrite !Hu', !Ht'. cbn [negb].
  rewrite !Hu', !Ht'. cbn [negb orb].
  eexists. eexists. split; [reflexivity|]. split; [reflexivity|].
  split; [reflexivity|]. split; [reflexivity|]. split; reflexivity.
Qed.

End Configuration.

(* ================================================================== *)
(** * Part III. The theorems at concrete inputs                        *)
(* ================================================================== *)

Import Sample Tools Server.

(** ** Status filters *)

(** The status filters at [noon], on an assignment due the day before
    and not submitted. *)
Lemma listAssignments_status_filter_witness :
  (truthy (default_param (JBool true) (JBool true)) = true
   /\ Spec.status_pool (JBool true) noon [due_yesterday; due_tomorrow]
      = [due_yesterday; due_tomorrow])
  /\ In due_yesterday [due_yesterday; due_tomorrow]
  /\ Spec.due_passed noon due_yesterday = true
  /\ asg_submission due_yesterday = None
  /\ In due_yesterday
       (List.filter (Spec.is_missing noon) [due_yesterday; due_tomorrow])
  /\ In due_yesterday
       (List.filter Spec.is_unsubmitted [due_yesterday; due_tomorrow])
  /\ ~ In due_yesterday
         (List.filter Spec.is_submitted [due_yesterday; due_tomorrow]).
Proof.
  pose proof (listAssignments_status_filter client (JNum 7) (JBool true)
                noon noon []) as [_ [_ [_ [_ [Hpool Hcase]]]]].
  assert (Hin : In due_yesterday [due_yesterday; due_tomorrow])
    by (left; reflexivity).
  assert (Hdue : Spec.due_passed noon due_yesterday = true)
    by (vm_compute; reflexivity).
  split; [split; [reflexivity | exact (Hpool eq_refl _)]|].
  split; [exact Hin|]. split; [exact Hdue|]. split; [reflexivity|].
  exact (Hcase due_yesterday [due_yesterday; due_tomorrow] Hin Hdue eq_refl).
Defined.

(** The four filters on the sample course. *)
Example listAssignments_sample :
  List.map assignment_id
    (filter_assignments (JBool true) (JStr "missing") noon noon
       [due_yesterday; due_tomorrow; due_next_month]) = [1]
  /\ List.map assignment_id
       (filter_assignments (JBool true) (JStr "unsubmitted") noon noon
          [due_yesterday; due_tomorrow; due_next_month]) = [1; 2; 3]
  /\ List.map assignment_id
       (filter_assignments (JBool true) (JStr "submitted") noon noon
          [due_yesterday; due_tomorrow; due_next_month]) = []
  /\ List.map assignment_id
       (filter_assignments (JBool true) (JStr "all") noon noon
          [due_yesterday; due_tomorrow; due_next_month]) = [1; 2; 3].
Proof. vm_compute. repeat split. Qed.

(** ** Grade data *)

(** [!== null] lets [undefined] through: an absent field counts as grade
    data. *)
Lemma hasGradeData_absent (e : RawEnrollment) :
  computed_current_score e = Undefined -> hasGradeData e = true.
Proof.
  intros E. unfold hasGradeData. rewrite E. cbn [strict_ne_null].
  rewrite orb_true_r. reflexivity.
Qed.

(** A score of [0] is grade data. *)
Lemma hasGradeData_zero (e : RawEnrollment) :
  computed_current_score e = Value 0 -> hasGradeData e = true.
Proof.
  intros E. unfold hasGradeData. rewrite E. cbn [strict_ne_null].
  rewrite orb_true_r. reflexivity.
Qed.

(** The summary is [no_grades_yet] only when every tested field is
    [null] itself. *)
Lemma hasGradeData_false (e : RawEnrollment) :
  hasGradeData e = false ->
  computed_current_score e = Null /\ computed_current_grade e = Null.
Proof.
  unfold hasGradeData. intros E.
  apply orb_false_iff in E as [E Hg]. apply orb_false_iff in E as [_ Hs].
  destruct (computed_current_score e), (computed_current_grade e);
    try discriminate. split; reflexivity.
Qed.

(** C2. An enrollment that carries none of the six fields: no field has
    a value, yet [hasGradeData] holds and [getCourseGrades] answers
    [available: true] with every grade [null], not [no_grades_yet]. *)
Theorem getCourseGrades_absent_grade_fields :
  let e := enrollment 1 "active" None in
  Spec.grade_data_present e = false
  /\ hasGradeData e = true
  /\ fst (getCourseGrades client (JNum 7) (page [e] None))
     = Ret (Available (Some 7) None None None None
              (mkMetadata "active" None None None)).
Proof. vm_compute. repeat split. Qed.

(** With the six fields [null], the summary is [no_grades_yet]; with a
    computed current score of [0], it is available. *)
Example getCourseGrades_null_and_zero :
  fst (getCourseGrades client (JNum 7)
         (page [mkRawEnrollment 1 7 "active"
                  (Some (mkRawGrades Null Null Null Null))
                  Null Null Null Null (Value 3) None] None))
  = Ret (Unavailable (Some 7) no_grades_yet
           (Some (mkMetadata "active" (Some 3) None None)))
  /\ fst (getCourseGrades client (JNum 7)
            (page [mkRawEnrollment 1 7 "active" None
                     (Value 0) Null Null Null Null None] None))
     = Ret (Available (Some 7) (Some 0) None None None
              (mkMetadata "active" None None None)).
Proof. vm_compute. repeat split. Qed.

(** A 404 answer gives the [hidden_or_unavailable] summary. *)
Lemma getCourseGrades_never_throws_witness :
  convertible (JStr "7") = true
  /\ ok (mkResponse 404 "Not Found" None (Some (@Elements RawEnrollment [])))
     = false
  /\ fst (getCourseGrades client (JStr "7")
            (Resolves (mkResponse 404 "Not Found" None (Some (Elements [])))))
     = Ret (Unavailable (Number (JStr "7")) hidden_or_unavailable None).
Proof.
  split; [reflexivity|]. split; [reflexivity|].
  exact (proj2 (proj2 (proj2 (getCourseGrades_never_throws client (JStr "7")
                                eq_refl)))
           (mkResponse 404 "Not Found" None (Some (Elements [])))
           (or_introl eq_refl)).
Defined.

(** C3 as stated fails for a course id that is an object with a
    property [toString] of its own, as the arguments of a tool call can
    hold it: the object has no primitive value, the template literal of
    the URL throws a TypeError in the [try] block before any request is
    sent, [Number(courseId)] throws it again in the [catch] block, and
    the error escapes from [getCourseGrades] and from the tool call. *)
Theorem getCourseGrades_object_id :
  convertible Cases.object_id = false
  /\ getCourseGrades client Cases.object_id
       (page [enrollment 1 "active" None] None)
     = (Throw (mkError "TypeError" None
                 "Cannot convert object to primitive value"), [])
  /\ handleToolCall "get_course_grades" {[ "course_id" := Cases.object_id ]}
       client upstream (mkClock noon noon noon)
     = (Throw (mkError "TypeError" None
                 "Cannot convert object to primitive value"), []).
Proof. vm_compute. repeat split. Qed.

(** ** Enrollment selection *)

(** C4. Two active enrollments of one course with the same course end
    date: the comparator answers 0, the stable sort keeps the upstream
    order, and the first one is selected although the second has the
    higher id and is the top of the stated order. *)
Theorem getCourseGrades_equal_end_dates :
  let e1 := graded_enrollment 1 50 "2024-06-30T00:00:00Z" in
  let e2 := graded_enrollment 2 90 "2024-06-30T00:00:00Z" in
  compare_enrollments e1 e2 = Some 0
  /\ select_enrollment [e1; e2] = Some e1
  /\ Spec.best_enrollment [e1; e2] = Some e2
  /\ fst (getCourseGrades client (JNum 7) (page [e1; e2] None))
     = Ret (Available (Some 7) (Some 50) None None None
              (mkMetadata "active" None None
                 (Some "2024-06-30T00:00:00Z"))).
Proof. vm_compute. repeat split. Qed.

(** The two examples of the specification: an active enrollment beats an
    inactive one with a later end date, and of two active enrollments
    without end dates the higher id wins. *)
Example select_enrollment_examples :
  let ends s := Some (mkRawCourseDates Null (Value s)) in
  let early := mkRawEnrollment 1 7 "active" None Null Null Null Null Null
                 (ends "2024-03-01T00:00:00Z") in
  let late := mkRawEnrollment 2 7 "completed" None Null Null Null Null Null
                (ends "2024-06-30T00:00:00Z") in
  select_enrollment [late; early] = Some early
  /\ select_enrollment [enrollment 1 "active" None; enrollment 2 "active" None]
     = Some (enrollment 2 "active" None).
Proof. vm_compute. repeat split. Qed.

(** ** Pagination *)

(** Two pages of courses, the first naming the second. *)
Lemma getWithPagination_all_pages_witness :
  URL_serialize (baseUrl client +:+ "/api/v1" +:+ "/courses")
    (courses_params ++ [("per_page", "100")]) = Some courses_url
  /\ truthy_string courses_url = true
  /\ forallb Spec.has_next [first_page] = true
  /\ Spec.page_ok last_page = true
  /\ Spec.page_next last_page = None
  /\ getWithPagination client "/courses" courses_params
       (List.map Spec.respond [first_page] ++ Spec.respond last_page :: [])
     = (Ret (concat (List.map Spec.page_items ([first_page] ++ [last_page]))),
        courses_url :: Spec.next_urls [first_page])
  /\ length (courses_url :: Spec.next_urls [first_page])
     = length ([first_page] ++ [last_page]).
Proof.
  assert (H1 : URL_serialize (baseUrl client +:+ "/api/v1" +:+ "/courses")
                 (courses_params ++ [("per_page", "100")]) = Some courses_url)
    by (vm_compute; reflexivity).
  assert (H2 : truthy_string courses_url = true) by (vm_compute; reflexivity).
  assert (H3 : forallb Spec.has_next [first_page] = true)
    by (vm_compute; reflexivity).
  assert (H4 : Spec.page_ok last_page = true) by (vm_compute; reflexivity).
  assert (H5 : Spec.page_next last_page = None) by (vm_compute; reflexivity).
  repeat (split; [assumption|]).
  exact (getWithPagination_all_pages client "/courses" courses_params
           courses_url [first_page] last_page [] H1 H2 H3 H4 H5).
Defined.

(** The same run, evaluated: three courses from two requests. *)
Example listCourses_two_pages :
  listCourses client [Spec.respond first_page; Spec.respond last_page]
  = (Ret [mkCourse 7 "Logic" "LOG-101" "active";
          mkCourse 8 "Algebra" "ALG-101" "active";
          mkCourse 9 "Rhetoric" "RHE-101" "active"],
     [courses_url; page_url "2"]).
Proof. vm_compute. reflexivity. Qed.

(** A server error, and a body that cannot be parsed, on the second
    page. *)
Lemma getWithPagination_aborts_witness :
  ((1 < length (snd (getWithPagination client "/courses" courses_params
                       [Spec.respond first_page; Resolves server_error])))%nat
   /\ [Spec.respond first_page; Resolves server_error] !! 1%nat
      = Some (Resolves server_error)
   /\ ok server_error = false
   /\ fst (getWithPagination client "/courses" courses_params
             [Spec.respond first_page; Resolves server_error])
      = Throw (mkError "Error" (Some "canvas_api_error")
                 "Canvas API error: 500 Internal Server Error")
   /\ forall results,
        fst (getWithPagination client "/courses" courses_params
               [Spec.respond first_page; Resolves server_error])
        <> Ret results)
  /\ ((1 < length (snd (getWithPagination client "/courses" courses_params
                          [Spec.respond first_page; Resolves garbled])))%nat
      /\ [Spec.respond first_page; Resolves garbled] !! 1%nat
         = Some (Resolves garbled)
      /\ ok garbled = true
      /\ json garbled = None
      /\ fst (getWithPagination client "/courses" courses_params
                [Spec.respond first_page; Resolves garbled])
         = Throw (mkError "Error" (Some "invalid_response")
                    "Invalid Canvas API response")).
Proof.
  assert (H1 : (1 < length (snd (getWithPagination client "/courses"
                                   courses_params
                                   [Spec.respond first_page;
                                    Resolves server_error])))%nat)
    by (vm_compute; lia).
  assert (H2 : (1 < length (snd (getWithPagination client "/courses"
                                   courses_params
                                   [Spec.respond first_page;
                                    Resolves garbled])))%nat)
    by (vm_compute; lia).
  pose proof (getWithPagination_aborts client "/courses" courses_params
                [Spec.respond first_page; Resolves server_error] 1
                server_error H1 eq_refl) as [Hbad [_ Hnone]].
  pose proof (getWithPagination_aborts client "/courses" courses_params
                [Spec.respond first_page; Resolves garbled] 1
                garbled H2 eq_refl) as [_ [Hparse _]].
  split.
  - split; [exact H1|]. split; [reflexivity|]. split; [reflexivity|].
    split; [exact (Hbad eq_refl) | exact (Hnone (or_introl eq_refl))].
  - split; [exact H2|]. split; [reflexivity|]. split; [reflexivity|].
    split; [reflexivity | exact (Hparse eq_refl eq_refl)].
Defined.

(** The same after a first page, for a body that cannot be parsed; the
    first page's two courses are not returned. *)
Example getWithPagination_garbled :
  getWithPagination client "/courses" courses_params
    [Spec.respond first_page; Resolves garbled]
  = (Throw (mkError "Error" (Some "invalid_response")
              "Invalid Canvas API response"),
     [courses_url; page_url "2"]).
Proof. vm_compute. reflexivity. Qed.

(** C5 as stated fails for a [next] URL that holds a comma: the header
    is split at that comma, no part matches, and the fetch stops after
    the first of the two pages. *)
Lemma getWithPagination_comma_in_next_url :
  let next := "https://canvas.example/api/v1/courses?ids=1,2&page=2" in
  let one :=
    Spec.mkPage 200 "OK" [course7] (Some [Spec.mkLink "" next " " "next"]) in
  let two := Spec.mkPage 200 "OK" [course7] None in
  Spec.segment_formed (Spec.mkLink "" next " " "next") = true
  /\ Spec.page_next one = Some next
  /\ Spec.page_next two = None
  /\ getWithPagination client "/courses" courses_params
       [Spec.respond one; Spec.respond two]
     = (Ret [course7], [courses_url])
  /\ getWithPagination client "/courses" courses_params
       [Spec.respond one; Spec.respond two]
     <> (Ret (concat (List.map Spec.page_items [one; two])),
         [courses_url; next]).
Proof. vm_compute. repeat split; discriminate. Qed.

(** ** Upcoming assignments *)

(** Over a window of 40 days from [noon], with overdue items: all three
    sample assignments, by due date. Over a window of one day, without
    overdue items: the assignment due exactly at the limit only. *)
Example listUpcoming_sample :
  fst (listUpcoming client upstream (JNum 40) (JBool true) JUndefined noon)
  = Ret [mkUpcomingItem 7 "Logic" 1 "Essay" "2024-01-14T12:00:00Z"
           unsubmitted 10;
         mkUpcomingItem 7 "Logic" 2 "Essay" "2024-01-16T12:00:00Z"
           unsubmitted 10;
         mkUpcomingItem 7 "Logic" 3 "Essay" "2024-02-20T12:00:00Z"
           unsubmitted 10]
  /\ List.map item_assignment_id
       (match fst (listUpcoming client upstream (JNum 1) (JBool false)
                     JUndefined noon) with
        | Ret items => items
        | _ => []
        end) = [2].
Proof. vm_compute. split; reflexivity. Qed.



(** ** The Host check *)

(** The address test looks at a prefix of the header only: whatever
    follows a private address is accepted with it. *)
Lemma validateHost_private_prefix (e : Env) (suffix : string) :
  validateHost e (Some ("10.0.0.1" +:+ suffix)) = true.
Proof.
  unfold validateHost.
  change ("10.0.0.1" +:+ suffix)
    with (String "1" (String "0" (String "." (String "0" (String "."
            (String "0" (String "." (String "1" suffix)))))))).
  cbn [truthy_string String.eqb negb startsWith Ascii.eqb Bool.eqb andb orb].
  unfold ipMatch, digits_dot.
  cbn [take_while drop_while is_digit code]. 
  reflexivity.
Qed.

(** C8. The host [10.0.0.1.evil.com] is a public name, not one of the
    hosts the check is meant to let through, yet [validateHost] accepts
    it and the request reaches the dispatch; [evil.com] itself is
    answered 403. *)
Theorem validateHost_accepts_prefixed_name :
  Spec.host_allowed "10.0.0.1.evil.com" = false
  /\ validateHost env (Some "10.0.0.1.evil.com") = true
  /\ handle env (mkRequest None (Some "10.0.0.1.evil.com")
                   (Some "Bearer s3cret")) = Dispatched
  /\ handle env (mkRequest None (Some "evil.com") (Some "Bearer s3cret"))
     = Answered 403 "Forbidden: Invalid Host header".
Proof. vm_compute. repeat split. Qed.

(** What the check accepts and rejects otherwise. *)
Example validateHost_sample :
  List.map (fun h => validateHost env (Some h))
    ["localhost"; "localhost:3000"; "127.0.0.1:8080"; "0.0.0.0";
     "192.168.1.20:8080"; "10.1.2.3"; "172.16.0.1"; "172.31.255.255";
     "raspberrypi.local"; "raspberrypi.local:8080"]
  = [true; true; true; true; true; true; true; true; true; true]
  /\ List.map (fun h => validateHost env (Some h))
       ["evil.com"; "172.15.0.1"; "172.32.0.1"; "8.8.8.8"; "127.0.0.2";
        "raspberrypi.local:9090"; ""]
     = [false; false; false; false; false; false; false]
  /\ validateHost env None = false.
Proof. vm_compute. repeat split. Qed.

(** ** The bearer token *)


(** A token of another length is refused without a comparison, one of
    the same length after one. *)
Example mcpAuthMiddleware_sample :
  mcpAuthMiddleware env (mkRequest None (Some "localhost")
                           (Some "Bearer s3cre"))
  = (inl (Reply 401 "unauthorized"), [])
  /\ mcpAuthMiddleware env (mkRequest None (Some "localhost")
                              (Some "Bearer s3creT"))
     = (inl (Reply 401 "unauthorized"),
        [Compared (Buffer_from "s3creT") (Buffer_from "s3cret")])
  /\ mcpAuthMiddleware env (mkRequest None (Some "localhost") None)
     = (inl (Reply 401 "unauthorized"), []).
Proof. vm_compute. repeat split. Qed.

(** ** Tool calls *)

(** The course id 0, a missing assignment id, and the course id written
    as the string 0. *)
Lemma handleToolCall_requires_truthy_ids_witness :
  Spec.falsy_id (({[ "course_id" := JNum 0 ]} : gmap string JsVal)
                   !! "course_id")
  /\ In "get_course_grades"
       ["list_assignments"; "get_submission_status"; "get_course_grades"]
  /\ handleToolCall "get_course_grades" {[ "course_id" := JNum 0 ]} client
       upstream (mkClock noon noon noon)
     = (Throw (mkError "Error" (Some "invalid_arguments")
                 "course_id is required"), [])
  /\ truthy (prop ({[ "course_id" := JNum 7 ]} : gmap string JsVal)
               "course_id") = true
  /\ Spec.falsy_id (({[ "course_id" := JNum 7 ]} : gmap string JsVal)
                      !! "assignment_id")
  /\ handleToolCall "get_submission_status" {[ "course_id" := JNum 7 ]}
       client upstream (mkClock noon noon noon)
     = (Throw (mkError "Error" (Some "invalid_arguments")
                 "assignment_id is required"), [])
  /\ ({[ "course_id" := JStr "0" ]} : gmap string JsVal) !! "course_id"
     = Some (JStr "0")
  /\ "0" <> ""
  /\ exists grades,
       handleToolCall "get_course_grades" {[ "course_id" := JStr "0" ]}
         client upstream_zero (mkClock noon noon noon)
       = (Ret (GradesResult grades), [enrollments_url client (JStr "0")]).
Proof.
  assert (H1 : Spec.falsy_id
                 (({[ "course_id" := JNum 0 ]} : gmap string JsVal)
                    !! "course_id"))
    by (right; left; reflexivity).
  assert (H2 : In "get_course_grades"
                 ["list_assignments"; "get_submission_status";
                  "get_course_grades"])
    by (right; right; left; reflexivity).
  assert (H3 : truthy (prop ({[ "course_id" := JNum 7 ]}
                               : gmap string JsVal) "course_id") = true)
    by reflexivity.
  assert (H4 : Spec.falsy_id
                 (({[ "course_id" := JNum 7 ]} : gmap string JsVal)
                    !! "assignment_id"))
    by (left; reflexivity).
  split; [exact H1|]. split; [exact H2|].
  split.
  - exact (proj1 (handleToolCall_requires_truthy_ids
                    {[ "course_id" := JNum 0 ]} client upstream
                    (mkClock noon noon noon)) H1 "get_course_grades" H2).
  - split; [exact H3|]. split; [exact H4|].
    split.
    + exact (proj1 (proj2 (handleToolCall_requires_truthy_ids
                             {[ "course_id" := JNum 7 ]} client upstream
                             (mkClock noon noon noon))) H3 H4).
    + split; [reflexivity|]. split; [discriminate|].
      exact (proj2 (proj2 (handleToolCall_requires_truthy_ids
                             {[ "course_id" := JStr "0" ]} client
                             upstream_zero (mkClock noon noon noon)))
               "0" eq_refl ltac:(discriminate)).
Defined.

(** C10 as stated fails for the id 0 written as a string: [!courseId]
    is false for the non-empty string, the enrollments of course 0 are
    requested and its grades returned. *)
Lemma handleToolCall_string_zero :
  Number (JStr "0") = Some 0
  /\ handleToolCall "get_course_grades" {[ "course_id" := JStr "0" ]} client
       upstream_zero (mkClock noon noon noon)
     = (Ret (GradesResult
               (Available (Some 0) (Some 88) None None None
                  (mkMetadata "active" None None None))),
        ["https://canvas.example/api/v1/courses/0/enrollments"
           +:+ "?user_id=self&type%5B%5D=StudentEnrollment"]).
Proof. vm_compute. split; reflexivity. Qed.

(** With a truthy id the call goes upstream. *)
Example handleToolCall_sample :
  snd (handleToolCall "list_assignments" {[ "course_id" := JNum 7 ]} client
         upstream (mkClock noon noon noon))
  = ["https://canvas.example/api/v1/courses/7/assignments"
       +:+ "?include%5B%5D=submission&per_page=100"]
  /\ handleToolCall "list_assignments" {[ "course_id" := JStr "" ]} client
       upstream (mkClock noon noon noon)
     = (Throw (mkError "Error" (Some "invalid_arguments")
                 "course_id is required"), []).
Proof. vm_compute. repeat split. Qed.


(** ** Further properties at concrete inputs *)

Import Protocol Startup Addon Cases.

(** A base URL without a trailing slash; a timeout of five seconds, one
    of half a millisecond and one that is negative. *)
Lemma constructor_normalises_witness :
  baseUrl (constructor (mkConfig ("https://canvas.example" +:+ "/") "secret"
                          (Some (inject_Z 5000))))
  = "https://canvas.example"
  /\ (endsWith "https://canvas.example" "/" = false
      /\ baseUrl (constructor (mkConfig "https://canvas.example" "secret"
                                 (Some (inject_Z 5000))))
         = "https://canvas.example")
  /\ (0 < 5000
      /\ timeoutMs (constructor (mkConfig "https://canvas.example" "secret"
                                   (Some (inject_Z 5000)))) = 5000)
  /\ ((0 < half_ms)%Q
      /\ timeoutMs (constructor (mkConfig "https://canvas.example" "secret"
                                   (Some half_ms))) = Qfloor half_ms)
  /\ ((half_ms < 1)%Q
      /\ timeoutMs (constructor (mkConfig "https://canvas.example" "secret"
                                   (Some half_ms))) = 0)
  /\ ((exists q, Some (inject_Z (-3)) = Some q /\ (q <= 0)%Q)
      /\ timeoutMs (constructor (mkConfig "https://canvas.example" "secret"
                                   (Some (inject_Z (-3))))) = 15000).
Proof.
  destruct (constructor_normalises "https://canvas.example" "secret"
              (Some (inject_Z 5000))) as [H1 [H2 [_ [_ [H5 _]]]]].
  destruct (constructor_normalises "https://canvas.example" "secret"
              (Some half_ms)) as [_ [_ [_ [H4 [_ [H6 _]]]]]].
  destruct (constructor_normalises "https://canvas.example" "secret"
              (Some (inject_Z (-3)))) as [_ [_ [_ [_ [_ [_ H7]]]]]].
  assert (He : endsWith "https://canvas.example" "/" = false)
    by reflexivity.
  assert (Hp : 0 < 5000) by lia.
  assert (Hh : (0 < half_ms)%Q) by reflexivity.
  assert (Hl : (half_ms < 1)%Q) by reflexivity.
  assert (Hn : exists q, Some (inject_Z (-3)) = Some q /\ (q <= 0)%Q)
    by (exists (inject_Z (-3)); split; [reflexivity | discriminate]).
  split; [exact H1|].
  split; [split; [exact He | exact (H2 He)]|].
  split; [split; [exact Hp | exact (H5 5000 eq_refl Hp)]|].
  split; [split; [exact Hh | exact (H4 half_ms eq_refl Hh)]|].
  split; [split; [exact Hl | exact (H6 half_ms eq_refl Hh Hl)]|].
  split; [exact Hn | exact (H7 (or_intror Hn))].
Defined.

(** A header with a [current] and a [next] relation. *)
Lemma parseLinkHeader_url_shape_witness :
  parseLinkHeader (Some next_header) = Some (page_url "2")
  /\ truthy_string (page_url "2") = true
  /\ Spec.lacks ">" (page_url "2") = true
  /\ Spec.lacks "," (page_url "2") = true
  /\ exists h, Some next_header = Some h /\ truthy_string h = true.
Proof.
  assert (Hp : parseLinkHeader (Some next_header) = Some (page_url "2"))
    by (vm_compute; reflexivity).
  split; [exact Hp|].
  exact (parseLinkHeader_url_shape (Some next_header) (page_url "2") Hp).
Defined.

(** Two pages of courses. *)
Lemma getWithPagination_returns_bodies_witness :
  getWithPagination client "/courses" courses_params two_pages
  = (Ret three_raw_courses, two_requests)
  /\ exists url pages bodies extra,
      URL_serialize (baseUrl client +:+ "/api/v1" +:+ "/courses")
        (courses_params ++ [("per_page", "100")]) = Some url
      /\ two_pages = List.map Resolves pages ++ extra
      /\ List.map Aux.page_body pages = List.map Some bodies
      /\ three_raw_courses = concat bodies
      /\ two_requests = Aux.chain url pages
      /\ length two_requests = length pages.
Proof.
  assert (Hrun : getWithPagination client "/courses" courses_params two_pages
                 = (Ret three_raw_courses, two_requests))
    by (vm_compute; reflexivity).
  split; [exact Hrun|].
  exact (getWithPagination_returns_bodies client "/courses" courses_params
           two_pages three_raw_courses two_requests Hrun).
Defined.

(** A server error on the second page. *)
Lemma getWithPagination_throws_last_witness :
  getWithPagination client "/courses" courses_params second_fails
  = (Throw (canvas_api_error server_error), two_requests)
  /\ ((URL_serialize (baseUrl client +:+ "/api/v1" +:+ "/courses")
         (courses_params ++ [("per_page", "100")]) = None
       /\ canvas_api_error server_error = raised InvalidURL
       /\ two_requests = [])
      \/ exists pages bodies f extra,
          second_fails = List.map Resolves pages ++ f :: extra
          /\ List.map Aux.page_body pages = List.map Some bodies
          /\ length two_requests = S (length pages)
          /\ ((exists err, f = Rejects err
                           /\ canvas_api_error server_error
                              = rethrown client err)
              \/ (exists r, f = Resolves r /\ ok r = false
                            /\ canvas_api_error server_error
                               = canvas_api_error r)
              \/ (exists r, f = Resolves r /\ ok r = true /\ json r = None
                            /\ canvas_api_error server_error
                               = invalid_response)
              \/ (exists r, f = Resolves r /\ ok r = true
                            /\ json r = Some NotIterable
                            /\ canvas_api_error server_error
                               = raised NotSpreadable))).
Proof.
  assert (Hrun : getWithPagination client "/courses" courses_params
                   second_fails
                 = (Throw (canvas_api_error server_error), two_requests))
    by (vm_compute; reflexivity).
  split; [exact Hrun|].
  exact (getWithPagination_throws_last client "/courses" courses_params
           second_fails (canvas_api_error server_error) two_requests Hrun).
Defined.


(** A status filter the schema does not know. *)
Lemma listAssignments_other_status_is_all_witness :
  JStr "late" <> JStr "missing"
  /\ JStr "late" <> JStr "unsubmitted"
  /\ JStr "late" <> JStr "submitted"
  /\ listAssignments client (JNum 7) (JBool true) (JStr "late") noon noon
       (up_assignments upstream "7")
     = listAssignments client (JNum 7) (JBool true) (JStr "all") noon noon
         (up_assignments upstream "7").
Proof.
  assert (H1 : JStr "late" <> JStr "missing") by discriminate.
  assert (H2 : JStr "late" <> JStr "unsubmitted") by discriminate.
  assert (H3 : JStr "late" <> JStr "submitted") by discriminate.
  split; [exact H1|]. split; [exact H2|]. split; [exact H3|].
  exact (listAssignments_other_status_is_all client (JNum 7) (JBool true)
           (JStr "late") noon noon (up_assignments upstream "7") H1 H2 H3).
Defined.

(** An assignment graded without a [submitted_at] is kept by both
    filters. *)
Lemma listAssignments_filters_cover_witness :
  (In (normalize_assignment graded_on_paper)
      (filter_assignments (JBool true) (JStr "all") noon noon paper_pool)
   /\ (In (normalize_assignment graded_on_paper)
          (filter_assignments (JBool true) (JStr "unsubmitted") noon noon
             paper_pool)
       \/ In (normalize_assignment graded_on_paper)
             (filter_assignments (JBool true) (JStr "submitted") noon noon
                paper_pool)))
  /\ (status_keep (JStr "unsubmitted") noon graded_on_paper
      && status_keep (JStr "submitted") noon graded_on_paper = true
      /\ hasSubmittedAt (asg_submission graded_on_paper) = false
      /\ Aux.workflow_submitted graded_on_paper = true).
Proof.
  destruct (listAssignments_filters_cover (JBool true) noon noon paper_pool
              (normalize_assignment graded_on_paper)) as [Hcover Hboth].
  assert (Hin : In (normalize_assignment graded_on_paper)
                  (filter_assignments (JBool true) (JStr "all") noon noon
                     paper_pool)) by (right; left; reflexivity).
  assert (Hkeep : status_keep (JStr "unsubmitted") noon graded_on_paper
                  && status_keep (JStr "submitted") noon graded_on_paper
                  = true) by reflexivity.
  split; [split; [exact Hin | exact (Hcover Hin)]|].
  split; [exact (proj2 (Hboth graded_on_paper)
                   (proj1 (Hboth graded_on_paper) Hkeep))|].
  exact (proj1 (Hboth graded_on_paper) Hkeep).
Defined.

(** Three assignments at [noon]: locked until March, with an
    [unlock_at] that is no date, and without one. *)
Lemma filter_assignments_include_future_witness :
  (JBool false <> JUndefined
   /\ truthy (JBool false) = false
   /\ filter_assignments (JBool false) (JStr "all") noon noon unlock_pool
      = List.map normalize_assignment
          (List.filter (Aux.released noon) unlock_pool))
  /\ (asg_unlock_at unlock_unparseable = Value "soon"
      /\ "soon" <> ""
      /\ Date_parse "soon" = None
      /\ Aux.released noon unlock_unparseable = false)
  /\ filter_assignments JUndefined (JStr "all") noon noon unlock_pool
     = List.map normalize_assignment unlock_pool.
Proof.
  destruct (filter_assignments_include_future (JBool false) noon noon
              unlock_pool) as [Hfalse [Hbad Hall]].
  assert (H1 : JBool false <> JUndefined) by discriminate.
  assert (H2 : "soon" <> "") by discriminate.
  assert (H3 : Date_parse "soon" = None) by reflexivity.
  split; [split; [exact H1|]; split; [reflexivity | exact (Hfalse H1 eq_refl)]|].
  split; [|exact Hall].
  split; [reflexivity|]. split; [exact H2|]. split; [exact H3|].
  exact (Hbad unlock_unparseable "soon" eq_refl H2 H3).
Defined.

(** A concluded enrollment with the later end date before an active
    one: the active one is summarised. A course id that is no number,
    and one that has no primitive value. *)
Lemma getCourseGrades_summary_witness :
  (fst (getCourseGrades client (JNum 7) enrollments_page)
   = Ret (summarize (Some 7) active_enrollment)
   /\ (summarize (Some 7) active_enrollment = hidden (Number (JNum 7))
       \/ exists r enrollments n e,
           enrollments_page = Resolves r
           /\ ok r = true
           /\ json r = Some (Elements enrollments)
           /\ Number (JNum 7) = Some n
           /\ In e enrollments
           /\ enr_course_id e = n
           /\ (enrollment_state e = "active"
               \/ forall e', In e' enrollments -> enr_course_id e' = n ->
                             enrollment_state e' <> "active")
           /\ summarize (Some 7) active_enrollment = summarize (Some n) e))
  /\ (convertible (JStr "abc") = true
      /\ Number (JStr "abc") = None
      /\ fst (getCourseGrades client (JStr "abc") enrollments_page)
         = Ret (hidden None))
  /\ (convertible object_id = false
      /\ getCourseGrades client object_id enrollments_page
         = (Throw (raised NoPrimitive), [])).
Proof.
  assert (Hrun : fst (getCourseGrades client (JNum 7) enrollments_page)
                 = Ret (summarize (Some 7) active_enrollment))
    by (vm_compute; reflexivity).
  assert (Hnan : Number (JStr "abc") = None) by reflexivity.
  split.
  - split; [exact Hrun|].
    exact (proj1 (getCourseGrades_summary client (JNum 7) enrollments_page)
             (summarize (Some 7) active_enrollment) Hrun).
  - split.
    + split; [reflexivity|]. split; [exact Hnan|].
      exact (proj1 (proj2 (getCourseGrades_summary client (JStr "abc")
                             enrollments_page)) eq_refl Hnan).
    + split; [reflexivity|].
      exact (proj2 (proj2 (getCourseGrades_summary client object_id
                             enrollments_page)) eq_refl).
Defined.

(** An enrollment whose grade fields are all [null], and one with a
    score. *)
Lemma summarize_no_grades_yet_witness :
  (Aux.all_null ungraded_enrollment
   /\ summarize (Some 7) ungraded_enrollment
      = Unavailable (Some 7) no_grades_yet
          (Some (metadata_of ungraded_enrollment)))
  /\ (~ Aux.all_null active_enrollment
      /\ exists cs cg fs fg,
          summarize (Some 7) active_enrollment
          = Available (Some 7) cs cg fs fg (metadata_of active_enrollment)).
Proof.
  destruct (summarize_no_grades_yet (Some 7) ungraded_enrollment)
    as [Hnull _].
  destruct (summarize_no_grades_yet (Some 7) active_enrollment)
    as [_ Hdata].
  assert (H1 : summarize (Some 7) ungraded_enrollment
               = Unavailable (Some 7) no_grades_yet
                   (Some (metadata_of ungraded_enrollment)))
    by reflexivity.
  assert (H2 : exists cs cg fs fg,
             summarize (Some 7) active_enrollment
             = Available (Some 7) cs cg fs fg (metadata_of active_enrollment))
    by (do 4 eexists; reflexivity).
  split.
  - split; [exact (proj2 Hnull H1) | exact (proj1 Hnull (proj2 Hnull H1))].
  - split; [exact (proj2 Hdata H2) | exact (proj1 Hdata (proj2 Hdata H2))].
Defined.

(** Two courses, the assignments of the second of which cannot be
    fetched; those of the first arrive latest first. *)
Lemma listUpcoming_ascending_witness :
  fst (listUpcoming client two_courses (JNum 40) (JBool true) JUndefined noon)
  = Ret upcoming_sorted
  /\ Aux.ascending (fun item => Date_parse (item_due_at item)) upcoming_sorted
  /\ exists courses targets collected,
      fst (listCourses client (up_courses two_courses)) = Ret courses
      /\ fst (targetCourses JUndefined courses) = Ret targets
      /\ fst (listUpcoming_loop client two_courses noon
                (futureLimit noon (default_param (JNum 40) (JNum 14)))
                (default_param (JBool true) (JBool true)) targets [])
         = Ret collected
      /\ Permutation upcoming_sorted collected.
Proof.
  assert (Hrun : fst (listUpcoming client two_courses (JNum 40) (JBool true)
                        JUndefined noon) = Ret upcoming_sorted)
    by (vm_compute; reflexivity).
  split; [exact Hrun|].
  exact (listUpcoming_ascending client two_courses (JNum 40) (JBool true)
           JUndefined noon upcoming_sorted Hrun).
Defined.

(** The course list answers 500; a day count that has no primitive
    value. *)
Lemma listUpcoming_throws_only_early_witness :
  (fst (listUpcoming client failing (JNum 40) (JBool true) JUndefined noon)
   = Throw (canvas_api_error server_error)
   /\ (fst (listCourses client (up_courses failing))
       = Throw (canvas_api_error server_error)
       \/ (canvas_api_error server_error
           = raised (NotCallable "courseIds.includes")
           /\ truthy JUndefined = true
           /\ (forall ids, JUndefined <> JArr ids)
           /\ (forall s, JUndefined <> JStr s))
       \/ (canvas_api_error server_error = raised NoPrimitive
           /\ convertible (default_param (JNum 40) (JNum 14)) = false
           /\ exists courses targets,
               fst (listCourses client (up_courses failing)) = Ret courses
               /\ fst (targetCourses JUndefined courses) = Ret targets)))
  /\ (fst (listUpcoming client two_courses object_id (JBool true)
             JUndefined noon)
      = Throw (raised NoPrimitive)
      /\ (fst (listCourses client (up_courses two_courses))
          = Throw (raised NoPrimitive)
          \/ (raised NoPrimitive = raised (NotCallable "courseIds.includes")
              /\ truthy JUndefined = true
              /\ (forall ids, JUndefined <> JArr ids)
              /\ (forall s, JUndefined <> JStr s))
          \/ (raised NoPrimitive = raised NoPrimitive
              /\ convertible (default_param object_id (JNum 14)) = false
              /\ exists courses targets,
                  fst (listCourses client (up_courses two_courses))
                  = Ret courses
                  /\ fst (targetCourses JUndefined courses) = Ret targets))).
Proof.
  assert (Hrun : fst (listUpcoming client failing (JNum 40) (JBool true)
                        JUndefined noon)
                 = Throw (canvas_api_error server_error))
    by (vm_compute; reflexivity).
  assert (Hobj : fst (listUpcoming client two_courses object_id (JBool true)
                        JUndefined noon)
                 = Throw (raised NoPrimitive))
    by (vm_compute; reflexivity).
  split.
  - split; [exact Hrun|].
    exact (listUpcoming_throws_only_early client failing (JNum 40)
             (JBool true) JUndefined noon (canvas_api_error server_error)
             Hrun).
  - split; [exact Hobj|].
    exact (listUpcoming_throws_only_early client two_courses object_id
             (JBool true) JUndefined noon (raised NoPrimitive) Hobj).
Defined.

(** Two listed courses, 7 and 8, and an array that names course 8 as a
    string, course 7 as a number and a course that does not exist: the
    assignments of course 7 are requested before those of course 8. *)
Lemma targetCourses_selection_witness :
  listUpcoming client two_courses (JNum 40) (JBool true) selected_ids noon
  = (Ret upcoming_sorted, selected_requests)
  /\ exists courses log0 targets,
      listCourses client (up_courses two_courses) = (Ret courses, log0)
      /\ targetCourses selected_ids courses = ret targets
      /\ selected_requests
         = log0 ++ flat_map (Aux.assignment_requests client two_courses noon)
                     targets
      /\ (truthy selected_ids = false -> targets = courses)
      /\ (forall ids,
             selected_ids = JArr ids ->
             exists keep : Course -> bool,
               (forall c,
                   keep c = true
                   <-> In (JNum (course_id c)) ids
                       \/ In (JStr (pretty (course_id c))) ids)
               /\ targets = List.filter keep courses
               /\ (ids = [] -> targets = [])).
Proof.
  assert (Hrun : listUpcoming client two_courses (JNum 40) (JBool true)
                   selected_ids noon
                 = (Ret upcoming_sorted, selected_requests))
    by (vm_compute; reflexivity).
  split; [exact Hrun|].
  exact (targetCourses_selection client two_courses (JNum 40) (JBool true)
           selected_ids noon upcoming_sorted selected_requests Hrun).
Defined.

(** A tool that does not exist, and [get_submission_status] without
    the assignment id. *)
Lemma handleToolCall_catalog_witness :
  (~ In "delete_course" (List.map tool_name TOOLS)
   /\ handleToolCall "delete_course" course_only client upstream clock
      = (Throw (makeError "invalid_tool" "Unknown tool: delete_course"), []))
  /\ (In (mkTool "get_submission_status" ["course_id"; "assignment_id"]
            ["course_id"; "assignment_id"]) TOOLS
      /\ (exists k, In k ["course_id"; "assignment_id"]
                    /\ truthy (prop course_only k) = false)
      /\ exists msg,
          handleToolCall "get_submission_status" course_only client upstream
            clock
          = (Throw (makeError "invalid_arguments" msg), [])).
Proof.
  destruct (handleToolCall_catalog course_only client upstream clock)
    as [Hunknown Hrequired].
  assert (Hnot : ~ In "delete_course" (List.map tool_name TOOLS)).
  { cbn. intros [E|[E|[E|[E|[E|[]]]]]]; discriminate E. }
  assert (Hin : In (mkTool "get_submission_status"
                      ["course_id"; "assignment_id"]
                      ["course_id"; "assignment_id"]) TOOLS)
    by (right; right; left; reflexivity).
  assert (Hthrow : exists msg,
             handleToolCall "get_submission_status" course_only client
               upstream clock
             = (Throw (makeError "invalid_arguments" msg), []))
    by (exists "assignment_id is required"; vm_compute; reflexivity).
  split; [split; [exact Hnot | exact (Hunknown "delete_course" Hnot)]|].
  split; [exact Hin|].
  split; [exact (proj1 (Hrequired _ Hin) Hthrow)|].
  exact (proj2 (Hrequired _ Hin) (proj1 (Hrequired _ Hin) Hthrow)).
Defined.

(** [include_future: null] and [status_filter: ""]. *)
Lemma handleToolCall_falsy_options_witness :
  (truthy JNull = false
   /\ falsy_args !! "include_future" = Some JNull
   /\ JNull <> JUndefined
   /\ handleToolCall "list_assignments" falsy_args client upstream clock
      = handleToolCall "list_assignments"
          (<["include_future" := JBool false]> falsy_args) client upstream
          clock)
  /\ (truthy (JStr "") = false
      /\ falsy_args !! "status_filter" = Some (JStr "")
      /\ handleToolCall "list_assignments" falsy_args client upstream clock
         = handleToolCall "list_assignments" (delete "status_filter" falsy_args)
             client upstream clock).
Proof.
  assert (H1 : falsy_args !! "include_future" = Some JNull)
    by (vm_compute; reflexivity).
  assert (H2 : JNull <> JUndefined) by discriminate.
  assert (H3 : falsy_args !! "status_filter" = Some (JStr ""))
    by (vm_compute; reflexivity).
  split.
  - split; [reflexivity|]. split; [exact H1|]. split; [exact H2|].
    exact (proj1 (handleToolCall_falsy_options falsy_args client upstream
                    clock JNull eq_refl) H1 H2).
  - split; [reflexivity|]. split; [exact H3|].
    exact (proj2 (handleToolCall_falsy_options falsy_args client upstream
                    clock (JStr "") eq_refl) H3).
Defined.

(** The origin [http://localhost:3000]: accepted where it is listed as
    it is, refused by the default list. *)
Lemma validateOrigin_exact_entries_witness :
  truthy_string "http://localhost:3000" = true
  /\ URL_parse "http://localhost:3000" = Some ("http:", "localhost")
  /\ endsWith "http:" ":" = true
  /\ (validateOrigin exact_env (Some "http://localhost:3000") = true
      /\ In "http://localhost:3000" (ALLOWED_ORIGINS exact_env)
      /\ includes "http://localhost:3000" "*" = false)
  /\ ((forall a, In a (ALLOWED_ORIGINS env) -> includes a "*" = true)
      /\ exists message,
          handle env (mkRequest (Some "http://localhost:3000")
                        (Some "localhost:8080") (Some "Bearer s3cret"))
          = Answered 403 message).
Proof.
  assert (H1 : truthy_string "http://localhost:3000" = true) by reflexivity.
  assert (H2 : URL_parse "http://localhost:3000" = Some ("http:", "localhost"))
    by (vm_compute; reflexivity).
  assert (H3 : endsWith "http:" ":" = true) by reflexivity.
  assert (H4 : In "http://localhost:3000" (ALLOWED_ORIGINS exact_env)
               /\ includes "http://localhost:3000" "*" = false)
    by (split; [left; reflexivity | reflexivity]).
  assert (H5 : forall a, In a (ALLOWED_ORIGINS env) -> includes a "*" = true)
    by (intros a [<-|[<-|[]]]; reflexivity).
  split; [exact H1|]. split; [exact H2|]. split; [exact H3|].
  split.
  - split.
    + exact (proj2 (proj1 (validateOrigin_exact_entries exact_env
                             "http://localhost:3000" "http:" "localhost"
                             H1 H2 H3)) H4).
    + exact (proj1 (proj1 (validateOrigin_exact_entries exact_env
                             "http://localhost:3000" "http:" "localhost"
                             H1 H2 H3))
               (proj2 (proj1 (validateOrigin_exact_entries exact_env
                                "http://localhost:3000" "http:" "localhost"
                                H1 H2 H3)) H4)).
  - split; [exact H5|].
    exact (proj2 (validateOrigin_exact_entries env "http://localhost:3000"
                    "http:" "localhost" H1 H2 H3) H5
             (Some "localhost:8080") (Some "Bearer s3cret")).
Defined.


(** A [tools/call] of [list_courses], answered and logged. *)
Lemma post_replies_and_logs_witness :
  (fst (post client upstream clock (Some "abc")
          (call_body (JStr "list_courses")) 5 9)
   = Ret (courses_reply, [courses_record])
   /\ exists record,
       [courses_record] = [record]
       /\ log_success record = true
       /\ log_level record = "info"
       /\ log_code record = None
       /\ log_duration_ms record = 9 - 5)
  /\ (snd (post client upstream clock (Some "abc")
             (call_body (JStr "list_courses")) 5 9) <> []
      /\ get (call_body (JStr "list_courses")) "jsonrpc" = JStr "2.0"
      /\ get (call_body (JStr "list_courses")) "method" = JStr "tools/call").
Proof.
  destruct (post_replies_and_logs client upstream clock (Some "abc")
              (call_body (JStr "list_courses")) 5 9) as [_ [Hlogs Hsent]].
  assert (Hrun : fst (post client upstream clock (Some "abc")
                        (call_body (JStr "list_courses")) 5 9)
                 = Ret (courses_reply, [courses_record]))
    by (vm_compute; reflexivity).
  assert (Hlog : snd (post client upstream clock (Some "abc")
                        (call_body (JStr "list_courses")) 5 9) <> [])
    by (vm_compute; discriminate).
  split.
  - split; [exact Hrun | exact (Hlogs courses_reply [courses_record] Hrun)].
  - split; [exact Hlog | exact (Hsent Hlog)].
Defined.

(** A call of [delete_course]. *)
Lemma unknown_tool_on_both_transports_witness :
  ~ In "delete_course" (List.map tool_name TOOLS)
  /\ truthy_string "abc" = true
  /\ get (call_body (JStr "delete_course")) "jsonrpc" = JStr "2.0"
  /\ get (call_body (JStr "delete_course")) "method" = JStr "tools/call"
  /\ get (get (call_body (JStr "delete_course")) "params") "name"
     = JStr "delete_course"
  /\ post client upstream clock (Some "abc") (call_body (JStr "delete_course"))
       5 9
     = (Ret (CallError (get (call_body (JStr "delete_course")) "id")
               ("Error [invalid_tool]: Unknown tool: " +:+ "delete_course"),
             [mkLog "error" "tool_call" (JStr "delete_course")
                (or_JNull (get (call_body (JStr "delete_course")) "id"))
                (9 - 5) false (Some "invalid_tool")]), [])
  /\ forall args,
      stdio_call client upstream clock "delete_course" args
      = (Ret (inr ("Error: Unknown tool: " +:+ "delete_course")), []).
Proof.
  assert (Hnot : ~ In "delete_course" (List.map tool_name TOOLS)).
  { cbn. intros [E|[E|[E|[E|[E|[]]]]]]; discriminate E. }
  assert (H1 : truthy_string "abc" = true) by reflexivity.
  assert (H2 : get (call_body (JStr "delete_course")) "jsonrpc" = JStr "2.0")
    by (vm_compute; reflexivity).
  assert (H3 : get (call_body (JStr "delete_course")) "method"
               = JStr "tools/call") by (vm_compute; reflexivity).
  assert (H4 : get (get (call_body (JStr "delete_course")) "params") "name"
               = JStr "delete_course") by (vm_compute; reflexivity).
  split; [exact Hnot|]. split; [exact H1|]. split; [exact H2|].
  split; [exact H3|]. split; [exact H4|].
  exact (unknown_tool_on_both_transports client upstream clock "abc"
           (call_body (JStr "delete_course")) "delete_course" 5 9
           Hnot H1 H2 H3 H4).
Defined.


(** An environment with the two required variables, a timeout of 0 and
    two allowed origins; and one without the required variables. *)
Lemma http_server_settings_witness :
  (env_or bare_env "CANVAS_BASE_URL" "" = ""
   \/ env_or bare_env "CANVAS_API_TOKEN" "" = "")
  /\ http_server bare_env = None
  /\ stdio_server bare_env = None
  /\ http_server process_env = Some started
  /\ timeoutMs (canvasClient started) = CANVAS_TIMEOUT_MS started
  /\ 1 <= CANVAS_TIMEOUT_MS started
  /\ truthy_string (BASE_PATH started) = true
  /\ ALLOWED_ORIGINS (settings_env started) <> []
  /\ (forall o, In o (ALLOWED_ORIGINS (settings_env started)) -> trim o = o)
  /\ (exists client,
         stdio_server process_env = Some client
         /\ baseUrl client = baseUrl (canvasClient started)
         /\ apiToken client = apiToken (canvasClient started)
         /\ timeoutMs client = 15000).
Proof.
  destruct (http_server_settings bare_env) as [Hnone [Hboth _]].
  destruct (http_server_settings process_env) as [_ [_ Hsettings]].
  assert (Hmissing : env_or bare_env "CANVAS_BASE_URL" "" = ""
                     \/ env_or bare_env "CANVAS_API_TOKEN" "" = "")
    by (left; vm_compute; reflexivity).
  assert (Hstart : http_server process_env = Some started)
    by (vm_compute; reflexivity).
  destruct (Hsettings started Hstart) as [H1 [H2 [H3 [H4 [H5 [_ H7]]]]]].
  split; [exact Hmissing|].
  split; [exact (proj2 Hnone Hmissing)|].
  split; [exact (proj1 Hboth (proj2 Hnone Hmissing))|].
  split; [exact Hstart|].
  split; [exact H1|]. split; [exact H2|]. split; [exact H3|].
  split; [exact H4|]. split; [exact H5 | exact H7].
Defined.

(** The options of the add-on on an environment that holds a token of
    its own: the empty [mcp_auth_token] leaves that token in place. *)
Lemma setEnvFromOptions_effect_witness :
  (exists e, setEnvFromOptions JNull bare_env = inl e)
  /\ setEnvFromOptions options bare_env = inr prepared_env
  /\ prepared_env !! "CANVAS_BASE_URL" = Some "https://school.example/"
  /\ prepared_env !! "MCP_AUTH_TOKEN" = Some "s3cret"
  /\ (~ In "HOME" ["CANVAS_BASE_URL"; "CANVAS_API_TOKEN"; "MCP_AUTH_TOKEN"]
      /\ prepared_env !! "HOME" = bare_env !! "HOME")
  /\ (bare_env !! "HOME" <> None /\ prepared_env !! "HOME" <> None)
  /\ prepare None bare_env = inr bare_env.
Proof.
  destruct (setEnvFromOptions_effect JNull bare_env) as [Hnull _].
  destruct (setEnvFromOptions_effect options bare_env) as [_ [Hset Hnone]].
  assert (Hrun : setEnvFromOptions options bare_env = inr prepared_env)
    by (vm_compute; reflexivity).
  destruct (Hset prepared_env Hrun) as [Hvars [Hother Hkept]].
  assert (Hhome : ~ In "HOME" ["CANVAS_BASE_URL"; "CANVAS_API_TOKEN";
                               "MCP_AUTH_TOKEN"]).
  { intros [E|[E|[E|[]]]]; discriminate E. }
  assert (Hsome : bare_env !! "HOME" <> None) by (vm_compute; discriminate).
  split; [exact (proj1 Hnull eq_refl)|].
  split; [exact Hrun|].
  split; [exact (Hvars "canvas_base_url" "CANVAS_BASE_URL"
                   (or_introl eq_refl))|].
  split; [exact (Hvars "mcp_auth_token" "MCP_AUTH_TOKEN"
                   (or_intror (or_intror (or_introl eq_refl))))|].
  split; [split; [exact Hhome | exact (Hother "HOME" Hhome)]|].
  split; [split; [exact Hsome | exact (Hkept "HOME" Hsome)]|].
  exact Hnone.
Defined.

(** The options of the add-on on an environment without the two
    required variables. *)
Lemma addon_options_start_server_witness :
  prepare (Some options) bare_env = inr prepared_env
  /\ get (loadOptions (Some options)) "canvas_base_url"
     = JStr "https://school.example/"
  /\ get (loadOptions (Some options)) "canvas_api_token" = JStr "t0ken"
  /\ "https://school.example/" <> ""
  /\ "t0ken" <> ""
  /\ exists settings client,
      http_server prepared_env = Some settings
      /\ stdio_server prepared_env = Some client
      /\ baseUrl (canvasClient settings)
         = strip_trailing_slash "https://school.example/"
      /\ apiToken (canvasClient settings) = "t0ken"
      /\ baseUrl client = strip_trailing_slash "https://school.example/"
      /\ apiToken client = "t0ken".
Proof.
  assert (H1 : prepare (Some options) bare_env = inr prepared_env)
    by (vm_compute; reflexivity).
  assert (H2 : get (loadOptions (Some options)) "canvas_base_url"
               = JStr "https://school.example/") by (vm_compute; reflexivity).
  assert (H3 : get (loadOptions (Some options)) "canvas_api_token"
               = JStr "t0ken") by (vm_compute; reflexivity).
  assert (H4 : "https://school.example/" <> "") by discriminate.
  assert (H5 : "t0ken" <> "") by discriminate.
  split; [exact H1|]. split; [exact H2|]. split; [exact H3|].
  split; [exact H4|]. split; [exact H5|].
  exact (addon_options_start_server (Some options) bare_env prepared_env
           "https://school.example/" "t0ken" H1 H2 H3 H4 H5).
Defined.

(** A submission graded with 0 points, an assignment that is not
    found, a body that is no JSON, the body [null], a request that is
    aborted, and an assignment id without a primitive value. *)
Lemma getSubmissionStatus_outcome_witness :
  (convertible (JNum 7) = true /\ convertible (JNum 3) = true)
  /\ snd (getSubmissionStatus client (JNum 7) (JNum 3)
            (Resolves submission_response))
     = ["https://canvas.example" +:+ "/api/v1/courses/" +:+ "7"
          +:+ "/assignments/" +:+ "3" +:+ "/submissions/self" +:+ "?"
          +:+ "include%5B%5D=assignment"]
  /\ (ok submission_response = true
      /\ json submission_response = Some (Some zero_points)
      /\ fst (getSubmissionStatus client (JNum 7) (JNum 3)
                (Resolves submission_response))
         = Ret (normalize_submission zero_points)
      /\ sd_score (normalize_submission zero_points) = Some 0)
  /\ (ok not_found = false
      /\ fst (getSubmissionStatus client (JNum 7) (JNum 3)
                (Resolves not_found))
         = Throw (canvas_api_error not_found))
  /\ (ok no_json = true /\ json no_json = None
      /\ fst (getSubmissionStatus client (JNum 7) (JNum 3)
                (Resolves no_json))
         = Throw invalid_response)
  /\ (ok null_body = true /\ json null_body = Some None
      /\ fst (getSubmissionStatus client (JNum 7) (JNum 3)
                (Resolves null_body))
         = Throw (raised (NoProperties "null")))
  /\ fst (getSubmissionStatus client (JNum 7) (JNum 3) (Rejects AbortError))
     = Throw (rethrown client AbortError)
  /\ ((convertible (JNum 7) = false \/ convertible object_id = false)
      /\ getSubmissionStatus client (JNum 7) object_id
           (Resolves submission_response)
         = (Throw (raised NoPrimitive), [])).
Proof.
  destruct (proj1 (getSubmissionStatus_outcome client (JNum 7) (JNum 3)
                     (Resolves submission_response)) eq_refl eq_refl)
    as [Hlog [_ [_ [_ [_ Hobj]]]]].
  destruct (proj1 (getSubmissionStatus_outcome client (JNum 7) (JNum 3)
                     (Resolves not_found)) eq_refl eq_refl)
    as [_ [_ [Hstatus _]]].
  destruct (proj1 (getSubmissionStatus_outcome client (JNum 7) (JNum 3)
                     (Resolves no_json)) eq_refl eq_refl)
    as [_ [_ [_ [Hbody _]]]].
  destruct (proj1 (getSubmissionStatus_outcome client (JNum 7) (JNum 3)
                     (Resolves null_body)) eq_refl eq_refl)
    as [_ [_ [_ [_ [Hnull _]]]]].
  destruct (proj1 (getSubmissionStatus_outcome client (JNum 7) (JNum 3)
                     (Rejects AbortError)) eq_refl eq_refl)
    as [_ [Hreject _]].
  assert (Hno : convertible (JNum 7) = false \/ convertible object_id = false)
    by (right; reflexivity).
  split; [split; reflexivity|].
  split; [exact Hlog|].
  split; [split; [reflexivity|]; split; [reflexivity|];
          split; [exact (Hobj _ _ eq_refl eq_refl eq_refl) | reflexivity]|].
  split; [split; [reflexivity | exact (Hstatus _ eq_refl eq_refl)]|].
  split; [split; [reflexivity|]; split; [reflexivity|];
          exact (Hbody _ eq_refl eq_refl eq_refl)|].
  split; [split; [reflexivity|]; split; [reflexivity|];
          exact (Hnull _ eq_refl eq_refl eq_refl)|].
  split; [exact (Hreject AbortError eq_refl)|].
  split; [exact Hno|].
  exact (proj2 (getSubmissionStatus_outcome client (JNum 7) object_id
                  (Resolves submission_response)) Hno).
Defined.

(** The first page of the courses is aborted. *)
Lemma post_reports_timeout_witness :
  truthy_string "abc" = true
  /\ get (call_body (JStr "list_courses")) "jsonrpc" = JStr "2.0"
  /\ get (call_body (JStr "list_courses")) "method" = JStr "tools/call"
  /\ get (get (call_body (JStr "list_courses")) "params") "name"
     = JStr "list_courses"
  /\ URL_serialize (baseUrl client +:+ "/api/v1" +:+ "/courses")
       ([("enrollment_state", "active"); ("include[]", "enrollment_state")]
          ++ [("per_page", "100")]) = Some courses_url
  /\ truthy_string courses_url = true
  /\ up_courses timing_out = Rejects AbortError :: []
  /\ (err_name AbortError = "AbortError"
      \/ err_code AbortError = Some "ABORT_ERR")
  /\ post client timing_out clock (Some "abc")
       (call_body (JStr "list_courses")) 5 9
     = (Ret (CallError (get (call_body (JStr "list_courses")) "id")
               ("Error [timeout]: Canvas request timed out after "
                  +:+ pretty (timeoutMs client) +:+ "ms"),
             [mkLog "error" "tool_call" (JStr "list_courses")
                (or_JNull (get (call_body (JStr "list_courses")) "id"))
                (9 - 5) false (Some "timeout")]), [courses_url]).
Proof.
  assert (H1 : truthy_string "abc" = true) by reflexivity.
  assert (H2 : get (call_body (JStr "list_courses")) "jsonrpc" = JStr "2.0")
    by (vm_compute; reflexivity).
  assert (H3 : get (call_body (JStr "list_courses")) "method"
               = JStr "tools/call") by (vm_compute; reflexivity).
  assert (H4 : get (get (call_body (JStr "list_courses")) "params") "name"
               = JStr "list_courses") by (vm_compute; reflexivity).
  assert (H5 : URL_serialize (baseUrl client +:+ "/api/v1" +:+ "/courses")
                 ([("enrollment_state", "active");
                   ("include[]", "enrollment_state")]
                    ++ [("per_page", "100")]) = Some courses_url)
    by (vm_compute; reflexivity).
  assert (H6 : truthy_string courses_url = true) by (vm_compute; reflexivity).
  assert (H7 : up_courses timing_out = Rejects AbortError :: [])
    by reflexivity.
  assert (H8 : err_name AbortError = "AbortError"
               \/ err_code AbortError = Some "ABORT_ERR")
    by (left; reflexivity).
  split; [exact H1|]. split; [exact H2|]. split; [exact H3|].
  split; [exact H4|]. split; [exact H5|]. split; [exact H6|].
  split; [exact H7|]. split; [exact H8|].
  exact (post_reports_timeout client timing_out clock "abc"
           (call_body (JStr "list_courses")) courses_url AbortError [] 5 9
           H1 H2 H3 H4 H5 H6 H7 H8).
Defined.
